(** * HotLabel: task serving, quality control and rate limiting

    A shallow embedding of the decision logic of the HotLabel API
    (api/middleware/rate_limiting.py, api/db/session.py,
    api/services/task_management.py, api/services/quality_assurance.py,
    api/services/user_profiling.py, api/dependencies.py, api/routers/tasks.py
    and api/routers/users.py) together with the properties its design
    document states about it.

    Conventions of the embedding:
    - the Redis server is a finite map from keys to values with an optional
      expiry deadline; every service call reads the clock once ([now], in
      whole seconds) and all its Redis commands run at that instant; a key
      is served through the second of its deadline;
    - a value written with [json.dumps] is kept decoded ([RJson]), so that
      [json.loads] of it is the identity;
    - Python floats are binary64 numbers ([PrimFloat.float]);
    - [uuid.uuid4()] is an input of the call that draws it;
    - a Python exception escaping a function is the outcome [Raised]. *)

From Stdlib Require Import ZArith Floats Ascii String.
From stdpp Require Import gmap strings list fin_maps pretty sorting.
Set Warnings "-inexact-float".

Local Open Scope Z_scope.

(** ** Outcomes: a value or an escaping exception *)

Inductive outcome (A : Type) : Type :=
| Raised : outcome A
| Ok (a : A) : outcome A.
Arguments Raised {A}.
Arguments Ok {A} a.

(** ** Documents stored as JSON *)

(** [TaskSubmissionRequest.response : Union[str, List[str], Dict[str, Any]]]. *)
Inductive response_value : Type :=
| RespStr (s : string)
| RespList (l : list string)
| RespDict (d : list (string * string)).

(** [response == expected_answer] for a string [expected_answer]: a list or
    a dict is never equal to a [str]. *)
Definition response_eqb (resp : response_value) (expected : string) : bool :=
  match resp with
  | RespStr s => String.eqb s expected
  | _ => false
  end.

(** api/models/user.py *)
Record ClientInfo := {
  ci_browser : string;
  ci_browser_version : string;
  ci_os : string;
  ci_screen_resolution : string;
  ci_language : string;
  ci_timezone : option string;
  ci_referring_url : option string;
  ci_device_type : option string
}.

Record ConsentSettings := { cs_functional : bool; cs_analytics : bool }.

Record SessionInitRequest := {
  sir_publisher_id : string;
  sir_client_info : ClientInfo;
  sir_consent : ConsentSettings
}.

Record UserProfile := {
  up_language : string;
  up_expertise_level : string;
  up_task_preferences : list string;
  up_max_complexity : Z
}.

Record SessionConfig := {
  sc_task_interval_seconds : Z;
  sc_minimum_view_time_seconds : Z;
  sc_ui_theme : string
}.

Record SessionInitResponse := {
  sr_session_id : string;
  sr_expires_at : Z;
  sr_profile : UserProfile;
  sr_config : SessionConfig
}.

(** api/models/task.py *)
Record SessionInfo := {
  si_browser : string;
  si_browser_version : string;
  si_os : string;
  si_screen_resolution : string;
  si_language : string;
  si_timezone : option string;
  si_device_type : option string
}.

Record TaskContent := {
  tc_image_url : option string;
  tc_question : option string;
  tc_text : option string;
  tc_audio_url : option string;
  tc_video_url : option string;
  tc_context : option string
}.

Record Reward := {
  rw_type : string;
  rw_duration_seconds : option Z;
  rw_points : option Z;
  rw_description : option string
}.

Record TaskResponse := {
  task_id : string;
  task_type : string;
  content : TaskContent;
  options : list string;
  time_estimate_seconds : Z;
  complexity_level : Z;
  golden_set : bool;
  expires_at : Z
}.

Record TaskSummary := {
  ts_task_id : string;
  ts_task_type : string;
  ts_content : TaskContent;
  ts_options : list string;
  ts_complexity_level : Z
}.

Record TaskBatchResponse := {
  tb_batch_id : string;
  tb_tasks : list TaskSummary;
  tb_expires_at : Z
}.

Record TaskSubmissionRequest := {
  sub_session_id : string;
  sub_publisher_id : string;
  sub_response : response_value;
  sub_time_spent_ms : Z;
  sub_session_info : SessionInfo
}.

Record TaskSubmissionResponse := {
  success : bool;
  reward : Reward;
  sbr_quality_score : float;
  next_task_available : bool
}.

(** api/models/quality.py *)
Record ValidationResponse := {
  validation_id : string;
  quality_score : float;
  validation_method : string;
  issues_detected : list string;
  confidence : string;
  feedback : string
}.

(** The dictionaries the services pass to [json.dumps], one constructor per
    shape.  The profile document carries the two keys that
    [update_user_profile] adds to it. *)
Inductive json_doc : Type :=
| DSession (session_id publisher_id : string) (created_at expires : Z)
           (client_info : ClientInfo) (consent : ConsentSettings)
| DProfile (profile : UserProfile)
           (expertise_areas preferred_languages : option (list string))
| DTask (tid ttype : string) (golden : bool) (expected_answer : option string)
        (publisher_id session_id : string) (complexity created_at : Z)
| DValidation (vid tid session_id publisher_id : string)
              (response : response_value) (time_spent_ms : Z) (score : float)
              (method : string) (issues : list string) (validated_at : Z)
| DSubmission (tid session_id publisher_id : string)
              (response : response_value) (time_spent_ms : Z) (score : float)
              (submitted_at : Z)
| DBatch (batch_id publisher_id : string) (tasks : list TaskSummary)
         (created_at : Z).

(** [d.get(key)] for the keys the services read back.  A key is present
    exactly in the shapes that are written with it. *)
Definition get_language (d : json_doc) : option string :=
  match d with DProfile p _ _ => Some (up_language p) | _ => None end.

Definition get_expertise_level (d : json_doc) : option string :=
  match d with DProfile p _ _ => Some (up_expertise_level p) | _ => None end.

Definition get_max_complexity (d : json_doc) : option Z :=
  match d with DProfile p _ _ => Some (up_max_complexity p) | _ => None end.

Definition get_task_type (d : json_doc) : option string :=
  match d with DTask _ ty _ _ _ _ _ _ => Some ty | _ => None end.

Definition get_golden_set (d : json_doc) : option bool :=
  match d with DTask _ _ g _ _ _ _ _ => Some g | _ => None end.

(** [None] is Python's [None]: the key is absent or holds JSON [null]. *)
Definition get_expected_answer (d : json_doc) : option string :=
  match d with DTask _ _ _ e _ _ _ _ => e | _ => None end.

(** ** The Redis store *)

Inductive rvalue : Type :=
| RStr (s : string)            (* a plain string, not a JSON object *)
| RJson (d : json_doc)         (* the string [json.dumps d] *)
| RZSet (z : gmap string Z).   (* a sorted set: member ↦ score *)

Record entry := { e_val : rvalue; e_exp : option Z }.

Abbreviation redis := (gmap string entry).

(** A key with a deadline is served through the second of its deadline
    and is gone once the clock has passed it. *)
Definition live (now : Z) (e : entry) : bool :=
  match e_exp e with
  | None => true
  | Some deadline => now <=? deadline
  end.

Definition redis_lookup (now : Z) (r : redis) (key : string) : option entry :=
  match r !! key with
  | Some e => if live now e then Some e else None
  | None => None
  end.

(** GET: [None] for a missing key, an error for a key of another type. *)
Definition redis_get (now : Z) (r : redis) (key : string) : outcome (option rvalue) :=
  match redis_lookup now r key with
  | None => Ok None
  | Some e =>
      match e_val e with
      | RZSet _ => Raised
      | v => Ok (Some v)
      end
  end.

(** SET key value EX seconds. *)
Definition redis_set (now : Z) (r : redis) (key : string) (v : rvalue) (ex : Z) : redis :=
  <[key := {| e_val := v; e_exp := Some (now + ex) |}]> r.

(** Decimal integers as Redis reads them: an optional minus sign and
    digits, accepted only in canonical form. *)
Definition digit_of (c : Ascii.ascii) : option Z :=
  let n := Z.of_nat (Ascii.nat_of_ascii c) - 48 in
  if (0 <=? n) && (n <=? 9) then Some n else None.

Fixpoint parse_digits (acc : Z) (s : string) : option Z :=
  match s with
  | EmptyString => Some acc
  | String c s' =>
      match digit_of c with
      | Some d => parse_digits (10 * acc + d) s'
      | None => None
      end
  end.

Definition string2ll (s : string) : option Z :=
  let parsed :=
    match s with
    | EmptyString => None
    | String "-"%char s' => match s' with
                       | EmptyString => None
                       | _ => Z.opp <$> parse_digits 0 s'
                       end
    | _ => parse_digits 0 s
    end in
  match parsed with
  | Some n => if String.eqb (pretty n) s then Some n else None
  | None => None
  end.

Definition int64_max : Z := 9223372036854775807.
Definition int64_min : Z := -9223372036854775808.

(** INCR: a missing key counts from 0 and gets no deadline; the deadline of
    an existing key is kept. *)
Definition redis_incr (now : Z) (r : redis) (key : string) : outcome (Z * redis) :=
  match redis_lookup now r key with
  | None => Ok (1, <[key := {| e_val := RStr (pretty 1); e_exp := None |}]> r)
  | Some e =>
      match e_val e with
      | RStr s =>
          match string2ll s with
          | Some n =>
              if (int64_min <=? n) && (n <? int64_max)
              then Ok (n + 1, <[key := {| e_val := RStr (pretty (n + 1)); e_exp := e_exp e |}]> r)
              else Raised
          | None => Raised
          end
      | _ => Raised
      end
  end.

(** *** Sorted-set commands *)

(** The sorted set at [key]; a missing key is the empty set. *)
Definition zset_at (now : Z) (r : redis) (key : string) : outcome (gmap string Z) :=
  match redis_lookup now r key with
  | None => Ok ∅
  | Some e =>
      match e_val e with
      | RZSet z => Ok z
      | _ => Raised
      end
  end.

Definition score_in (lo hi : Z) (ms : string * Z) : Prop := lo ≤ ms.2 ≤ hi.

Global Instance score_in_dec lo hi ms : Decision (score_in lo hi ms).
Proof. unfold score_in. apply _. Defined.

(** ZREMRANGEBYSCORE key lo hi; a set left empty is deleted. *)
Definition zremrangebyscore (now : Z) (r : redis) (key : string) (lo hi : Z) : outcome redis :=
  match redis_lookup now r key with
  | None => Ok (delete key r)
  | Some e =>
      match e_val e with
      | RZSet z =>
          let z' := filter (λ ms, ¬ score_in lo hi ms) z in
          if decide (z' = ∅) then Ok (delete key r)
          else Ok (<[key := {| e_val := RZSet z'; e_exp := e_exp e |}]> r)
      | _ => Raised
      end
  end.

(** ZCARD key. *)
Definition zcard (now : Z) (r : redis) (key : string) : outcome Z :=
  match zset_at now r key with
  | Ok z => Ok (Z.of_nat (size z))
  | Raised => Raised
  end.

(** ZADD key {member: score}; a new key has no deadline. *)
Definition zadd (now : Z) (r : redis) (key : string) (member : string) (score : Z)
    : outcome redis :=
  match redis_lookup now r key with
  | None => Ok (<[key := {| e_val := RZSet {[ member := score ]}; e_exp := None |}]> r)
  | Some e =>
      match e_val e with
      | RZSet z => Ok (<[key := {| e_val := RZSet (<[member := score]> z); e_exp := e_exp e |}]> r)
      | _ => Raised
      end
  end.

(** EXPIRE key seconds; a timeout that is not positive deletes the key. *)
Definition expire (now : Z) (r : redis) (key : string) (seconds : Z) : redis :=
  match redis_lookup now r key with
  | None => delete key r
  | Some e =>
      if 0 <? seconds
      then <[key := {| e_val := e_val e; e_exp := Some (now + seconds) |}]> r
      else delete key r
  end.

(** ** api/middleware/rate_limiting.py *)

(** [str(current)] *)
Definition str (n : Z) : string := pretty n.

(** [_check_rate_limit(key, limit, window)], with the module's [redis_pool]
    ([None] or the pool of a server in state [r]) and the reading
    [current = int(time.time())] as inputs.  Returns
    [(is_rate_limited, remaining, reset_time)] and the pool afterwards. *)
Definition _check_rate_limit (redis_pool : option redis) (current : Z)
    (key : string) (limit window : Z) : outcome ((bool * Z * Z) * option redis) :=
  match redis_pool with
  | None => Ok ((false, limit, window), None)
  | Some r =>
      let window_start := current - window in
      match zremrangebyscore current r key 0 window_start with
      | Raised => Raised
      | Ok r1 =>
          match zcard current r1 key with
          | Raised => Raised
          | Ok request_count =>
              match zadd current r1 key (str current) current with
              | Raised => Raised
              | Ok r2 =>
                  let r3 := expire current r2 key window in
                  let is_rate_limited := limit <=? request_count in
                  let remaining := Z.max 0 (limit - request_count - 1) in
                  let reset_time :=
                    if 60 <? window then window - (current mod window) else window in
                  Ok ((is_rate_limited, remaining, reset_time), Some r3)
              end
          end
      end
  end.

(** A sequence of checks on one key, one per clock reading in [times]. *)
Fixpoint run_checks (redis_pool : option redis) (key : string) (limit window : Z)
    (times : list Z) : outcome (list (bool * Z * Z) * option redis) :=
  match times with
  | [] => Ok ([], redis_pool)
  | current :: rest =>
      match _check_rate_limit redis_pool current key limit window with
      | Raised => Raised
      | Ok (res, pool') =>
          match run_checks pool' key limit window rest with
          | Raised => Raised
          | Ok (ress, pool'') => Ok (res :: ress, pool'')
          end
      end
  end.

(** ** Reading a stored JSON document *)

(** Python truthiness of what [redis.get] returns: [None] and the empty
    string are falsy. *)
Definition falsy (v : option rvalue) : bool :=
  match v with
  | None => true
  | Some (RStr s) => String.eqb s ""
  | Some _ => false
  end.

(** [json.loads] followed by dictionary access.  The plain strings the
    services store are session identifiers and counters; they are taken
    not to be the text of a JSON object, so that [json.loads] or the first
    [.get] on its result raises. *)
Definition json_loads (v : option rvalue) : outcome json_doc :=
  match v with
  | Some (RJson d) => Ok d
  | _ => Raised
  end.

(** ** Redis keys (the f-strings of the services) *)

Definition session_key (publisher_id session_id : string) : string :=
  "session:" +:+ publisher_id +:+ ":" +:+ session_id.
Definition user_profile_key (publisher_id session_id : string) : string :=
  "user:profile:" +:+ publisher_id +:+ ":" +:+ session_id.
Definition tasks_completed_key (session_id : string) : string :=
  "user:tasks_completed:" +:+ session_id.
Definition assignment_key (task_id : string) : string :=
  "task:assigned:" +:+ task_id.
Definition task_key (task_id : string) : string :=
  "task:" +:+ task_id.
Definition validation_key (validation_id : string) : string :=
  "validation:" +:+ validation_id.
Definition submission_key (task_id : string) : string :=
  "submission:" +:+ task_id.
Definition batch_key (batch_id : string) : string :=
  "batch:" +:+ batch_id.

(** ** api/services/user_profiling.py *)

(** ["-" in language] and [language.split("-")[0]] *)
Fixpoint contains_dash (s : string) : bool :=
  match s with
  | EmptyString => false
  | String c s' => if Ascii.eqb c "-" then true else contains_dash s'
  end.

Fixpoint before_dash (s : string) : string :=
  match s with
  | EmptyString => EmptyString
  | String c s' => if Ascii.eqb c "-" then EmptyString else String c (before_dash s')
  end.

(** [initialize_user_session]; [hex] is [uuid.uuid4().hex]. *)
Definition initialize_user_session (now : Z) (hex : string) (r : redis)
    (session_request : SessionInitRequest) : SessionInitResponse * redis :=
  let session_id := "sess_" +:+ substring 0 12 hex in
  let expires_at := now + 86400 in
  let client_info := sir_client_info session_request in
  let language :=
    if contains_dash (ci_language client_info)
    then before_dash (ci_language client_info)
    else ci_language client_info in
  let task_preferences :=
    if decide (ci_device_type client_info = Some "mobile")
    then ["vqa"]
    else ["vqa"; "text_classification"] in
  let profile := {|
    up_language := language;
    up_expertise_level := "beginner";
    up_task_preferences := task_preferences;
    up_max_complexity := 2 |} in
  let config := {|
    sc_task_interval_seconds := 300;
    sc_minimum_view_time_seconds := 3;
    sc_ui_theme := "light" |} in
  let publisher_id := sir_publisher_id session_request in
  let r1 := redis_set now r (session_key publisher_id session_id)
              (RJson (DSession session_id publisher_id now expires_at
                        client_info (sir_consent session_request))) 86400 in
  let r2 := redis_set now r1 (user_profile_key publisher_id session_id)
              (RJson (DProfile profile None None)) 86400 in
  let r3 := redis_set now r2 (tasks_completed_key session_id) (RStr "0") 86400 in
  ({| sr_session_id := session_id;
      sr_expires_at := expires_at;
      sr_profile := profile;
      sr_config := config |}, r3).

(** ** api/services/task_management.py: get_next_task *)

(** [task_id[-4:]] *)
Definition last4 (s : string) : string :=
  substring (String.length s - 4) 4 s.

(** [language or default] *)
Definition or_else (o : option string) (d : string) : string :=
  match o with
  | Some s => if String.eqb s "" then d else s
  | None => d
  end.

(** [get_next_task]; [uuid] is [str(uuid.uuid4())].  The result is the
    optional task and the store afterwards. *)
Definition get_next_task (now : Z) (uuid : string) (r : redis)
    (session_id publisher_id : string)
    (language website_category previous_task_id : option string)
    : outcome (option TaskResponse * redis) :=
  match redis_get now r (user_profile_key publisher_id session_id) with
  | Raised => Raised
  | Ok user_profile_json =>
      if falsy user_profile_json then Ok (None, r)
      else
        match json_loads user_profile_json with
        | Raised => Raised
        | Ok user_profile =>
            let user_language :=
              or_else language (default "en" (get_language user_profile)) in
            let user_expertise := default "beginner" (get_expertise_level user_profile) in
            let max_complexity := default 2 (get_max_complexity user_profile) in
            let task_id := uuid in
            let complexity_level := Z.min max_complexity 3 in
            let finish (golden_set : bool) :=
              let r1 := redis_set now r (assignment_key task_id) (RStr session_id) 300 in
              let task := {|
                task_id := task_id;
                task_type := "vqa";
                content := {|
                  tc_image_url := Some ("https://storage.hotlabel.io/samples/image"
                                          +:+ last4 task_id +:+ ".jpg");
                  tc_question := Some "What color is the car in this image?";
                  tc_text := None; tc_audio_url := None;
                  tc_video_url := None; tc_context := None |};
                options := ["Red"; "Blue"; "Green"; "Yellow"];
                time_estimate_seconds := 5;
                complexity_level := complexity_level;
                golden_set := golden_set;
                expires_at := now + 300 |} in
              let r2 := redis_set now r1 (task_key task_id)
                          (RJson (DTask task_id "vqa" golden_set
                                    (if golden_set then Some "Blue" else None)
                                    publisher_id session_id complexity_level now))
                          3600 in
              Ok (Some task, r2) in
            if String.eqb user_expertise "beginner"
            then
              match redis_get now r (tasks_completed_key session_id) with
              | Raised => Raised
              | Ok counter =>
                  finish (match counter with
                          | Some (RStr s) => String.eqb s "0"
                          | _ => false
                          end)
              end
            else finish false
        end
  end.

(** ** api/services/quality_assurance.py: validate_label_quality *)

(** [f"val_{uuid.uuid4().hex[:10]}"] *)
Definition make_validation_id (hex : string) : string :=
  "val_" +:+ substring 0 10 hex.

(** The score, issue list and feedback chosen by the validation method. *)
Definition score_label (validation_type : string) (task_data : json_doc)
    (response : response_value) (time_spent_ms : Z) : float * list string * string :=
  let quality_score := 0.8%float in
  if String.eqb validation_type "golden_set" && default false (get_golden_set task_data)
  then
    match get_expected_answer task_data with
    | Some expected_answer =>
        if response_eqb response expected_answer
        then (1.0%float, [], "Correct response matches expected answer")
        else (0.3%float, ["incorrect_golden_set_answer"],
              "Response does not match expected answer")
    | None => (0.3%float, ["incorrect_golden_set_answer"],
               "Response does not match expected answer")
    end
  else if String.eqb validation_type "consensus"
  then
    if time_spent_ms <? 500
    then ((quality_score * 0.5)%float, ["suspiciously_fast_response"],
          "Response time was suspiciously fast")
    else if 30000 <? time_spent_ms
    then ((quality_score * 0.9)%float, ["slow_response"],
          "Response time was slower than expected")
    else (quality_score, [], "")
  else (quality_score, [], "").

(** [validate_label_quality]; [hex] is [uuid.uuid4().hex]. *)
Definition validate_label_quality (now : Z) (hex : string) (r : redis)
    (task_id session_id publisher_id : string) (response : response_value)
    (time_spent_ms : Z) (task_type validation_type : string)
    : outcome (ValidationResponse * redis) :=
  match redis_get now r (task_key task_id) with
  | Raised => Raised
  | Ok task_json =>
      if falsy task_json
      then Ok ({| validation_id := make_validation_id hex;
                  quality_score := 0.2%float;
                  validation_method := "unknown";
                  issues_detected := ["task_not_found"];
                  confidence := "low";
                  feedback := "Task not found or expired" |}, r)
      else
        match json_loads task_json with
        | Raised => Raised
        | Ok task_data =>
            let validation_id := make_validation_id hex in
            let '(quality_score, issues_detected, feedback) :=
              score_label validation_type task_data response time_spent_ms in
            let r1 := redis_set now r (validation_key validation_id)
                        (RJson (DValidation validation_id task_id session_id publisher_id
                                  response time_spent_ms quality_score validation_type
                                  issues_detected now)) 86400 in
            let confidence :=
              if String.eqb validation_type "golden_set" then "high" else "medium" in
            Ok ({| validation_id := validation_id;
                   quality_score := quality_score;
                   validation_method := validation_type;
                   issues_detected := issues_detected;
                   confidence := confidence;
                   feedback := feedback |}, r1)
        end
  end.

(** ** api/services/task_management.py: submit_task_result *)

(** The reward tiers of [submit_task_result]. *)
Definition reward_duration (quality_score : float) : Z :=
  if (0.9 <=? quality_score)%float then 7200
  else if (0.8 <=? quality_score)%float then 5400
  else if (0.7 <=? quality_score)%float then 3600
  else 1800.

(** [submit_task_result]; [hex] is the [uuid.uuid4().hex] drawn by the
    validator. *)
Definition submit_task_result (now : Z) (hex : string) (r : redis)
    (task_id : string) (submission : TaskSubmissionRequest)
    : outcome (TaskSubmissionResponse * redis) :=
  match redis_get now r (task_key task_id) with
  | Raised => Raised
  | Ok task_json =>
      if falsy task_json
      then Ok ({| success := false;
                  reward := {| rw_type := "none"; rw_duration_seconds := None;
                               rw_points := None; rw_description := None |};
                  sbr_quality_score := 0.0%float;
                  next_task_available := true |}, r)
      else
        match json_loads task_json with
        | Raised => Raised
        | Ok task_data =>
            match validate_label_quality now hex r task_id
                    (sub_session_id submission) (sub_publisher_id submission)
                    (sub_response submission) (sub_time_spent_ms submission)
                    (default "vqa" (get_task_type task_data))
                    (if default false (get_golden_set task_data)
                     then "golden_set" else "consensus") with
            | Raised => Raised
            | Ok (validation_result, r1) =>
                let reward_duration := reward_duration (quality_score validation_result) in
                let r2 := redis_set now r1 (submission_key task_id)
                            (RJson (DSubmission task_id (sub_session_id submission)
                                      (sub_publisher_id submission)
                                      (sub_response submission)
                                      (sub_time_spent_ms submission)
                                      (quality_score validation_result) now)) 86400 in
                match redis_incr now r2 (tasks_completed_key (sub_session_id submission)) with
                | Raised => Raised
                | Ok (_, r3) =>
                    let next_task_available := true in
                    Ok ({| success := true;
                           reward := {| rw_type := "content_access";
                                        rw_duration_seconds := Some reward_duration;
                                        rw_points := None; rw_description := None |};
                           sbr_quality_score := quality_score validation_result;
                           next_task_available := next_task_available |}, r3)
                end
            end
        end
  end.

(** ** api/services/task_management.py: get_task_batch *)

Definition batch_complexity_level (complexity : option string) : Z :=
  if decide (complexity = Some "medium") then 2
  else if decide (complexity = Some "high") then 3
  else 1.

(** [get_task_batch]; [uuid4 i] is the identifier drawn in iteration [i]
    of the loop. *)
Definition get_task_batch (now : Z) (uuid4 : nat → string) (r : redis)
    (publisher_id : string) (count : Z)
    (language category complexity : option string) : TaskBatchResponse * redis :=
  let complexity_level := batch_complexity_level complexity in
  let tasks :=
    (λ i : nat, {|
       ts_task_id := uuid4 i;
       ts_task_type := "vqa";
       ts_content := {|
         tc_image_url := Some ("https://storage.hotlabel.io/samples/image"
                                 +:+ pretty i +:+ ".jpg");
         tc_question := Some "What color is the car in this image?";
         tc_text := None; tc_audio_url := None;
         tc_video_url := None; tc_context := None |};
       ts_options := ["Red"; "Blue"; "Green"; "Yellow"];
       ts_complexity_level := complexity_level |}) <$> seq 0 (Z.to_nat count) in
  let batch_id := "batch_" +:+ pretty now in
  let r1 := redis_set now r (batch_key batch_id)
              (RJson (DBatch batch_id publisher_id tasks now)) 3600 in
  ({| tb_batch_id := batch_id; tb_tasks := tasks; tb_expires_at := now + 1800 |}, r1).

(** ** api/routers/tasks.py: GET /batch *)

Inductive http_result (A : Type) : Type :=
| HTTP_422 : http_result A      (* query validation failed *)
| HTTP_400 : http_result A      (* invalid_parameter *)
| HTTP_204 : http_result A      (* no_tasks_available *)
| HTTP_200 (body : A) : http_result A.
Arguments HTTP_422 {A}.
Arguments HTTP_400 {A}.
Arguments HTTP_204 {A}.
Arguments HTTP_200 {A} body.

(** [Query(None, regex="^(low|medium|high)$")]; [$] also matches before a
    final newline. *)
Definition newline : string := String (Ascii.ascii_of_nat 10) EmptyString.

Definition complexity_query_ok (complexity : option string) : bool :=
  match complexity with
  | None => true
  | Some s =>
      bool_decide (s ∈ ["low"; "medium"; "high";
                        "low" +:+ newline; "medium" +:+ newline; "high" +:+ newline])
  end.

(** [get_tasks_batch]; [auth_publisher_id] is [auth["publisher_id"]] as
    resolved by the [get_sdk_auth] dependency, [count = None] an absent
    query parameter. *)
Definition get_tasks_batch (now : Z) (uuid4 : nat → string) (r : redis)
    (auth_publisher_id publisher_id : string) (count : option Z)
    (language category complexity : option string)
    : http_result TaskBatchResponse * redis :=
  let count := default 10 count in
  if negb ((1 <=? count) && (count <=? 100) && complexity_query_ok complexity)
  then (HTTP_422, r)
  else if negb (String.eqb publisher_id auth_publisher_id)
  then (HTTP_400, r)
  else
    let '(batch, r1) :=
      get_task_batch now uuid4 r publisher_id count language category complexity in
    match tb_tasks batch with
    | [] => (HTTP_204, r1)
    | _ => (HTTP_200 batch, r1)
    end.

(** ** The module's [redis_pool]: api/db/session.py and the import of
    api/middleware/rate_limiting.py *)

(** The Redis server as a client finds it: in state [r], or out of reach,
    and then a command sent to it raises. *)
Inductive server : Type :=
| Reachable (r : redis)
| Unreachable.

(** [aioredis.ConnectionPool.from_url(...)]: a handle on the server; making
    it opens no connection. *)
Inductive ConnectionPool : Type := from_url.

(** The two module-level names: [redis_pool] of api/db/session.py, and the
    [redis_pool] of rate_limiting.py, which line 9,
    [from api.db.session import get_redis, redis_pool], binds to the value
    the former has at that moment. *)
Record globals := {
  session_redis_pool : option ConnectionPool;
  rate_limiting_redis_pool : option ConnectionPool
}.

(** Importing rate_limiting.py.  Its import statement first runs
    api/db/session.py, whose line 26 is [redis_pool = None]; modules are
    imported when the application is assembled, before any coroutine runs. *)
Definition import_rate_limiting : globals :=
  let redis_pool := None in
  {| session_redis_pool := redis_pool; rate_limiting_redis_pool := redis_pool |}.

(** [init_db]: [global redis_pool] is the name of api/db/session.py. *)
Definition init_db (g : globals) : globals :=
  {| session_redis_pool := Some from_url;
     rate_limiting_redis_pool := rate_limiting_redis_pool g |}.

(** The globals of the running application: after the import and [n] runs
    of [init_db] (at start-up, or from [get_redis]). *)
Definition started (n : nat) : globals := Nat.iter n init_db import_rate_limiting.

(** [RateLimitMiddleware._check_rate_limit] as the module runs it: the
    [redis_pool] it tests is the name of rate_limiting.py.  Behind a pool
    the pipeline goes to the server; [pipeline.execute()] raises when the
    server is out of reach, and nothing in the method or in [dispatch]
    catches it. *)
Definition middleware_check_rate_limit (g : globals) (s : server) (current : Z)
    (key : string) (limit window : Z) : outcome ((bool * Z * Z) * server) :=
  match rate_limiting_redis_pool g with
  | None =>
      match _check_rate_limit None current key limit window with
      | Raised => Raised
      | Ok (res, _) => Ok (res, s)
      end
  | Some _ =>
      match s with
      | Unreachable => Raised
      | Reachable r =>
          match _check_rate_limit (Some r) current key limit window with
          | Raised => Raised
          | Ok (res, pool') =>
              Ok (res, match pool' with Some r' => Reachable r' | None => s end)
          end
      end
  end.

(** A sequence of checks on one key, one per clock reading in [times]. *)
Fixpoint middleware_run_checks (g : globals) (s : server) (key : string)
    (limit window : Z) (times : list Z) : outcome (list (bool * Z * Z) * server) :=
  match times with
  | [] => Ok ([], s)
  | current :: rest =>
      match middleware_check_rate_limit g s current key limit window with
      | Raised => Raised
      | Ok (res, s') =>
          match middleware_run_checks g s' key limit window rest with
          | Raised => Raised
          | Ok (ress, s'') => Ok (res :: ress, s'')
          end
      end
  end.

(** ** api/middleware/rate_limiting.py: the limit of a path *)

(** The rate-limit strings of [api.config.settings]; the module is not
    among the sources, so its four values are inputs. *)
Record Settings := {
  RATE_LIMIT_TASKS : string;
  RATE_LIMIT_TASKS_BATCH : string;
  RATE_LIMIT_USERS_SESSIONS : string;
  RATE_LIMIT_DEFAULT : string
}.

(** [s.split(sep)] for a one-character separator. *)
Fixpoint split_on (sep : Ascii.ascii) (s : string) : list string :=
  match s with
  | EmptyString => [EmptyString]
  | String c s' =>
      if Ascii.eqb c sep then EmptyString :: split_on sep s'
      else
        match split_on sep s' with
        | piece :: rest => String c piece :: rest
        | [] => [String c EmptyString]
        end
  end.

(** [parse_rate_limit]; [int] is Python's [int] on strings, an input.
    Unpacking [limit, period = ...] raises unless there are two pieces. *)
Definition parse_rate_limit (int : string → outcome Z) (rate_limit_str : string)
    : outcome (Z * Z) :=
  match split_on "/" rate_limit_str with
  | [limit; period] =>
      match int limit with
      | Raised => Raised
      | Ok limit =>
          let window :=
            if String.eqb period "second" then 1
            else if String.eqb period "minute" then 60
            else if String.eqb period "hour" then 3600
            else 86400 in
          Ok (limit, window)
      end
  | _ => Raised
  end.

(** [s] without the prefix [p], if it starts with it. *)
Fixpoint strip_prefix (p s : string) : option string :=
  match p, s with
  | EmptyString, _ => Some s
  | String a p', String b s' => if Ascii.eqb a b then strip_prefix p' s' else None
  | String _ _, EmptyString => None
  end.

(** [re.match(".+" + lit, s)]: one or more characters other than a newline,
    then the literal; [seen] tells whether a character has been consumed. *)
Fixpoint dot_plus_then (lit : string) (seen : bool) (s : string) : bool :=
  (seen && String.prefix lit s) ||
  match s with
  | EmptyString => false
  | String c s' =>
      if Ascii.eqb c (Ascii.ascii_of_nat 10) then false
      else dot_plus_then lit true s'
  end.

(** [re.match(r"^/v1/tasks/.+/submit", path)] *)
Definition matches_task_submit (path : string) : bool :=
  match strip_prefix "/v1/tasks/" path with
  | Some rest => dot_plus_then "/submit" false rest
  | None => false
  end.

(** [_get_rate_limit_for_path]: [(rate_limit, window_in_seconds)]. *)
Definition _get_rate_limit_for_path (int : string → outcome Z) (settings : Settings)
    (path : string) : outcome (Z * Z) :=
  if String.prefix "/v1/tasks/next" path
  then parse_rate_limit int (RATE_LIMIT_TASKS settings)
  else if matches_task_submit path
  then parse_rate_limit int (RATE_LIMIT_TASKS settings)
  else if String.prefix "/v1/tasks/batch" path
  then parse_rate_limit int (RATE_LIMIT_TASKS_BATCH settings)
  else if String.prefix "/v1/users/sessions" path
  then parse_rate_limit int (RATE_LIMIT_USERS_SESSIONS settings)
  else parse_rate_limit int (RATE_LIMIT_DEFAULT settings).

(** What [dispatch] reads of a request. *)
Record Request := {
  url_path : string;
  header_x_publisher_id : option string
}.

(** What [dispatch] answers: the 429 body, the application's response as
    it is, or the application's response with the three rate-limit headers. *)
Inductive middleware_reply (R : Type) : Type :=
| TooManyRequests (limit window_seconds reset_at : Z)
| Untouched (response : R)
| WithRateLimitHeaders (response : R) (limit remaining reset : Z).
Arguments TooManyRequests {R} limit window_seconds reset_at.
Arguments Untouched {R} response.
Arguments WithRateLimitHeaders {R} response limit remaining reset.

Definition rate_limit_key (publisher_id path : string) : string :=
  "rate_limit:" +:+ publisher_id +:+ ":" +:+ path.

(** [RateLimitMiddleware.dispatch]; [call_next] runs the rest of the
    application on the store the middleware leaves. *)
Definition dispatch {R : Type} (int : string → outcome Z) (settings : Settings)
    (redis_pool : option redis) (current : Z) (request : Request)
    (call_next : option redis → outcome (R * option redis))
    : outcome (middleware_reply R * option redis) :=
  let path := url_path request in
  if String.prefix "/docs" path || String.prefix "/redoc" path || String.eqb path "/health"
  then
    match call_next redis_pool with
    | Raised => Raised
    | Ok (response, pool') => Ok (Untouched response, pool')
    end
  else
    match _get_rate_limit_for_path int settings path with
    | Raised => Raised
    | Ok (rate_limit, window) =>
        let publisher_id :=
          match header_x_publisher_id request with
          | Some h => if String.eqb h "" then "anonymous" else h
          | None => "anonymous"
          end in
        match _check_rate_limit redis_pool current
                (rate_limit_key publisher_id path) rate_limit window with
        | Raised => Raised
        | Ok ((is_rate_limited, remaining, reset_time), pool1) =>
            if is_rate_limited
            then Ok (TooManyRequests rate_limit window reset_time, pool1)
            else
              match call_next pool1 with
              | Raised => Raised
              | Ok (response, pool2) =>
                  Ok (WithRateLimitHeaders response rate_limit remaining reset_time, pool2)
              end
        end
    end.

(** ** api/services/user_profiling.py: update_user_profile *)

Record PerformanceMetrics := {
  pm_accuracy : float;
  pm_average_time_ms : Z;
  pm_task_completions : Z
}.

(** [language_proficiency] is a dictionary: its keys are distinct and
    listed in insertion order. *)
Record ProfileUpdateRequest := {
  pur_publisher_id : string;
  pur_expertise_areas : option (list string);
  pur_task_preferences : option (list string);
  pur_language_proficiency : option (list (string * string));
  pur_performance_metrics : option PerformanceMetrics
}.

Record UpdatedProfile := {
  upd_expertise_level : string;
  upd_preferred_languages : list string;
  upd_expertise_areas : list string;
  upd_max_complexity : Z
}.

Record ProfileUpdateResponse := {
  pu_success : bool;
  pu_updated_profile : UpdatedProfile
}.

(** [current_profile.get("expertise_areas")] *)
Definition get_expertise_areas (d : json_doc) : option (list string) :=
  match d with DProfile _ areas _ => areas | _ => None end.

(** [proficiency_levels.get(level, -1)] *)
Definition proficiency_rank (level : string) : Z :=
  if String.eqb level "native" then 3
  else if String.eqb level "fluent" then 2
  else if String.eqb level "intermediate" then 1
  else if String.eqb level "beginner" then 0
  else -1.

(** [max_complexity_map.get(expertise_level, 2)] *)
Definition max_complexity_of (expertise_level : string) : Z :=
  if String.eqb expertise_level "beginner" then 2
  else if String.eqb expertise_level "intermediate" then 3
  else if String.eqb expertise_level "expert" then 5
  else 2.

(** [language_proficiency[lang]] *)
Fixpoint dict_get (d : list (string * string)) (k : string) : option string :=
  match d with
  | [] => None
  | (k', v) :: d' => if String.eqb k' k then Some v else dict_get d' k
  end.

(** [sorted(l, key=key, reverse=True)]: descending and stable, elements
    with equal keys keep their order. *)
Fixpoint insert_desc {A} (key : A → Z) (x : A) (l : list A) : list A :=
  match l with
  | [] => [x]
  | y :: l' => if key x <? key y then y :: insert_desc key x l' else x :: y :: l'
  end.

Fixpoint sorted_desc {A} (key : A → Z) (l : list A) : list A :=
  match l with
  | [] => []
  | x :: l' => insert_desc key x (sorted_desc key l')
  end.

(** The expertise level after an update. *)
Definition next_expertise_level (current : string) (metrics : option PerformanceMetrics)
    : string :=
  match metrics with
  | None => current
  | Some m =>
      let level1 :=
        if (0.85 <=? pm_accuracy m)%float && (10 <=? pm_task_completions m)
        then "intermediate" else current in
      if (0.9 <=? pm_accuracy m)%float && (50 <=? pm_task_completions m)
      then "expert" else level1
  end.

(** [update_user_profile].  The profile key is written only by
    [initialize_user_session] and by this function, always with a profile
    document; on any other document the model stops with [Raised]. *)
Definition update_user_profile (now : Z) (r : redis) (session_id : string)
    (profile_update : ProfileUpdateRequest)
    : outcome (option ProfileUpdateResponse * redis) :=
  let profile_key := user_profile_key (pur_publisher_id profile_update) session_id in
  match redis_get now r profile_key with
  | Raised => Raised
  | Ok profile_json =>
      if falsy profile_json then Ok (None, r)
      else
        match json_loads profile_json with
        | Ok (DProfile profile areas langs) =>
            let current_profile := DProfile profile areas langs in
            let expertise_level :=
              next_expertise_level
                (default "beginner" (get_expertise_level current_profile))
                (pur_performance_metrics profile_update) in
            let expertise_areas :=
              match pur_expertise_areas profile_update with
              | Some (a :: l) => a :: l
              | _ => default [] (get_expertise_areas current_profile)
              end in
            let preferred_languages :=
              match pur_language_proficiency profile_update with
              | Some language_proficiency =>
                  sorted_desc
                    (λ lang, match dict_get language_proficiency lang with
                             | Some level => proficiency_rank level
                             | None => -1
                             end)
                    (language_proficiency.*1)
              | None => [default "en" (get_language current_profile)]
              end in
            let max_complexity := max_complexity_of expertise_level in
            let updated_profile := {|
              upd_expertise_level := expertise_level;
              upd_preferred_languages := preferred_languages;
              upd_expertise_areas := expertise_areas;
              upd_max_complexity := max_complexity |} in
            let r1 := redis_set now r profile_key
                        (RJson (DProfile
                                  {| up_language := up_language profile;
                                     up_expertise_level := expertise_level;
                                     up_task_preferences := up_task_preferences profile;
                                     up_max_complexity := max_complexity |}
                                  (Some expertise_areas) (Some preferred_languages)))
                        86400 in
            Ok (Some {| pu_success := true; pu_updated_profile := updated_profile |}, r1)
        | _ => Raised
        end
  end.

(** ** api/services/publisher_management.py: get_publisher_by_id *)

Record Publisher := {
  pb_publisher_id : string;
  pb_company_name : string;
  pb_website_url : string;
  pb_contact_email : string;
  pb_api_key : string;
  pb_active : bool;
  pb_created_at : Z
}.

(** [publisher_id[4:]] *)
Definition drop4 (s : string) : string := substring 4 (String.length s - 4) s.

Definition get_publisher_by_id (now : Z) (publisher_id : string) : option Publisher :=
  if String.prefix "pub_" publisher_id
  then Some {| pb_publisher_id := publisher_id;
               pb_company_name := "Example Media Group";
               pb_website_url := "https://example.com";
               pb_contact_email := "integration@example.com";
               pb_api_key := "pk_live_" +:+ drop4 publisher_id;
               pb_active := true;
               pb_created_at := now - 30 * 86400 |}
  else None.

(** ** api/dependencies.py: SDK authentication *)

(** A handler's answer: a body, or the [HTTPException] it raises. *)
Inductive reply (A : Type) : Type :=
| Reply (body : A)
| HttpError (status : Z) (code : string).
Arguments Reply {A} body.
Arguments HttpError {A} status code.

Record SdkAuth := {
  auth_publisher_id : string;
  auth_session_id : string
}.

(** [not header] *)
Definition header_missing (h : option string) : bool :=
  match h with
  | Some s => String.eqb s ""
  | None => true
  end.

(** [get_sdk_auth] *)
Definition get_sdk_auth (now : Z) (r : redis)
    (x_publisher_id x_session_token : option string) : outcome (reply SdkAuth) :=
  if header_missing x_publisher_id || header_missing x_session_token
  then Ok (HttpError 401 "authentication_failed")
  else
    let publisher_id := default "" x_publisher_id in
    let session_token := default "" x_session_token in
    match redis_get now r (session_key publisher_id session_token) with
    | Raised => Raised
    | Ok session_data =>
        if falsy session_data
        then Ok (HttpError 401 "authentication_failed")
        else
          match get_publisher_by_id now publisher_id with
          | None => Ok (HttpError 401 "authentication_failed")
          | Some _ =>
              Ok (Reply {| auth_publisher_id := publisher_id;
                           auth_session_id := session_token |})
          end
    end.

(** [get_optional_sdk_auth]: an [HTTPException] becomes [None]. *)
Definition get_optional_sdk_auth (now : Z) (r : redis)
    (x_publisher_id x_session_token : option string) : outcome (option SdkAuth) :=
  if header_missing x_publisher_id || header_missing x_session_token
  then Ok None
  else
    match get_sdk_auth now r x_publisher_id x_session_token with
    | Raised => Raised
    | Ok (Reply auth) => Ok (Some auth)
    | Ok (HttpError _ _) => Ok None
    end.

(** ** api/routers/tasks.py: GET /next and POST /{task_id}/submit *)

(** [get_next_task_for_user], with [auth] as resolved by [get_sdk_auth]. *)
Definition get_next_task_for_user (now : Z) (uuid : string) (r : redis) (auth : SdkAuth)
    (session_id publisher_id : string)
    (language website_category previous_task_id : option string)
    : outcome (reply TaskResponse * redis) :=
  if negb (String.eqb publisher_id (auth_publisher_id auth))
  then Ok (HttpError 400 "invalid_parameter", r)
  else if negb (String.eqb session_id (auth_session_id auth))
  then Ok (HttpError 400 "invalid_parameter", r)
  else
    match get_next_task now uuid r session_id publisher_id
            language website_category previous_task_id with
    | Raised => Raised
    | Ok (None, r') => Ok (HttpError 204 "no_task_available", r')
    | Ok (Some task, r') => Ok (Reply task, r')
    end.

(** [submit_task_result_for_user], with [auth] as resolved by [get_sdk_auth]. *)
Definition submit_task_result_for_user (now : Z) (hex : string) (r : redis) (auth : SdkAuth)
    (task_id : string) (submission : TaskSubmissionRequest)
    : outcome (reply TaskSubmissionResponse * redis) :=
  if negb (String.eqb (sub_publisher_id submission) (auth_publisher_id auth))
  then Ok (HttpError 400 "invalid_parameter", r)
  else if negb (String.eqb (sub_session_id submission) (auth_session_id auth))
  then Ok (HttpError 400 "invalid_parameter", r)
  else
    match submit_task_result now hex r task_id submission with
    | Raised => Raised
    | Ok (result, r') => Ok (Reply result, r')
    end.

(** ** api/routers/users.py: PATCH /sessions/{session_id}/profile *)

(** [update_profile], with [auth] as resolved by [get_sdk_auth]. *)
Definition update_profile (now : Z) (r : redis) (auth : SdkAuth)
    (session_id : string) (profile_update : ProfileUpdateRequest)
    : outcome (reply ProfileUpdateResponse * redis) :=
  if negb (String.eqb (pur_publisher_id profile_update) (auth_publisher_id auth))
  then Ok (HttpError 400 "invalid_parameter", r)
  else if negb (String.eqb session_id (auth_session_id auth))
  then Ok (HttpError 400 "invalid_parameter", r)
  else
    match update_user_profile now r session_id profile_update with
    | Raised => Raised
    | Ok (None, r') => Ok (HttpError 404 "resource_not_found", r')
    | Ok (Some updated_profile, r') => Ok (Reply updated_profile, r')
    end.

(** ** Vocabulary for the sliding window *)

(** The sorted set that holds exactly the clock readings of [l], each as
    the member [str t] with score [t]. *)
Definition zset_of (l : list Z) : gmap string Z :=
  list_to_map ((λ t, (str t, t)) <$> l).

(** The readings of [l] inside the window of [window] seconds that ends
    at [now]. *)
Definition recent (now window : Z) (l : list Z) : list Z :=
  filter (λ t, now - window < t) l.

(** What a check answers when [n] earlier requests are in the window. *)
Definition verdict (limit window now : Z) (n : nat) : bool * Z * Z :=
  (limit <=? Z.of_nat n,
   Z.max 0 (limit - Z.of_nat n - 1),
   if 60 <? window then window - now mod window else window).

(** The members recorded under [key], as a client sees them at [now]. *)
Definition members_at (now : Z) (pool : option redis) (key : string) : gmap string Z :=
  match pool with
  | Some r => match zset_at now r key with Ok z => z | Raised => ∅ end
  | None => ∅
  end.

Definition is_rate_limited (res : bool * Z * Z) : bool := res.1.1.
Definition reset_time (res : bool * Z * Z) : Z := res.2.

(** The verdicts of a run, [None] if an exception escaped. *)
Definition limited_flags (o : outcome (list (bool * Z * Z) * option redis)) : option (list bool) :=
  match o with
  | Ok (res, _) => Some (is_rate_limited <$> res)
  | Raised => None
  end.

(** The allowed requests of a run whose timestamps lie in the window of
    [window] seconds that ends at [now], each with its verdict. *)
Definition allowed_recent (now window : Z) (ts : list Z) (res : list (bool * Z * Z))
    : list (Z * (bool * Z * Z)) :=
  filter (λ p, now - window < p.1 ∧ is_rate_limited p.2 = false) (zip ts res).

(** ** Proof vocabulary *)

(** [str] is one-to-one: two readings share a member only if equal. *)
Global Instance str_inj : Inj (=) (=) str.
Proof. unfold str. apply _. Qed.

(** Keys built from different literal prefixes differ. *)
Ltac keys_differ :=
  unfold session_key, user_profile_key, tasks_completed_key, assignment_key,
         task_key, validation_key, submission_key, batch_key;
  intros ?; simplify_eq.

(** Client details for the worked examples. *)
Definition example_session_info : SessionInfo :=
  {| si_browser := "firefox"; si_browser_version := "120"; si_os := "linux";
     si_screen_resolution := "1920x1080"; si_language := "en-US";
     si_timezone := None; si_device_type := Some "mobile" |}.

(** ** Vocabulary for the further properties *)

(** Every member of [z] is its own score in text, and the scores lie in
    [[lo, hi]]. *)
Definition canonical_within (lo hi : Z) (z : gmap string Z) : Prop :=
  ∀ m s, z !! m = Some s → m = str s ∧ lo ≤ s ≤ hi.

(** The verdict of a check, if it returned. *)
Definition verdict_of (o : outcome ((bool * Z * Z) * option redis)) : option (bool * Z * Z) :=
  match o with
  | Ok (v, _) => Some v
  | Raised => None
  end.

Definition remaining (res : bool * Z * Z) : Z := res.1.2.

(** A Python [int] for the worked examples: canonical decimals only. *)
Definition example_int (s : string) : outcome Z :=
  match string2ll s with
  | Some n => Ok n
  | None => Raised
  end.

(** [sep not in s] *)
Fixpoint lacks (sep : Ascii.ascii) (s : string) : Prop :=
  match s with
  | EmptyString => True
  | String c s' => c ≠ sep ∧ lacks sep s'
  end.

(** The window of a period text. *)
Definition window_of_period (period : string) : Z :=
  if String.eqb period "second" then 1
  else if String.eqb period "minute" then 60
  else if String.eqb period "hour" then 3600
  else 86400.

(** The paths [dispatch] does not limit. *)
Definition exempt (path : string) : bool :=
  String.prefix "/docs" path || String.prefix "/redoc" path || String.eqb path "/health".

(** The publisher a request is counted under. *)
Definition counted_publisher (request : Request) : string :=
  match header_x_publisher_id request with
  | Some h => if String.eqb h "" then "anonymous" else h
  | None => "anonymous"
  end.

Definition example_settings : Settings :=
  {| RATE_LIMIT_TASKS := "100/minute"; RATE_LIMIT_TASKS_BATCH := "10/minute";
     RATE_LIMIT_USERS_SESSIONS := "20/hour"; RATE_LIMIT_DEFAULT := "1000/day" |}.

(** An application that answers every request and leaves the store alone. *)
Definition example_app (pool : option redis) : outcome (string * option redis) :=
  Ok ("ok", pool).

Definition example_submission : TaskSubmissionRequest :=
  {| sub_session_id := "sess_b"; sub_publisher_id := "pub_1";
     sub_response := RespStr "Blue"; sub_time_spent_ms := 1200;
     sub_session_info := example_session_info |}.

(** A store with one consensus task and the counter of [sess_b] at 0. *)
Definition example_task_store : redis :=
  redis_set 90
    (redis_set 90 ∅ (task_key "t1")
       (RJson (DTask "t1" "vqa" false None "pub_1" "sess_a" 2 90)) 3600)
    (tasks_completed_key "sess_b") (RStr "0") 86400.

(** Successive calls of [get_next_task] for one session, each with its
    clock reading and the identifier it draws. *)
Fixpoint draw_tasks (r : redis) (session_id publisher_id : string)
    (language website_category previous_task_id : option string)
    (calls : list (Z * string)) : outcome (list (option TaskResponse) * redis) :=
  match calls with
  | [] => Ok ([], r)
  | (now, uuid) :: calls' =>
      match get_next_task now uuid r session_id publisher_id
              language website_category previous_task_id with
      | Raised => Raised
      | Ok (task, r') =>
          match draw_tasks r' session_id publisher_id
                  language website_category previous_task_id calls' with
          | Raised => Raised
          | Ok (tasks, r'') => Ok (task :: tasks, r'')
          end
      end
  end.

Definition example_session_request : SessionInitRequest :=
  {| sir_publisher_id := "pub_1";
     sir_client_info := {|
       ci_browser := "firefox"; ci_browser_version := "120";
       ci_os := "linux"; ci_screen_resolution := "1920x1080";
       ci_language := "en-US"; ci_timezone := None;
       ci_referring_url := None; ci_device_type := Some "mobile" |};
     sir_consent := {| cs_functional := true; cs_analytics := true |} |}.

(** The rank [update_user_profile] sorts a language by. *)
Definition language_rank (language_proficiency : list (string * string))
    (lang : string) : Z :=
  match dict_get language_proficiency lang with
  | Some level => proficiency_rank level
  | None => -1
  end.

Definition example_profile : UserProfile :=
  {| up_language := "en"; up_expertise_level := "expert";
     up_task_preferences := ["vqa"]; up_max_complexity := 5 |}.

Definition example_profile_store : redis :=
  redis_set 1000 ∅ (user_profile_key "pub_1" "sess_a")
    (RJson (DProfile example_profile None None)) 86400.

Definition example_profile_update : ProfileUpdateRequest :=
  {| pur_publisher_id := "pub_1";
     pur_expertise_areas := None;
     pur_task_preferences := None;
     pur_language_proficiency :=
       Some [("en", "fluent"); ("fr", "native"); ("de", "fluent"); ("xx", "some")];
     pur_performance_metrics :=
       Some {| pm_accuracy := 0.86; pm_average_time_ms := 3000;
               pm_task_completions := 12 |} |}.

(** * Properties *)

(** ** The store *)

Lemma redis_lookup_Some now (r : redis) key e :
  redis_lookup now r key = Some e ↔ r !! key = Some e ∧ live now e = true.
Proof.
  unfold redis_lookup. destruct (r !! key) as [e'|] eqn:Hk.
  - destruct (live now e') eqn:Hl; split.
    + intros [= <-]. done.
    + intros [[= <-] _]. done.
    + done.
    + intros [[= <-] ?]. congruence.
  - split; [done | by intros [? _]].
Qed.

Lemma redis_lookup_None now (r : redis) key :
  redis_lookup now r key = None ↔
  r !! key = None ∨ ∃ e, r !! key = Some e ∧ live now e = false.
Proof.
  unfold redis_lookup. destruct (r !! key) as [e'|] eqn:Hk.
  - destruct (live now e') eqn:Hl; split; try done.
    + intros [? | (e & [= <-] & ?)]; [done | congruence].
    + intros _. right. by exists e'.
  - split; [by left | done].
Qed.

Lemma redis_lookup_insert_eq now (r : redis) key e :
  redis_lookup now (<[key := e]> r) key = if live now e then Some e else None.
Proof. unfold redis_lookup. by rewrite lookup_insert_eq. Qed.

Lemma redis_lookup_insert_ne now (r : redis) key key' e :
  key ≠ key' → redis_lookup now (<[key := e]> r) key' = redis_lookup now r key'.
Proof. intros ?. unfold redis_lookup. by rewrite lookup_insert_ne. Qed.

Lemma redis_lookup_delete_eq now (r : redis) key :
  redis_lookup now (delete key r) key = None.
Proof. unfold redis_lookup. by rewrite lookup_delete_eq. Qed.

Lemma redis_lookup_set_eq now now' (r : redis) key v ex :
  now' < now + ex →
  redis_lookup now' (redis_set now r key v ex) key
  = Some {| e_val := v; e_exp := Some (now + ex) |}.
Proof.
  intros ?. unfold redis_set. rewrite redis_lookup_insert_eq. unfold live; simpl.
  destruct (Z.leb_spec now' (now + ex)); [done | lia].
Qed.

Lemma redis_lookup_set_ne now now' (r : redis) key key' v ex :
  key ≠ key' →
  redis_lookup now' (redis_set now r key v ex) key' = redis_lookup now' r key'.
Proof. intros ?. unfold redis_set. by apply redis_lookup_insert_ne. Qed.

(** ** The rate limiter: one check *)

(** One check on a key that holds the sorted set [z] (or nothing, [z = ∅]):
    the members scored in [[0, current - window]] go, the rest is counted,
    the current reading is recorded and the key's deadline is renewed. *)
Lemma check_rate_limit_step (r : redis) current key limit window z :
  0 < window →
  zset_at current r key = Ok z →
  let z1 := filter (λ ms, ¬ score_in 0 (current - window) ms) z in
  _check_rate_limit (Some r) current key limit window =
    Ok (verdict limit window current (size z1),
        Some (<[key := {| e_val := RZSet (<[str current := current]> z1);
                          e_exp := Some (current + window) |}]> r)).
Proof.
  intros HW Hz z1. unfold _check_rate_limit, verdict.
  assert (Hfresh : ∀ r' : redis, r' = delete key r → z1 = ∅ →
    match zcard current r' key with
    | Raised => Raised
    | Ok request_count =>
        match zadd current r' key (str current) current with
        | Raised => Raised
        | Ok r2 =>
            Ok ((limit <=? request_count, Z.max 0 (limit - request_count - 1),
                 if 60 <? window then window - current mod window else window),
                Some (expire current r2 key window))
        end
    end =
    Ok ((limit <=? Z.of_nat (size z1), Z.max 0 (limit - Z.of_nat (size z1) - 1),
         if 60 <? window then window - current mod window else window),
        Some (<[key := {| e_val := RZSet (<[str current := current]> z1);
                          e_exp := Some (current + window) |}]> r))).
  { intros r' -> ->. unfold zcard, zset_at, zadd, expire.
    rewrite !redis_lookup_delete_eq, redis_lookup_insert_eq. simpl.
    rewrite map_size_empty. simpl.
    destruct (Z.ltb_spec 0 window); [|lia].
    by rewrite insert_insert_eq, insert_delete_eq, insert_empty. }
  unfold zset_at in Hz. unfold zremrangebyscore.
  destruct (redis_lookup current r key) as [e|] eqn:Hlk.
  - destruct e as [v exp]; simpl in *. destruct v as [s|d|z0]; try done.
    injection Hz as ->. fold z1.
    apply redis_lookup_Some in Hlk as [Hk Hlive].
    destruct (decide (z1 = ∅)) as [Hempty|Hne].
    + by apply Hfresh.
    + unfold zcard, zset_at, zadd, expire.
      rewrite !redis_lookup_insert_eq; simpl.
      unfold live in *; simpl in *. rewrite Hlive; simpl.
      rewrite !redis_lookup_insert_eq; simpl.
      unfold live; simpl. rewrite Hlive; simpl.
      destruct (Z.ltb_spec 0 window); [|lia].
      by rewrite !insert_insert_eq.
  - injection Hz as <-. apply Hfresh; [done|]. subst z1. apply map_filter_empty.
Qed.

(** ** The sorted set of a list of clock readings *)

Lemma zset_of_cons t l : zset_of (t :: l) = <[str t := t]> (zset_of l).
Proof. reflexivity. Qed.

Lemma zset_of_lookup_notin l t : t ∉ l → zset_of l !! str t = None.
Proof.
  intros Hnotin. unfold zset_of. apply not_elem_of_list_to_map_1.
  rewrite <- list_fmap_compose. intros Hin.
  apply list_elem_of_fmap in Hin as (t' & Heq & Hin). simpl in Heq.
  apply (inj str) in Heq. by subst.
Qed.

Lemma zset_of_lookup_in l t : t ∈ l → zset_of l !! str t = Some t.
Proof.
  induction l as [|a l IH]; [by rewrite elem_of_nil|].
  rewrite zset_of_cons. destruct (decide (a = t)) as [->|Hne].
  - intros _. apply lookup_insert_eq.
  - rewrite elem_of_cons. intros [->|Hin]; [done|].
    rewrite lookup_insert_ne; [by apply IH|]. by intros ?%(inj str).
Qed.

Lemma zset_of_size l : NoDup l → size (zset_of l) = length l.
Proof.
  intros Hnd. unfold zset_of. rewrite map_size_list_to_map.
  - by rewrite length_fmap.
  - rewrite <- list_fmap_compose. by apply (NoDup_fmap_2 (λ t, str t)).
Qed.

(** Trimming the scores in [[0, now - window]] keeps the recent readings. *)
Lemma zset_of_trim now window l :
  Forall (λ t, 0 ≤ t) l →
  filter (λ ms, ¬ score_in 0 (now - window) ms) (zset_of l)
  = zset_of (recent now window l).
Proof.
  induction 1 as [|t l Ht Hl IH]; [apply map_filter_empty|].
  rewrite zset_of_cons, map_filter_insert. unfold recent in *.
  case_decide as Hin; unfold score_in in Hin; simpl in Hin.
  - rewrite filter_cons_True by lia. by rewrite zset_of_cons, IH.
  - rewrite filter_cons_False by lia.
    rewrite map_filter_delete, IH. apply delete_id, zset_of_lookup_notin.
    rewrite list_elem_of_filter. lia.
Qed.

Lemma recent_recent now now' window l :
  now' ≤ now → recent now window (recent now' window l) = recent now window l.
Proof.
  intros Hle. unfold recent. rewrite list_filter_filter.
  apply list_filter_iff. intros t. lia.
Qed.

Lemma recent_nil now window l :
  Forall (λ t, t ≤ now - window) l → recent now window l = [].
Proof.
  induction 1 as [|t l Ht Hl IH]; [done|].
  unfold recent in *. rewrite filter_cons_False by lia. done.
Qed.

Lemma recent_all now window l :
  Forall (λ t, now - window < t) l → recent now window l = l.
Proof.
  induction 1 as [|t l Ht Hl IH]; [done|].
  unfold recent in *. rewrite filter_cons_True by lia. by rewrite IH.
Qed.

(** ** Strictly increasing clock readings *)

Lemma increasing_snoc (p : list Z) x :
  StronglySorted Z.lt (p ++ [x]) ↔ StronglySorted Z.lt p ∧ Forall (λ y, y < x) p.
Proof.
  rewrite StronglySorted_app, Forall_forall. split.
  - intros (Hlt & Hp & _). split; [done|]. intros y Hy. apply Hlt; [done|]. by left.
  - intros (Hp & Hlt). split_and!; [|done|repeat constructor].
    intros y x' Hy ->%list_elem_of_singleton. by apply Hlt.
Qed.

Lemma increasing_last_max (p : list Z) tl :
  StronglySorted Z.lt p → last p = Some tl → Forall (λ y, y ≤ tl) p.
Proof.
  intros Hp [p' ->]%last_Some. apply increasing_snoc in Hp as [_ Hlt].
  apply Forall_app. split.
  - eapply Forall_impl; [exact Hlt|]. simpl. lia.
  - repeat constructor. lia.
Qed.

Lemma increasing_NoDup (p : list Z) : StronglySorted Z.lt p → NoDup p.
Proof.
  induction 1 as [|x p Hp IH Hx]; constructor; [|done].
  intros Hin. rewrite Forall_forall in Hx. specialize (Hx _ Hin). lia.
Qed.

(** ** The rate limiter: a run of checks *)

Lemma run_checks_snoc pool key limit window p x :
  run_checks pool key limit window (p ++ [x]) =
  match run_checks pool key limit window p with
  | Raised => Raised
  | Ok (res, pool') =>
      match _check_rate_limit pool' x key limit window with
      | Raised => Raised
      | Ok (v, pool'') => Ok (res ++ [v], pool'')
      end
  end.
Proof.
  revert pool. induction p as [|t p IH]; intros pool; simpl.
  - by destruct (_check_rate_limit pool x key limit window) as [|[v pool']].
  - destruct (_check_rate_limit pool t key limit window) as [|[v pool']]; [done|].
    rewrite IH. destruct (run_checks pool' key limit window p) as [|[res pool'']]; [done|].
    by destruct (_check_rate_limit pool'' x key limit window) as [|[v' pool3]].
Qed.

(** On a fresh key and with at most one request per second, every check
    answers from the number of earlier requests of the trailing window,
    whatever their own verdicts were; the key then holds exactly the
    readings of the window that ends at the last request. *)
Lemma run_checks_increasing (r : redis) key limit window ts :
  0 < window →
  r !! key = None →
  Forall (λ t, 0 ≤ t) ts →
  StronglySorted Z.lt ts →
  ∃ res (r' : redis),
    run_checks (Some r) key limit window ts = Ok (res, Some r') ∧
    length res = length ts ∧
    (∀ i now, ts !! i = Some now →
       res !! i = Some (verdict limit window now (length (recent now window (take i ts))))) ∧
    match last ts with
    | None => r' = r
    | Some tl =>
        r' !! key = Some {| e_val := RZSet (zset_of (recent tl window (reverse ts)));
                            e_exp := Some (tl + window) |}
    end.
Proof.
  intros HW Hfresh. induction ts as [|x p IH] using rev_ind; intros Hpos Hsorted.
  { exists [], r. by split_and!. }
  apply Forall_app in Hpos as [Hpos Hx]. rewrite Forall_singleton in Hx.
  apply increasing_snoc in Hsorted as [Hsorted Hlt].
  destruct (IH Hpos Hsorted) as (res & r1 & Hrun & Hlen & Hres & Hstate).
  assert (Hz : ∃ z, zset_at x r1 key = Ok z ∧
            filter (λ ms, ¬ score_in 0 (x - window) ms) z
            = zset_of (recent x window (reverse p))).
  { destruct (last p) as [tl|] eqn:Hlast.
    - pose proof (increasing_last_max _ _ Hsorted Hlast) as Hmax.
      assert (tl < x) as Htl.
      { rewrite Forall_forall in Hlt. apply Hlt. by eapply last_Some_elem_of. }
      unfold zset_at, redis_lookup. rewrite Hstate. unfold live; simpl.
      destruct (Z.leb_spec x (tl + window)).
      + eexists. split; [done|]. simpl.
        rewrite zset_of_trim; [by rewrite recent_recent by lia|].
        apply Forall_forall. intros t Ht. unfold recent in Ht.
        rewrite list_elem_of_filter, elem_of_reverse in Ht.
        rewrite Forall_forall in Hpos. apply Hpos, Ht.
      + exists ∅. split; [done|]. rewrite map_filter_empty, recent_nil; [done|].
        apply Forall_reverse. eapply Forall_impl; [exact Hmax|]. simpl. lia.
    - apply last_None in Hlast as ->. subst r1. exists ∅.
      unfold zset_at, redis_lookup. rewrite Hfresh. split; [done|]. apply map_filter_empty. }
  destruct Hz as (z & Hz & Htrim).
  pose proof (check_rate_limit_step r1 x key limit window z HW Hz) as Hstep.
  cbv zeta in Hstep. rewrite Htrim in Hstep.
  rewrite zset_of_size in Hstep.
  2:{ apply NoDup_filter. rewrite reverse_Permutation. by apply increasing_NoDup. }
  eexists _, _. rewrite run_checks_snoc, Hrun, Hstep. split_and!.
  - done.
  - rewrite !length_app, Hlen. done.
  - intros i now Hi. apply lookup_snoc_Some in Hi as [[Hi Hnow]|[-> ->]].
    + rewrite lookup_app_l by lia. rewrite take_app_le by lia. by apply Hres.
    + rewrite <- Hlen at 1. rewrite list_lookup_middle by done.
      rewrite take_app_length. unfold recent.
      by rewrite filter_reverse, length_reverse.
  - rewrite last_snoc, lookup_insert_eq, reverse_snoc.
    unfold recent. rewrite filter_cons_True by lia. done.
Qed.

(** ** Allowed requests per window *)

Lemma length_filter_mono {A} (P Q : A → Prop)
    `{!∀ x, Decision (P x)} `{!∀ x, Decision (Q x)} (l : list A) :
  (∀ x, P x → Q x) → (length (filter P l) ≤ length (filter Q l))%nat.
Proof.
  intros HPQ. induction l as [|x l IH]; [done|].
  rewrite !filter_cons. destruct (decide (P x)) as [HP|HP].
  - rewrite decide_True by auto. simpl. lia.
  - destruct (decide (Q x)); simpl; lia.
Qed.

Lemma zip_take_l {A B} (l : list A) (k : list B) n :
  zip (take n l) k = take n (zip l k).
Proof.
  revert k n. induction l as [|x l IH]; intros [|y k] [|n]; simpl; try done.
  by rewrite IH.
Qed.

Lemma length_filter_zip_fst {A B} (Q : A → Prop) (R : B → Prop)
    `{!∀ x, Decision (Q x)} `{!∀ y, Decision (R y)} (l : list A) (k : list B) :
  (length (filter (λ p, Q p.1 ∧ R p.2) (zip l k)) ≤ length (filter Q l))%nat.
Proof.
  revert k. induction l as [|x l IH]; intros [|y k]; simpl; try done.
  - lia.
  - rewrite !filter_cons. simpl. specialize (IH k).
    destruct (decide (Q x ∧ R y)) as [[HQ _]|Hno].
    + rewrite decide_True by done. simpl. lia.
    + destruct (decide (Q x)); simpl; lia.
Qed.

(** If every verdict follows the window count, no window holds more than
    [limit] allowed requests. *)
Lemma allowed_recent_bound limit window (ts : list Z) (res : list (bool * Z * Z)) :
  0 < window →
  StronglySorted Z.lt ts →
  (∀ i now, ts !! i = Some now →
     res !! i = Some (verdict limit window now (length (recent now window (take i ts))))) →
  ∀ i now, ts !! i = Some now →
    Z.of_nat (length (allowed_recent now window (take (S i) ts) res)) ≤ Z.max 0 limit.
Proof.
  intros HW Hsorted Hres.
  assert (Hstep : ∀ i now, ts !! i = Some now →
    allowed_recent now window (take (S i) ts) res =
      allowed_recent now window (take i ts) res ++
      (if limit <=? Z.of_nat (length (recent now window (take i ts)))
       then [] else [(now, verdict limit window now
                             (length (recent now window (take i ts))))])).
  { intros i now Hi. unfold allowed_recent.
    rewrite !zip_take_l.
    rewrite (take_S_r (zip ts res) i
               (now, verdict limit window now (length (recent now window (take i ts))))).
    2:{ apply lookup_zip_Some. split; [done|by apply Hres]. }
    rewrite filter_app. f_equal. rewrite filter_cons, filter_nil.
    unfold is_rate_limited, verdict; simpl.
    destruct (limit <=? _) eqn:Hle.
    - rewrite decide_False; [done|]. by intros [_ ?].
    - rewrite decide_True; [done|]. split; [lia|done]. }
  induction i as [|j IH]; intros now Hi; rewrite (Hstep _ _ Hi), length_app.
  - unfold allowed_recent. simpl. destruct (limit <=? _) eqn:Hle; simpl; [lia|].
    apply Z.leb_gt in Hle. simpl in Hle. lia.
  - destruct (limit <=? _) eqn:Hle; simpl.
    + assert (is_Some (ts !! j)) as [prev Hprev].
      { apply lookup_lt_is_Some. apply lookup_lt_Some in Hi. lia. }
      specialize (IH _ Hprev).
      assert (prev < now) as Hlt.
      { apply (StronglySorted_app_1_elem_of Z.lt (take (S j) ts) (drop (S j) ts)).
        - by rewrite take_drop.
        - apply elem_of_take. exists j. split; [done|lia].
        - eapply list_elem_of_lookup_2. rewrite lookup_drop.
          rewrite Nat.add_0_r. exact Hi. }
      pose proof (length_filter_mono
                    (λ p : Z * (bool * Z * Z),
                       now - window < p.1 ∧ is_rate_limited p.2 = false)
                    (λ p, prev - window < p.1 ∧ is_rate_limited p.2 = false)
                    (zip (take (S j) ts) res)) as Hmono.
      unfold allowed_recent in *. rewrite Nat.add_0_r.
      etrans; [|exact IH]. apply inj_le, Hmono. intros p [? ?]. split; [lia|done].
    + apply Z.leb_gt in Hle.
      pose proof (length_filter_zip_fst (λ t, now - window < t)
                    (λ v, is_rate_limited v = false) (take (S j) ts) res) as Hfst.
      unfold allowed_recent, recent in *. lia.
Qed.

Lemma increasing_head_min (ts : list Z) t0 :
  StronglySorted Z.lt ts → ts !! 0%nat = Some t0 → Forall (λ t, t0 ≤ t) ts.
Proof.
  destruct ts as [|t ts]; [done|]. intros [Hlt _]%StronglySorted_cons [= ->].
  constructor; [lia|]. eapply Forall_impl; [exact Hlt|]. simpl. lia.
Qed.

Lemma is_rate_limited_verdict limit window now n :
  is_rate_limited (verdict limit window now n) = true ↔ limit ≤ Z.of_nat n.
Proof. unfold is_rate_limited, verdict. simpl. apply Z.leb_le. Qed.

(** X25: the window behind a pool.  With [redis_pool] bound to a pool, on
    a fresh key, with a positive window and at most one request per
    second at non-negative clock readings, a check is rejected exactly when
    at least [limit] earlier requests, allowed or rejected, carry a
    timestamp of its trailing window [(now - window, now]].  Hence no
    window holds more than [limit] allowed requests, the first [limit]
    requests pass, a later one that comes within [window] seconds of the
    first is rejected, every check leaves its own timestamp recorded
    whatever its verdict, a timestamp is dropped as soon as a check runs
    [window] seconds or more after it, and the request after the first
    [limit] ones passes once the first of them is that old. *)
Theorem sliding_window_one_request_per_second (r : redis) key limit window ts :
  0 < window →
  r !! key = None →
  Forall (λ t, 0 ≤ t) ts →
  StronglySorted Z.lt ts →
  ∃ res pool',
    run_checks (Some r) key limit window ts = Ok (res, pool') ∧
    length res = length ts ∧
    (∀ i now, ts !! i = Some now →
       ∃ v, res !! i = Some v ∧
            (is_rate_limited v = true ↔
             limit ≤ Z.of_nat (length (recent now window (take i ts))))) ∧
    (∀ i now, ts !! i = Some now →
       Z.of_nat (length (allowed_recent now window (take (S i) ts) res)) ≤ Z.max 0 limit) ∧
    (∀ i v, res !! i = Some v → Z.of_nat i < limit → is_rate_limited v = false) ∧
    (∀ i t0 now v,
       ts !! 0%nat = Some t0 → ts !! i = Some now → res !! i = Some v →
       limit ≤ Z.of_nat i → now < t0 + window → is_rate_limited v = true) ∧
    (∀ now, last ts = Some now → members_at now pool' key !! str now = Some now) ∧
    (∀ t0 now, t0 ∈ ts → last ts = Some now → t0 + window ≤ now →
       members_at now pool' key !! str t0 = None) ∧
    (∀ t0 now v,
       0 < limit → ts !! 0%nat = Some t0 →
       ts !! Z.to_nat limit = Some now → res !! Z.to_nat limit = Some v →
       t0 + window ≤ now → is_rate_limited v = false).
Proof.
  intros HW Hfresh Hpos Hsorted.
  destruct (run_checks_increasing r key limit window ts HW Hfresh Hpos Hsorted)
    as (res & r' & Hrun & Hlen & Hres & Hstate).
  exists res, (Some r'). split_and!; [done|done|..].
  - intros i now Hi. eexists. split; [by apply Hres|]. apply is_rate_limited_verdict.
  - by apply allowed_recent_bound.
  - intros i v Hv Hi.
    assert (is_Some (ts !! i)) as [now Hnow].
    { apply lookup_lt_is_Some. rewrite <- Hlen. by eapply lookup_lt_Some. }
    rewrite (Hres _ _ Hnow) in Hv. injection Hv as <-.
    apply not_true_is_false. rewrite is_rate_limited_verdict.
    pose proof (length_filter (λ t, now - window < t) (take i ts)) as Hle.
    unfold recent. rewrite length_take in Hle. lia.
  - intros i t0 now v Ht0 Hnow Hv Hi Hspan.
    rewrite (Hres _ _ Hnow) in Hv. injection Hv as <-.
    apply is_rate_limited_verdict. rewrite recent_all.
    + rewrite length_take_le; [done|]. apply lookup_lt_Some in Hnow. lia.
    + pose proof (increasing_head_min ts t0 Hsorted Ht0) as Hmin.
      rewrite Forall_forall in Hmin |- *. intros t Ht.
      apply elem_of_take in Ht as (j & Hj & _).
      apply list_elem_of_lookup_2 in Hj. specialize (Hmin _ Hj). lia.
  - intros now Hlast. rewrite Hlast in Hstate.
    unfold members_at, zset_at, redis_lookup. rewrite Hstate. unfold live; simpl.
    destruct (Z.leb_spec now (now + window)); [|lia]. simpl.
    apply zset_of_lookup_in. unfold recent.
    rewrite list_elem_of_filter, elem_of_reverse. split; [lia|].
    by eapply last_Some_elem_of.
  - intros t0 now Ht0 Hlast Hold. rewrite Hlast in Hstate.
    unfold members_at, zset_at, redis_lookup. rewrite Hstate. unfold live; simpl.
    destruct (Z.leb_spec now (now + window)); [|lia]. simpl.
    apply zset_of_lookup_notin. unfold recent.
    rewrite list_elem_of_filter. lia.
  - intros t0 now v Hlimit Ht0 Hnow Hv Hold.
    rewrite (Hres _ _ Hnow) in Hv. injection Hv as <-.
    apply not_true_is_false. rewrite is_rate_limited_verdict.
    assert (t0 ∈ take (Z.to_nat limit) ts) as Hin.
    { apply elem_of_take. exists 0%nat. split; [done|lia]. }
    pose proof (length_filter_lt (λ t, now - window < t) _ t0 Hin) as Hlt.
    unfold recent. rewrite length_take in Hlt. lia.
Qed.

(** An instance: four requests on a fresh key, limit 2, one-minute window. *)
Lemma sliding_window_witness :
  ∃ res pool',
    run_checks (Some ∅) "rate_limit:anonymous:/v1/tasks/next" 2 60 [100; 130; 150; 161]
    = Ok (res, pool') ∧ length res = 4%nat.
Proof.
  destruct (sliding_window_one_request_per_second
              ∅ "rate_limit:anonymous:/v1/tasks/next" 2 60 [100; 130; 150; 161])
    as (res & pool' & Hrun & Hlen & _).
  - lia.
  - reflexivity.
  - repeat constructor; lia.
  - repeat constructor; lia.
  - exists res, pool'. split; [exact Hrun | exact Hlen].
Defined.

(** Two runs behind a pool.  With limit 2, three requests inside the same
    second all pass: the member is the second itself, so they share one
    record.  With limit 1 and a 10-second window, of the requests at
    seconds 0, 5 and 11 the last comes more than 10 seconds after the
    first and is still rejected, because the rejected attempt at 5 holds
    the slot. *)
Lemma sliding_window_runs :
  limited_flags (run_checks (Some ∅) "rate_limit:anonymous:/v1/tasks/next" 2 60
                   [100; 100; 100])
  = Some [false; false; false] ∧
  limited_flags (run_checks (Some ∅) "rate_limit:anonymous:/v1/tasks/next" 1 10
                   [0; 5; 11])
  = Some [false; true; true].
Proof. split; vm_compute; reflexivity. Qed.

(** ** The limiter in the running application *)

Lemma started_pool_unbound n : rate_limiting_redis_pool (started n) = None.
Proof. induction n as [|n IH]; [reflexivity | exact IH]. Qed.

Lemma session_pool_bound n : session_redis_pool (started (S n)) = Some from_url.
Proof. reflexivity. Qed.

Lemma middleware_check_unbound g s current key limit window :
  rate_limiting_redis_pool g = None →
  middleware_check_rate_limit g s current key limit window
  = Ok ((false, limit, window), s).
Proof. intros Hg. unfold middleware_check_rate_limit. by rewrite Hg. Qed.

Lemma middleware_run_unbound g s key limit window ts :
  rate_limiting_redis_pool g = None →
  middleware_run_checks g s key limit window ts
  = Ok ((λ _, (false, limit, window)) <$> ts, s).
Proof.
  intros Hg. induction ts as [|t ts IH]; [done|].
  simpl. by rewrite middleware_check_unbound, IH.
Qed.

(** C1: the window is never enforced.  rate_limiting.py binds its
    [redis_pool] when it is imported, to the [None] that api/db/session.py
    starts with, and [init_db] rebinds the name of api/db/session.py only.
    So in the running application, however often [init_db] has run and
    whatever the store holds, every check of a run returns
    [(False, limit, window)] and the store is left as it was: no request
    is rejected and none is recorded.  With limit 1 and a window of 60
    seconds, the requests at seconds 100 and 101 both pass. *)
Theorem sliding_window_not_enforced :
  (∀ n s key limit window ts,
     session_redis_pool (started (S n)) = Some from_url ∧
     middleware_run_checks (started (S n)) s key limit window ts
     = Ok ((λ _, (false, limit, window)) <$> ts, s)) ∧
  middleware_run_checks (init_db import_rate_limiting) (Reachable ∅)
    "rate_limit:anonymous:/v1/tasks/next" 1 60 [100; 101]
  = Ok ([(false, 1, 60); (false, 1, 60)], Reachable ∅).
Proof.
  split.
  - intros n s key limit window ts. split; [apply session_pool_bound|].
    apply middleware_run_unbound, started_pool_unbound.
  - apply (middleware_run_unbound (started 1)), (started_pool_unbound 1).
Qed.

(** C7: the limiter fails open.  In the running application, however
    often [init_db] has run, a check lets the request pass when the store
    is out of reach, and it does so too when the store can be reached; in
    neither case is anything sent to the store. *)
Theorem rate_limiter_fails_open n current key limit window :
  middleware_check_rate_limit (started n) Unreachable current key limit window
  = Ok ((false, limit, window), Unreachable) ∧
  ∀ s, middleware_check_rate_limit (started n) s current key limit window
       = Ok ((false, limit, window), s).
Proof.
  split; [|intros s]; apply middleware_check_unbound, started_pool_unbound.
Qed.

(** C8, as the code has it: a check that reaches the store returns
    [window - current mod window] when [window > 60] and [window] otherwise;
    a check that fails open returns [window]. *)
Theorem reset_time_rule pool current key limit window :
  0 < window →
  (∀ r : redis, pool = Some r → ∃ z, zset_at current r key = Ok z) →
  ∃ res pool',
    _check_rate_limit pool current key limit window = Ok (res, pool') ∧
    reset_time res =
      match pool with
      | Some _ => if 60 <? window then window - current mod window else window
      | None => window
      end.
Proof.
  intros HW Hkey. destruct pool as [r|].
  - destruct (Hkey r eq_refl) as [z Hz].
    rewrite (check_rate_limit_step r current key limit window z HW Hz).
    eexists _, _. split; [done|]. reflexivity.
  - eexists _, _. split; [reflexivity|]. reflexivity.
Qed.

(** An instance: a one-hour window read at second 100 resets in 3500 s. *)
Lemma reset_time_rule_witness :
  ∃ res pool',
    _check_rate_limit (Some ∅) 100 "rate_limit:anonymous:/v1/stats" 5 3600 = Ok (res, pool') ∧
    reset_time res = 3500.
Proof.
  apply (reset_time_rule (Some ∅) 100 "rate_limit:anonymous:/v1/stats" 5 3600).
  - lia.
  - intros r [= <-]. by exists ∅.
Defined.

(** C8 as stated fails on the fail-open path: with a one-hour window at
    second 100 the check returns 3600, not 3600 - 100 mod 3600 = 3500. *)
Lemma reset_time_counterexample :
  _check_rate_limit None 100 "rate_limit:anonymous:/v1/stats" 5 3600
  = Ok ((false, 5, 3600), None) ∧
  3600 - 100 mod 3600 = 3500.
Proof. split; reflexivity. Qed.

(** ** Keys of different families never collide *)

Lemma profile_key_ne_counter p s s' : user_profile_key p s ≠ tasks_completed_key s'.
Proof. keys_differ. Qed.
Lemma session_key_ne_profile p s p' s' : session_key p s ≠ user_profile_key p' s'.
Proof. keys_differ. Qed.
Lemma session_key_ne_counter p s s' : session_key p s ≠ tasks_completed_key s'.
Proof. keys_differ. Qed.
Lemma assignment_key_ne_profile t p s : assignment_key t ≠ user_profile_key p s.
Proof. keys_differ. Qed.
Lemma assignment_key_ne_counter t s : assignment_key t ≠ tasks_completed_key s.
Proof. keys_differ. Qed.
Lemma task_key_ne_profile t p s : task_key t ≠ user_profile_key p s.
Proof. keys_differ. Qed.
Lemma task_key_ne_counter t s : task_key t ≠ tasks_completed_key s.
Proof. keys_differ. Qed.
Lemma validation_key_ne_profile v p s : validation_key v ≠ user_profile_key p s.
Proof. keys_differ. Qed.
Lemma validation_key_ne_counter v s : validation_key v ≠ tasks_completed_key s.
Proof. keys_differ. Qed.
Lemma submission_key_ne_profile t p s : submission_key t ≠ user_profile_key p s.
Proof. keys_differ. Qed.
Lemma submission_key_ne_counter t s : submission_key t ≠ tasks_completed_key s.
Proof. keys_differ. Qed.

Create HintDb keys.
#[local] Hint Resolve profile_key_ne_counter session_key_ne_profile
  session_key_ne_counter assignment_key_ne_profile assignment_key_ne_counter
  task_key_ne_profile task_key_ne_counter validation_key_ne_profile
  validation_key_ne_counter submission_key_ne_profile submission_key_ne_counter
  : keys.

(** ** GET after SET *)

Lemma redis_get_set_str now now' (r : redis) key s ex :
  now' < now + ex →
  redis_get now' (redis_set now r key (RStr s) ex) key = Ok (Some (RStr s)).
Proof. intros ?. unfold redis_get. by rewrite redis_lookup_set_eq. Qed.

Lemma redis_get_set_json now now' (r : redis) key d ex :
  now' < now + ex →
  redis_get now' (redis_set now r key (RJson d) ex) key = Ok (Some (RJson d)).
Proof. intros ?. unfold redis_get. by rewrite redis_lookup_set_eq. Qed.

Lemma redis_get_set_ne now now' (r : redis) key key' v ex :
  key ≠ key' →
  redis_get now' (redis_set now r key v ex) key' = redis_get now' r key'.
Proof. intros ?. unfold redis_get. by rewrite redis_lookup_set_ne. Qed.

Lemma redis_get_insert_ne now (r : redis) key key' e :
  key ≠ key' → redis_get now (<[key := e]> r) key' = redis_get now r key'.
Proof. intros ?. unfold redis_get. by rewrite redis_lookup_insert_ne. Qed.

Lemma redis_get_missing now (r : redis) key :
  r !! key = None ∨ (∃ e, r !! key = Some e ∧ live now e = false) →
  redis_get now r key = Ok None.
Proof. intros H%redis_lookup_None. unfold redis_get. by rewrite H. Qed.

(** ** The selector with a profile in the store *)

(** The golden-set flag as [get_next_task] computes it. *)
Lemma get_next_task_with_profile now uuid (r : redis) session_id publisher_id
    language website_category previous_task_id p areas langs counter :
  redis_get now r (user_profile_key publisher_id session_id)
    = Ok (Some (RJson (DProfile p areas langs))) →
  redis_get now r (tasks_completed_key session_id) = Ok counter →
  ∃ task,
    get_next_task now uuid r session_id publisher_id
      language website_category previous_task_id
    = Ok (Some task,
          redis_set now
            (redis_set now r (assignment_key uuid) (RStr session_id) 300)
            (task_key uuid)
            (RJson (DTask uuid "vqa" (golden_set task)
                      (if golden_set task then Some "Blue" else None)
                      publisher_id session_id (complexity_level task) now)) 3600) ∧
    task_id task = uuid ∧
    complexity_level task = Z.min (up_max_complexity p) 3 ∧
    (golden_set task = true ↔
     up_expertise_level p = "beginner" ∧ counter = Some (RStr "0")).
Proof.
  intros Hprofile Hcounter. unfold get_next_task. rewrite Hprofile. simpl.
  destruct (String.eqb_spec (up_expertise_level p) "beginner") as [Hb|Hb].
  - rewrite Hcounter. eexists (Build_TaskResponse _ _ _ _ _ _ _ _).
    split; [reflexivity|]. simpl. split_and!; [done..|].
    destruct counter as [[s| |]|]; try (split; [done | by intros [_ [=]]]).
    destruct (String.eqb_spec s "0") as [->|Hs]; split; try done.
    intros [_ [= ->]]. done.
  - eexists (Build_TaskResponse _ _ _ _ _ _ false _). split; [reflexivity|].
    simpl. split_and!; [done..|].
    split; [done | by intros [? _]].
Qed.

(** ** The validator with an assignment in the store *)

Lemma validate_with_task now hex (r : redis) task_id session_id publisher_id
    response time_spent_ms task_type validation_type task_data :
  redis_get now r (task_key task_id) = Ok (Some (RJson task_data)) →
  ∃ r',
    validate_label_quality now hex r task_id session_id publisher_id response
      time_spent_ms task_type validation_type
    = Ok ({| validation_id := make_validation_id hex;
             quality_score :=
               (score_label validation_type task_data response time_spent_ms).1.1;
             validation_method := validation_type;
             issues_detected :=
               (score_label validation_type task_data response time_spent_ms).1.2;
             confidence :=
               if String.eqb validation_type "golden_set" then "high" else "medium";
             feedback :=
               (score_label validation_type task_data response time_spent_ms).2 |},
          r') ∧
    r' = redis_set now r (validation_key (make_validation_id hex))
           (RJson (DValidation (make_validation_id hex) task_id session_id publisher_id
                     response time_spent_ms
                     (score_label validation_type task_data response time_spent_ms).1.1
                     validation_type
                     (score_label validation_type task_data response time_spent_ms).1.2
                     now)) 86400.
Proof.
  intros Htask. unfold validate_label_quality. rewrite Htask. simpl.
  destruct (score_label validation_type task_data response time_spent_ms)
    as [[score issues] fb]. simpl. eexists. split; reflexivity.
Qed.

(** ** Submitting against a stored assignment *)

Lemma submit_task_result_with_task now hex (r : redis) task_id submission task_data :
  redis_get now r (task_key task_id) = Ok (Some (RJson task_data)) →
  submit_task_result now hex r task_id submission =
    let validation_type :=
      if default false (get_golden_set task_data) then "golden_set" else "consensus" in
    let scored :=
      score_label validation_type task_data
        (sub_response submission) (sub_time_spent_ms submission) in
    let r1 := redis_set now r (validation_key (make_validation_id hex))
                (RJson (DValidation (make_validation_id hex) task_id
                          (sub_session_id submission) (sub_publisher_id submission)
                          (sub_response submission) (sub_time_spent_ms submission)
                          scored.1.1 validation_type scored.1.2 now)) 86400 in
    let r2 := redis_set now r1 (submission_key task_id)
                (RJson (DSubmission task_id (sub_session_id submission)
                          (sub_publisher_id submission) (sub_response submission)
                          (sub_time_spent_ms submission) scored.1.1 now)) 86400 in
    match redis_incr now r2 (tasks_completed_key (sub_session_id submission)) with
    | Raised => Raised
    | Ok (_, r3) =>
        Ok ({| success := true;
               reward := {| rw_type := "content_access";
                            rw_duration_seconds := Some (reward_duration scored.1.1);
                            rw_points := None; rw_description := None |};
               sbr_quality_score := scored.1.1;
               next_task_available := true |}, r3)
    end.
Proof.
  intros Htask. unfold submit_task_result. rewrite Htask. simpl.
  destruct (validate_with_task now hex r task_id
              (sub_session_id submission) (sub_publisher_id submission)
              (sub_response submission) (sub_time_spent_ms submission)
              (default "vqa" (get_task_type task_data))
              (if default false (get_golden_set task_data)
               then "golden_set" else "consensus") task_data Htask)
    as (r' & -> & ->).
  reflexivity.
Qed.

Lemma redis_incr_zero now (r : redis) key exp :
  redis_lookup now r key = Some {| e_val := RStr "0"; e_exp := exp |} →
  redis_incr now r key = Ok (1, <[key := {| e_val := RStr "1"; e_exp := exp |}]> r).
Proof. intros Hk. unfold redis_incr. rewrite Hk. reflexivity. Qed.


(** ** Scores by validation method *)

Lemma score_label_golden task_data response time_spent_ms :
  get_golden_set task_data = Some true →
  ((∃ e, get_expected_answer task_data = Some e ∧ response = RespStr e) →
     score_label "golden_set" task_data response time_spent_ms
     = (1.0%float, [], "Correct response matches expected answer")) ∧
  (¬ (∃ e, get_expected_answer task_data = Some e ∧ response = RespStr e) →
     score_label "golden_set" task_data response time_spent_ms
     = (0.3%float, ["incorrect_golden_set_answer"],
        "Response does not match expected answer")).
Proof.
  intros Hgolden. unfold score_label. rewrite Hgolden. simpl. split.
  - intros (e & -> & ->). simpl. by rewrite String.eqb_refl.
  - intros Hno. destruct (get_expected_answer task_data) as [e|]; [|done].
    destruct response as [s| |]; simpl; try done.
    destruct (String.eqb_spec s e) as [->|]; [|done].
    destruct Hno. by exists e.
Qed.

Lemma score_label_consensus task_data response time_spent_ms :
  score_label "consensus" task_data response time_spent_ms =
    if time_spent_ms <? 500
    then ((0.8 * 0.5)%float, ["suspiciously_fast_response"],
          "Response time was suspiciously fast")
    else if 30000 <? time_spent_ms
    then ((0.8 * 0.9)%float, ["slow_response"],
          "Response time was slower than expected")
    else (0.8%float, [], "").
Proof. reflexivity. Qed.

(** C3: against a stored golden-set assignment the validator, called with
    the method [golden_set], scores 1.0 with no issue when the response
    equals the stored expected answer and 0.3 with the issue
    [incorrect_golden_set_answer] otherwise, with confidence [high]; a
    submission through [submit_task_result] is validated this way and
    carries that score. *)
Theorem golden_set_scoring now hex (r : redis) task_id task_data :
  redis_get now r (task_key task_id) = Ok (Some (RJson task_data)) →
  get_golden_set task_data = Some true →
  (∀ session_id publisher_id response time_spent_ms task_type,
     ∃ v r',
       validate_label_quality now hex r task_id session_id publisher_id response
         time_spent_ms task_type "golden_set" = Ok (v, r') ∧
       validation_method v = "golden_set" ∧
       confidence v = "high" ∧
       ((∃ e, get_expected_answer task_data = Some e ∧ response = RespStr e) →
          quality_score v = 1.0%float ∧ issues_detected v = []) ∧
       (¬ (∃ e, get_expected_answer task_data = Some e ∧ response = RespStr e) →
          quality_score v = 0.3%float ∧
          issues_detected v = ["incorrect_golden_set_answer"])) ∧
  (∀ submission submitted r2,
     submit_task_result now hex r task_id submission = Ok (submitted, r2) →
     success submitted = true ∧
     ((∃ e, get_expected_answer task_data = Some e ∧
            sub_response submission = RespStr e) →
        sbr_quality_score submitted = 1.0%float) ∧
     (¬ (∃ e, get_expected_answer task_data = Some e ∧
              sub_response submission = RespStr e) →
        sbr_quality_score submitted = 0.3%float)).
Proof.
  intros Htask Hgolden. split.
  - intros session_id publisher_id response time_spent_ms task_type.
    destruct (validate_with_task now hex r task_id session_id publisher_id response
                time_spent_ms task_type "golden_set" task_data Htask) as (r' & -> & _).
    destruct (score_label_golden task_data response time_spent_ms Hgolden)
      as [Hright Hwrong].
    eexists _, _. split; [reflexivity|]. simpl. split_and!; [done..| |].
    + intros Heq. by rewrite (Hright Heq).
    + intros Hne. by rewrite (Hwrong Hne).
  - intros submission submitted r2.
    rewrite (submit_task_result_with_task _ _ _ _ _ _ Htask). cbv zeta.
    rewrite Hgolden. simpl default.
    destruct (redis_incr _ _ _) as [|[n r3]]; [done|]. intros [= <- <-]. simpl.
    destruct (score_label_golden task_data (sub_response submission)
                (sub_time_spent_ms submission) Hgolden) as [Hright Hwrong].
    split_and!; [done| |].
    + intros Heq. by rewrite (Hright Heq).
    + intros Hne. by rewrite (Hwrong Hne).
Qed.

(** An instance: the wrong colour on a golden-set task scores 0.3. *)
Lemma golden_set_scoring_witness :
  ∃ v r',
    validate_label_quality 1020 "0123456789abcdef0123456789abcdef"
      (redis_set 1010 ∅ (task_key "t1")
         (RJson (DTask "t1" "vqa" true (Some "Blue") "pub_1" "sess_1" 2 1010)) 3600)
      "t1" "sess_1" "pub_1" (RespStr "Red") 4000 "vqa" "golden_set" = Ok (v, r') ∧
    quality_score v = 0.3%float.
Proof.
  destruct (golden_set_scoring 1020 "0123456789abcdef0123456789abcdef"
              (redis_set 1010 ∅ (task_key "t1")
                 (RJson (DTask "t1" "vqa" true (Some "Blue") "pub_1" "sess_1" 2 1010)) 3600)
              "t1" (DTask "t1" "vqa" true (Some "Blue") "pub_1" "sess_1" 2 1010))
    as [Hvalidate _].
  - vm_compute. reflexivity.
  - reflexivity.
  - destruct (Hvalidate "sess_1" "pub_1" (RespStr "Red") 4000 "vqa")
      as (v & r' & Hrun & _ & _ & _ & Hwrong).
    exists v, r'. split; [exact Hrun|]. apply Hwrong.
    intros (e & [= <-] & [=]).
Defined.

(** C4, as the code has it: with the method [consensus] against a stored
    assignment the score is the binary64 product 0.8 × 0.5 = 0.4 with the
    issue [suspiciously_fast_response] below 500 ms, the binary64 product
    0.8 × 0.9 = 0.7200000000000001 with the issue [slow_response] above
    30000 ms, and 0.8 with no issue in between, with confidence [medium];
    a submission against an assignment that is not golden-set is validated
    this way and carries that score. *)
Theorem consensus_timing_penalties now hex (r : redis) task_id task_data :
  redis_get now r (task_key task_id) = Ok (Some (RJson task_data)) →
  (∀ session_id publisher_id response time_spent_ms task_type,
     ∃ v r',
       validate_label_quality now hex r task_id session_id publisher_id response
         time_spent_ms task_type "consensus" = Ok (v, r') ∧
       validation_method v = "consensus" ∧
       confidence v = "medium" ∧
       (time_spent_ms < 500 →
          quality_score v = (0.8 * 0.5)%float ∧ quality_score v = 0.4%float ∧
          issues_detected v = ["suspiciously_fast_response"]) ∧
       (30000 < time_spent_ms →
          quality_score v = (0.8 * 0.9)%float ∧
          quality_score v = 0.7200000000000001%float ∧
          issues_detected v = ["slow_response"]) ∧
       (500 ≤ time_spent_ms ≤ 30000 →
          quality_score v = 0.8%float ∧ issues_detected v = [])) ∧
  (default false (get_golden_set task_data) = false →
   ∀ submission submitted r2,
     submit_task_result now hex r task_id submission = Ok (submitted, r2) →
     success submitted = true ∧
     (sub_time_spent_ms submission < 500 →
        sbr_quality_score submitted = 0.4%float) ∧
     (30000 < sub_time_spent_ms submission →
        sbr_quality_score submitted = 0.7200000000000001%float) ∧
     (500 ≤ sub_time_spent_ms submission ≤ 30000 →
        sbr_quality_score submitted = 0.8%float)).
Proof.
  intros Htask. split.
  - intros session_id publisher_id response time_spent_ms task_type.
    destruct (validate_with_task now hex r task_id session_id publisher_id response
                time_spent_ms task_type "consensus" task_data Htask) as (r' & -> & _).
    eexists _, _. split; [reflexivity|]. simpl.
    rewrite score_label_consensus. split_and!; [done..| | |].
    + intros Hfast. destruct (Z.ltb_spec time_spent_ms 500); [|lia]. done.
    + intros Hslow. destruct (Z.ltb_spec time_spent_ms 500); [lia|].
      destruct (Z.ltb_spec 30000 time_spent_ms); [|lia]. done.
    + intros Hmid. destruct (Z.ltb_spec time_spent_ms 500); [lia|].
      destruct (Z.ltb_spec 30000 time_spent_ms); [lia|]. done.
  - intros Hplain submission submitted r2.
    rewrite (submit_task_result_with_task _ _ _ _ _ _ Htask). cbv zeta.
    rewrite Hplain.
    destruct (redis_incr _ _ _) as [|[n r3]]; [done|]. intros [= <- <-]. simpl.
    rewrite score_label_consensus. split_and!; [done| | |].
    + intros Hfast. destruct (Z.ltb_spec (sub_time_spent_ms submission) 500); [|lia]. done.
    + intros Hslow. destruct (Z.ltb_spec (sub_time_spent_ms submission) 500); [lia|].
      destruct (Z.ltb_spec 30000 (sub_time_spent_ms submission)); [|lia]. done.
    + intros Hmid. destruct (Z.ltb_spec (sub_time_spent_ms submission) 500); [lia|].
      destruct (Z.ltb_spec 30000 (sub_time_spent_ms submission)); [lia|]. done.
Qed.

(** An instance: an answer given in 400 ms scores 0.4. *)
Lemma consensus_timing_penalties_witness :
  ∃ v r',
    validate_label_quality 1020 "0123456789abcdef0123456789abcdef"
      (redis_set 1010 ∅ (task_key "t1")
         (RJson (DTask "t1" "vqa" false None "pub_1" "sess_1" 2 1010)) 3600)
      "t1" "sess_1" "pub_1" (RespStr "Red") 400 "vqa" "consensus" = Ok (v, r') ∧
    quality_score v = 0.4%float.
Proof.
  destruct (consensus_timing_penalties 1020 "0123456789abcdef0123456789abcdef"
              (redis_set 1010 ∅ (task_key "t1")
                 (RJson (DTask "t1" "vqa" false None "pub_1" "sess_1" 2 1010)) 3600)
              "t1" (DTask "t1" "vqa" false None "pub_1" "sess_1" 2 1010))
    as [Hvalidate _].
  - vm_compute. reflexivity.
  - destruct (Hvalidate "sess_1" "pub_1" (RespStr "Red") 400 "vqa")
      as (v & r' & Hrun & _ & _ & Hfast & _).
    exists v, r'. split; [exact Hrun|]. apply Hfast. lia.
Defined.

(** C4 as stated fails at 40000 ms: the score the validator returns is
    not the float 0.72 (Python's [==] is [PrimFloat.eqb]) but the next
    float above it. *)
Lemma consensus_timing_counterexample :
  ∃ v r',
    validate_label_quality 1020 "0123456789abcdef0123456789abcdef"
      (redis_set 1010 ∅ (task_key "t1")
         (RJson (DTask "t1" "vqa" false None "pub_1" "sess_1" 2 1010)) 3600)
      "t1" "sess_1" "pub_1" (RespStr "Red") 40000 "vqa" "consensus" = Ok (v, r') ∧
    (quality_score v =? 0.72)%float = false ∧
    quality_score v = next_up 0.72%float.
Proof.
  eexists _, _. split; [vm_compute; reflexivity|]. split; reflexivity.
Qed.

(** ** Comparing binary64 numbers *)

Lemma SFcompare_antisym (a b : spec_float) :
  SFcompare b a = CompOpp <$> SFcompare a b.
Proof.
  destruct a as [s|s| |s m e], b as [s'|s'| |s' m' e']; simpl; try reflexivity;
    try (destruct s; try destruct s'; reflexivity).
  destruct s, s'; simpl; try reflexivity;
    rewrite (Z.compare_antisym e e'); destruct (e ?= e'); simpl; try reflexivity;
    change (PosDef.Pos.compare_cont Eq) with Pos.compare;
    rewrite (Pos.compare_antisym m m'); destruct (m ?= m')%positive; reflexivity.
Qed.

Lemma SFcompare_None (a b : spec_float) :
  SFcompare a b = None → a = S754_nan ∨ b = S754_nan.
Proof.
  destruct a as [s|s| |s m e], b as [s'|s'| |s' m' e']; simpl;
    try discriminate; auto.
Qed.

Lemma SFleb_trans (a b c : spec_float) :
  SFleb a b = true → SFleb b c = true → SFleb a c = true.
Proof.
  unfold SFleb.
  destruct a as [s1|s1| |s1 m1 e1], b as [s2|s2| |s2 m2 e2], c as [s3|s3| |s3 m3 e3];
    simpl; try discriminate; try reflexivity;
    try (destruct s1; try discriminate; try reflexivity);
    try (destruct s2; try discriminate; try reflexivity);
    try (destruct s3; try discriminate; try reflexivity).
  all: change (PosDef.Pos.compare_cont Eq) with Pos.compare.
  all: destruct (Z.compare_spec e1 e2), (Z.compare_spec e2 e3), (Z.compare_spec e1 e3);
    try lia; try discriminate; try reflexivity; simpl.
  all: destruct (Pos.compare_spec m1 m2), (Pos.compare_spec m2 m3), (Pos.compare_spec m1 m3);
    simpl; try lia; try discriminate; try reflexivity.
Qed.

Lemma float_leb_trans (a b c : float) :
  (a <=? b)%float = true → (b <=? c)%float = true → (a <=? c)%float = true.
Proof. rewrite !leb_spec. apply SFleb_trans. Qed.

(** [x < y] excludes [y ≤ x]. *)
Lemma float_ltb_not_leb (x y : float) :
  (x <? y)%float = true → (y <=? x)%float = false.
Proof.
  rewrite ltb_spec, leb_spec. unfold SFltb, SFleb.
  rewrite (SFcompare_antisym (Prim2SF x) (Prim2SF y)).
  by destruct (SFcompare (Prim2SF x) (Prim2SF y)) as [[]|].
Qed.

(** A number that some number is below is not NaN. *)
Lemma float_leb_not_nan (a q : float) :
  (a <=? q)%float = true → Prim2SF q ≠ S754_nan.
Proof.
  rewrite leb_spec. unfold SFleb. intros Hle Hnan. rewrite Hnan in Hle.
  by destruct (Prim2SF a).
Qed.

(** Among numbers, [¬ b ≤ q] is [q < b]. *)
Lemma float_not_leb_ltb (b q : float) :
  Prim2SF b ≠ S754_nan → Prim2SF q ≠ S754_nan →
  (b <=? q)%float = false → (q <? b)%float = true.
Proof.
  rewrite ltb_spec, leb_spec. unfold SFltb, SFleb. intros Hb Hq.
  rewrite (SFcompare_antisym (Prim2SF b) (Prim2SF q)).
  destruct (SFcompare (Prim2SF b) (Prim2SF q)) as [[]|] eqn:Hc; try done.
  by destruct (SFcompare_None _ _ Hc).
Qed.

(** C5: the reward is 7200 s from 0.9 up, 5400 s in [0.8, 0.9), 3600 s in
    [0.7, 0.8) and 1800 s for every other score; 0.9 earns 7200 s, 0.89999
    earns 5400 s and 0.5 earns 1800 s; a successful submission is rewarded
    with content access for the duration of its score's tier. *)
Theorem reward_tiers (q : float) :
  ((0.9 <=? q)%float = true → reward_duration q = 7200) ∧
  ((0.8 <=? q)%float = true → (q <? 0.9)%float = true → reward_duration q = 5400) ∧
  ((0.7 <=? q)%float = true → (q <? 0.8)%float = true → reward_duration q = 3600) ∧
  ((0.9 <=? q)%float = false →
   ((0.8 <=? q) && (q <? 0.9))%float = false →
   ((0.7 <=? q) && (q <? 0.8))%float = false →
   reward_duration q = 1800) ∧
  reward_duration 0.9 = 7200 ∧
  reward_duration 0.89999 = 5400 ∧
  reward_duration 0.5 = 1800 ∧
  (∀ now hex (r : redis) task_id submission submitted r',
     submit_task_result now hex r task_id submission = Ok (submitted, r') →
     success submitted = true →
     rw_type (reward submitted) = "content_access" ∧
     rw_duration_seconds (reward submitted)
     = Some (reward_duration (sbr_quality_score submitted))).
Proof.
  split_and!; try reflexivity; try unfold reward_duration.
  - by intros ->.
  - intros H8 H9. by rewrite (float_ltb_not_leb _ _ H9), H8.
  - intros H7 H8. rewrite (float_ltb_not_leb _ _ H8), H7.
    destruct (0.9 <=? q)%float eqn:H9; [|done].
    pose proof (float_ltb_not_leb _ _ H8) as Hno.
    by rewrite (float_leb_trans 0.8 0.9 q eq_refl H9) in Hno.
  - intros H9 H8 H7. rewrite H9.
    destruct (0.8 <=? q)%float eqn:H8'.
    + rewrite (float_not_leb_ltb 0.9 q) in H8; [done|by vm_compute| |done].
      by eapply float_leb_not_nan.
    + destruct (0.7 <=? q)%float eqn:H7'; [|done].
      rewrite (float_not_leb_ltb 0.8 q) in H7; [done|by vm_compute| |done].
      by eapply float_leb_not_nan.
  - intros now hex r task_id submission submitted r'. unfold submit_task_result.
    destruct (redis_get now r (task_key task_id)) as [|task_json]; [done|].
    destruct (falsy task_json); [by intros [= <- <-]|].
    destruct (json_loads task_json) as [|task_data]; [done|].
    destruct (validate_label_quality _ _ _ _ _ _ _ _ _ _) as [|[v r1]]; [done|].
    destruct (redis_incr _ _ _) as [|[n r3]]; [done|].
    by intros [= <- <-].
Qed.

(** An instance: a score of 0.85 earns 5400 s. *)
Lemma reward_tiers_witness : reward_duration 0.85 = 5400.
Proof.
  destruct (reward_tiers 0.85) as (_ & Hgood & _).
  apply Hgood; reflexivity.
Defined.

(** C6: a submission whose assignment record is missing or expired is
    answered with [success = false] and a reward of type [none], the store
    is left as it was (no reward tier, no submission record, no counter
    increment); the validator answers a missing assignment with the score
    0.2, the issue [task_not_found] and the method [unknown]. *)
Theorem missing_assignment_short_circuits now hex (r : redis) task_id submission :
  r !! task_key task_id = None ∨
  (∃ e, r !! task_key task_id = Some e ∧ live now e = false) →
  submit_task_result now hex r task_id submission
  = Ok ({| success := false;
           reward := {| rw_type := "none"; rw_duration_seconds := None;
                        rw_points := None; rw_description := None |};
           sbr_quality_score := 0.0%float;
           next_task_available := true |}, r) ∧
  ∀ session_id publisher_id response time_spent_ms task_type validation_type,
    validate_label_quality now hex r task_id session_id publisher_id response
      time_spent_ms task_type validation_type
    = Ok ({| validation_id := make_validation_id hex;
             quality_score := 0.2%float;
             validation_method := "unknown";
             issues_detected := ["task_not_found"];
             confidence := "low";
             feedback := "Task not found or expired" |}, r).
Proof.
  intros Hmissing%redis_get_missing. split.
  - unfold submit_task_result. by rewrite Hmissing.
  - intros. unfold validate_label_quality. by rewrite Hmissing.
Qed.

(** An instance: a submission an hour after the assignment has expired. *)
Lemma missing_assignment_witness :
  ∃ submitted r',
    submit_task_result 5000 "0123456789abcdef0123456789abcdef"
      (redis_set 1010 ∅ (task_key "t1")
         (RJson (DTask "t1" "vqa" false None "pub_1" "sess_1" 2 1010)) 3600)
      "t1"
      {| sub_session_id := "sess_1"; sub_publisher_id := "pub_1";
         sub_response := RespStr "Red"; sub_time_spent_ms := 4000;
         sub_session_info := example_session_info |} = Ok (submitted, r') ∧
    success submitted = false ∧ rw_type (reward submitted) = "none".
Proof.
  eexists _, _. split.
  - apply (missing_assignment_short_circuits 5000 "0123456789abcdef0123456789abcdef"
             (redis_set 1010 ∅ (task_key "t1")
                (RJson (DTask "t1" "vqa" false None "pub_1" "sess_1" 2 1010)) 3600)
             "t1").
    right. eexists. split; [vm_compute; reflexivity|]. reflexivity.
  - split; reflexivity.
Defined.

(** C9: with the profile record in the store (and the counter key
    holding a string or nothing) [get_next_task] returns a task, whatever
    the language and category filters, and its complexity level is
    [min(max_complexity, 3)]; the function returns no task only when the
    profile lookup comes back empty. *)
Theorem get_next_task_returns_task now uuid (r : redis) session_id publisher_id
    language website_category previous_task_id :
  (∀ p areas langs counter,
     redis_get now r (user_profile_key publisher_id session_id)
       = Ok (Some (RJson (DProfile p areas langs))) →
     redis_get now r (tasks_completed_key session_id) = Ok counter →
     ∃ task r',
       get_next_task now uuid r session_id publisher_id
         language website_category previous_task_id = Ok (Some task, r') ∧
       complexity_level task = Z.min (up_max_complexity p) 3) ∧
  (∀ r',
     get_next_task now uuid r session_id publisher_id
       language website_category previous_task_id = Ok (None, r') →
     ∃ v, redis_get now r (user_profile_key publisher_id session_id) = Ok v ∧
          falsy v = true ∧ r' = r).
Proof.
  split.
  - intros p areas langs counter Hprofile Hcounter.
    destruct (get_next_task_with_profile now uuid r session_id publisher_id
                language website_category previous_task_id p areas langs counter
                Hprofile Hcounter) as (task & Hrun & _ & Hlevel & _).
    eauto.
  - intros r'. unfold get_next_task.
    destruct (redis_get now r (user_profile_key publisher_id session_id)) as [|v]; [done|].
    destruct (falsy v) eqn:Hfalsy.
    + intros [= <-]. eauto.
    + destruct (json_loads v) as [|d]; [done|]. simpl.
      destruct (String.eqb _ "beginner"); [|done].
      by destruct (redis_get now r (tasks_completed_key session_id)).
Qed.

(** An instance: a fresh session asks for a French news task. *)
Lemma get_next_task_returns_task_witness :
  ∃ task r',
    get_next_task 1010 "11111111-2222-4333-8444-555555555555"
      (initialize_user_session 1000 "0123456789abcdef0123456789abcdef" ∅
         {| sir_publisher_id := "pub_1";
            sir_client_info := {|
              ci_browser := "firefox"; ci_browser_version := "120";
              ci_os := "linux"; ci_screen_resolution := "1920x1080";
              ci_language := "en-US"; ci_timezone := None;
              ci_referring_url := None; ci_device_type := Some "mobile" |};
            sir_consent := {| cs_functional := true; cs_analytics := true |} |}).2
      "sess_0123456789ab" "pub_1" (Some "fr") (Some "news") None
    = Ok (Some task, r') ∧
    complexity_level task = 2.
Proof.
  eapply (proj1 (get_next_task_returns_task 1010 "11111111-2222-4333-8444-555555555555"
                   _ "sess_0123456789ab" "pub_1" (Some "fr") (Some "news") None)
            {| up_language := "en"; up_expertise_level := "beginner";
               up_task_preferences := ["vqa"]; up_max_complexity := 2 |}
            None None (Some (RStr "0"))).
  - vm_compute. reflexivity.
  - vm_compute. reflexivity.
Defined.

(** C10: for a count [n ≥ 1] the batch holds exactly [n] tasks, never
    none, each of complexity level 2 for the filter [medium], 3 for [high]
    and 1 for every other filter, [low] and an absent one included; the
    router never answers 204. *)
Theorem get_task_batch_full now uuid4 (r : redis) publisher_id count
    language category complexity :
  1 ≤ count →
  let batch := (get_task_batch now uuid4 r publisher_id count
                  language category complexity).1 in
  Z.of_nat (length (tb_tasks batch)) = count ∧
  tb_tasks batch ≠ [] ∧
  (∃ level,
     Forall (λ t, ts_complexity_level t = level) (tb_tasks batch) ∧
     (complexity = Some "medium" → level = 2) ∧
     (complexity = Some "high" → level = 3) ∧
     (complexity ≠ Some "medium" → complexity ≠ Some "high" → level = 1) ∧
     (complexity = Some "low" → level = 1) ∧
     (complexity = None → level = 1)) ∧
  (∀ auth_publisher_id count_query,
     (get_tasks_batch now uuid4 r auth_publisher_id publisher_id count_query
        language category complexity).1 ≠ HTTP_204).
Proof.
  intros Hcount batch. subst batch. unfold get_task_batch. simpl. split_and!.
  - rewrite length_fmap, length_seq. lia.
  - intros Hnil%(f_equal length). rewrite length_fmap, length_seq in Hnil.
    simpl in Hnil. lia.
  - exists (batch_complexity_level complexity). split_and!.
    + apply Forall_fmap, Forall_forall. done.
    + by intros ->.
    + by intros ->.
    + intros Hm Hh. unfold batch_complexity_level.
      by rewrite !decide_False.
    + by intros ->.
    + by intros ->.
  - intros auth count_query. unfold get_tasks_batch, get_task_batch.
    destruct (negb _) eqn:Hvalid; [done|]. destruct (negb (_ =? _)%string); [done|].
    simpl. apply negb_false_iff in Hvalid.
    apply andb_prop in Hvalid as [Hrange _]. apply andb_prop in Hrange as [Hlo _].
    apply Z.leb_le in Hlo.
    destruct (Z.to_nat (default 10 count_query)) as [|n] eqn:Hn; [lia|].
    done.
Qed.

(** An instance: a batch of three tasks of high complexity. *)
Lemma get_task_batch_full_witness :
  Z.of_nat (length (tb_tasks (get_task_batch 1000 (λ i, pretty i) ∅ "pub_1" 3
                                None None (Some "high")).1)) = 3.
Proof.
  apply (get_task_batch_full 1000 (λ i, pretty i) ∅ "pub_1" 3 None None (Some "high")).
  lia.
Defined.

(** C2: with the profile record in the store (and the counter key holding
    a string or nothing), the task that [get_next_task] returns is
    golden-set exactly when the profile's expertise level is [beginner] and
    the session's tasks-completed counter reads 0.  In particular the first
    task of a freshly initialised session is golden-set, and once that task
    has been submitted (which increments the counter) the next one is not. *)
Theorem golden_set_rule :
  (∀ now uuid (r : redis) session_id publisher_id
     language website_category previous_task_id p areas langs counter,
     redis_get now r (user_profile_key publisher_id session_id)
       = Ok (Some (RJson (DProfile p areas langs))) →
     redis_get now r (tasks_completed_key session_id) = Ok counter →
     ∃ task r',
       get_next_task now uuid r session_id publisher_id
         language website_category previous_task_id = Ok (Some task, r') ∧
       (golden_set task = true ↔
        up_expertise_level p = "beginner" ∧ counter = Some (RStr "0"))) ∧
  (∀ t0 hex0 (r : redis) session_request
     t1 uuid1 language1 category1 previous1
     t2 hex2 response time_spent_ms session_info
     t3 uuid3 language3 category3 previous3,
     let session := initialize_user_session t0 hex0 r session_request in
     let session_id := sr_session_id session.1 in
     let publisher_id := sir_publisher_id session_request in
     t1 < t0 + 86400 → t2 < t1 + 3600 → t2 < t0 + 86400 → t3 < t0 + 86400 →
     ∃ task1 r1 submitted r2 task3 r3,
       get_next_task t1 uuid1 session.2 session_id publisher_id
         language1 category1 previous1 = Ok (Some task1, r1) ∧
       golden_set task1 = true ∧
       submit_task_result t2 hex2 r1 (task_id task1)
         {| sub_session_id := session_id; sub_publisher_id := publisher_id;
            sub_response := response; sub_time_spent_ms := time_spent_ms;
            sub_session_info := session_info |}
         = Ok (submitted, r2) ∧
       success submitted = true ∧
       get_next_task t3 uuid3 r2 session_id publisher_id
         language3 category3 previous3 = Ok (Some task3, r3) ∧
       golden_set task3 = false).
Proof.
  split.
  - intros now uuid r session_id publisher_id language website_category
      previous_task_id p areas langs counter Hprofile Hcounter.
    destruct (get_next_task_with_profile now uuid r session_id publisher_id
                language website_category previous_task_id p areas langs counter
                Hprofile Hcounter) as (task & Hrun & _ & _ & Hgolden).
    eauto.
  - intros t0 hex0 r req t1 uuid1 language1 category1 previous1
      t2 hex2 response time_spent_ms session_info t3 uuid3 language3 category3 previous3
      session session_id publisher_id Ht1 Ht2 Ht2' Ht3.
    subst session session_id publisher_id. unfold initialize_user_session. simpl.
    set (sid := "sess_" +:+ substring 0 12 hex0).
    set (pid := sir_publisher_id req).
    set (profile := Build_UserProfile _ _ _ _).
    set (r0 := redis_set t0 (redis_set t0 (redis_set t0 r _ _ _) _ _ _) _ _ _).
    (* the first selection *)
    assert (Hprofile1 : redis_get t1 r0 (user_profile_key pid sid)
                        = Ok (Some (RJson (DProfile profile None None)))).
    { subst r0. rewrite redis_get_set_ne by (apply not_eq_sym; auto with keys).
      by rewrite redis_get_set_json. }
    assert (Hcounter1 : redis_get t1 r0 (tasks_completed_key sid) = Ok (Some (RStr "0"))).
    { subst r0. by rewrite redis_get_set_str. }
    destruct (get_next_task_with_profile t1 uuid1 r0 sid pid language1 category1
                previous1 profile None None _ Hprofile1 Hcounter1)
      as (task1 & Hrun1 & Hid1 & _ & Hgolden1).
    assert (golden_set task1 = true) as Hg1 by (by apply Hgolden1).
    rewrite Hg1 in Hrun1.
    set (r1 := redis_set t1 (redis_set t1 r0 _ _ _) _ _ _) in Hrun1.
    (* the submission *)
    assert (Htask2 : redis_get t2 r1 (task_key uuid1)
                     = Ok (Some (RJson (DTask uuid1 "vqa" true (Some "Blue") pid sid
                                          (complexity_level task1) t1)))).
    { subst r1. by rewrite redis_get_set_json. }
    pose proof (submit_task_result_with_task t2 hex2 r1 uuid1
                  {| sub_session_id := sid; sub_publisher_id := pid;
                     sub_response := response; sub_time_spent_ms := time_spent_ms;
                     sub_session_info := session_info |}
                  _ Htask2) as Hsubmit.
    cbv zeta in Hsubmit. simpl sub_session_id in Hsubmit.
    set (r2' := redis_set t2 (redis_set t2 r1 _ _ _) _ _ _) in Hsubmit.
    assert (Hcounter2 : redis_lookup t2 r2' (tasks_completed_key sid)
                        = Some {| e_val := RStr "0"; e_exp := Some (t0 + 86400) |}).
    { subst r2' r1 r0. rewrite !redis_lookup_set_ne by auto with keys.
      by rewrite redis_lookup_set_eq. }
    rewrite (redis_incr_zero _ _ _ _ Hcounter2) in Hsubmit.
    set (r2 := <[tasks_completed_key sid := _]> r2') in Hsubmit.
    (* the second selection *)
    assert (Hprofile3 : redis_get t3 r2 (user_profile_key pid sid)
                        = Ok (Some (RJson (DProfile profile None None)))).
    { subst r2 r2' r1 r0.
      rewrite redis_get_insert_ne by (apply not_eq_sym; auto with keys).
      rewrite !redis_get_set_ne by (auto with keys || (apply not_eq_sym; auto with keys)).
      by rewrite redis_get_set_json. }
    assert (Hcounter3 : redis_get t3 r2 (tasks_completed_key sid) = Ok (Some (RStr "1"))).
    { subst r2. unfold redis_get. rewrite redis_lookup_insert_eq. unfold live; simpl.
      destruct (Z.leb_spec t3 (t0 + 86400)); [done|lia]. }
    destruct (get_next_task_with_profile t3 uuid3 r2 sid pid language3 category3
                previous3 profile None None _ Hprofile3 Hcounter3)
      as (task3 & Hrun3 & _ & _ & Hgolden3).
    eexists task1, r1, _, r2, task3, _. rewrite Hid1.
    split_and!; [exact Hrun1|done|exact Hsubmit|done|exact Hrun3|].
    apply not_true_is_false. rewrite Hgolden3. by intros [_ [=]].
Qed.

(** An instance: the first task of a fresh session. *)
Lemma golden_set_rule_witness :
  ∃ task r',
    get_next_task 1010 "11111111-2222-4333-8444-555555555555"
      (initialize_user_session 1000 "0123456789abcdef0123456789abcdef" ∅
         {| sir_publisher_id := "pub_1";
            sir_client_info := {|
              ci_browser := "firefox"; ci_browser_version := "120";
              ci_os := "linux"; ci_screen_resolution := "1920x1080";
              ci_language := "en-US"; ci_timezone := None;
              ci_referring_url := None; ci_device_type := Some "mobile" |};
            sir_consent := {| cs_functional := true; cs_analytics := true |} |}).2
      "sess_0123456789ab" "pub_1" None None None
    = Ok (Some task, r') ∧
    (golden_set task = true ↔
     "beginner" = "beginner" ∧ Some (RStr "0") = Some (RStr "0")).
Proof.
  eapply (proj1 golden_set_rule 1010 "11111111-2222-4333-8444-555555555555"
            _ "sess_0123456789ab" "pub_1" None None None
            {| up_language := "en"; up_expertise_level := "beginner";
               up_task_preferences := ["vqa"]; up_max_complexity := 2 |}
            None None (Some (RStr "0"))).
  - vm_compute. reflexivity.
  - vm_compute. reflexivity.
Defined.

(** * Further properties *)

(** ** The rate limiter *)

Lemma zset_at_local now (r1 r2 : redis) key :
  r1 !! key = r2 !! key → zset_at now r1 key = zset_at now r2 key.
Proof. intros Heq. unfold zset_at, redis_lookup. by rewrite Heq. Qed.

Lemma check_rate_limit_raises (r : redis) current key limit window :
  zset_at current r key = Raised →
  _check_rate_limit (Some r) current key limit window = Raised.
Proof.
  unfold zset_at, _check_rate_limit, zremrangebyscore.
  destruct (redis_lookup current r key) as [e|]; [|done].
  by destruct (e_val e).
Qed.

(** X1: a check reads and writes its own key only: every other key is
    left as it was, and a check on another key answers as if the first
    had never run. *)
Theorem check_rate_limit_isolated (r : redis) current key limit window z
    current' key' limit' window' :
  0 < window → 0 < window' →
  zset_at current r key = Ok z →
  key' ≠ key →
  ∃ res (r' : redis),
    _check_rate_limit (Some r) current key limit window = Ok (res, Some r') ∧
    r' !! key' = r !! key' ∧
    verdict_of (_check_rate_limit (Some r') current' key' limit' window')
    = verdict_of (_check_rate_limit (Some r) current' key' limit' window').
Proof.
  intros HW HW' Hz Hne.
  rewrite (check_rate_limit_step r current key limit window z HW Hz).
  eexists _, _. split; [reflexivity|].
  assert (Hsame : (<[key := {| e_val := RZSet (<[str current := current]>
                       (filter (λ ms, ¬ score_in 0 (current - window) ms) z));
                     e_exp := Some (current + window) |}]> r) !! key' = r !! key')
    by (by rewrite lookup_insert_ne).
  split; [exact Hsame|].
  pose proof (zset_at_local current' _ _ key' Hsame) as Hview.
  destruct (zset_at current' r key') as [|z'] eqn:Hz'.
  - rewrite !check_rate_limit_raises; done.
  - rewrite (check_rate_limit_step _ current' key' limit' window' z' HW' Hview).
    by rewrite (check_rate_limit_step r current' key' limit' window' z' HW' Hz').
Qed.

(** An instance: a check for one publisher next to another publisher's window. *)
Lemma check_rate_limit_isolated_witness :
  ∃ res (r' : redis),
    _check_rate_limit (Some ∅) 100 "rate_limit:pub_a:/v1/tasks/next" 2 60 = Ok (res, Some r') ∧
    r' !! "rate_limit:pub_b:/v1/tasks/next" = None.
Proof.
  destruct (check_rate_limit_isolated ∅ 100 "rate_limit:pub_a:/v1/tasks/next" 2 60 ∅
              100 "rate_limit:pub_b:/v1/tasks/next" 2 60)
    as (res & r' & Hrun & Hother & _).
  - lia.
  - lia.
  - reflexivity.
  - intros [=].
  - exists res, r'. split; [exact Hrun|]. by rewrite Hother.
Defined.

(** X2: what the headers report.  On the store path a rejected request
    reports 0 remaining and an allowed one a remaining count from 0 to
    [limit - 1]; failing open reports the full [limit].  The reset time is
    always between 1 and [window] seconds. *)
Theorem check_rate_limit_headers pool current key limit window :
  0 < window →
  (∀ r : redis, pool = Some r → ∃ z, zset_at current r key = Ok z) →
  ∃ res pool',
    _check_rate_limit pool current key limit window = Ok (res, pool') ∧
    (is_rate_limited res = true → remaining res = 0 ∧ pool ≠ None) ∧
    (is_rate_limited res = false → pool ≠ None → 0 ≤ remaining res ≤ limit - 1) ∧
    (pool = None → is_rate_limited res = false ∧ remaining res = limit) ∧
    1 ≤ reset_time res ≤ window.
Proof.
  intros HW Hkey. destruct pool as [r|].
  - destruct (Hkey r eq_refl) as [z Hz].
    rewrite (check_rate_limit_step r current key limit window z HW Hz).
    eexists _, _. split; [reflexivity|].
    unfold is_rate_limited, remaining, reset_time, verdict. simpl.
    set (n := Z.of_nat (size _)). split_and!.
    + intros Hlim%Z.leb_le. split; [lia|done].
    + intros Hok%Z.leb_gt _. lia.
    + done.
    + destruct (60 <? window); [|lia].
      pose proof (Z.mod_pos_bound current window HW). lia.
    + destruct (60 <? window); [|lia].
      pose proof (Z.mod_pos_bound current window HW). lia.
  - eexists _, _. split; [reflexivity|].
    unfold is_rate_limited, remaining, reset_time. simpl. split_and!; try done; lia.
Qed.

(** An instance: the first request against a limit of 5 per hour. *)
Lemma check_rate_limit_headers_witness :
  ∃ res pool',
    _check_rate_limit (Some ∅) 100 "rate_limit:anonymous:/v1/stats" 5 3600 = Ok (res, pool') ∧
    1 ≤ reset_time res ≤ 3600.
Proof.
  destruct (check_rate_limit_headers (Some ∅) 100 "rate_limit:anonymous:/v1/stats" 5 3600)
    as (res & pool' & Hrun & _ & _ & _ & Hreset).
  - lia.
  - intros r [= <-]. by exists ∅.
  - exists res, pool'. split; [exact Hrun | exact Hreset].
Defined.

(** X3: the key cleans itself.  Behind a pool, after a check at [t] the
    key is gone once more than [window] seconds have passed, whatever it
    held; a check that comes that late counts no earlier request: it
    passes when [limit > 0] and reports [limit - 1] remaining.  Without a
    pool, which is how the module runs, the late check passes like every
    other and reports [limit] remaining. *)
Theorem check_rate_limit_after_silence pool t key limit window t' :
  0 < window →
  (∀ r : redis, pool = Some r → ∃ z, zset_at t r key = Ok z) →
  t + window < t' →
  ∃ res pool' res' pool'',
    _check_rate_limit pool t key limit window = Ok (res, pool') ∧
    _check_rate_limit pool' t' key limit window = Ok (res', pool'') ∧
    (pool ≠ None →
     (∃ r' : redis, pool' = Some r' ∧ redis_lookup t' r' key = None) ∧
     res' = verdict limit window t' 0 ∧
     (0 < limit → is_rate_limited res' = false ∧ remaining res' = limit - 1)) ∧
    (pool = None → is_rate_limited res' = false ∧ remaining res' = limit).
Proof.
  intros HW Hkey Hlate. destruct pool as [r|].
  - destruct (Hkey r eq_refl) as [z Hz].
    pose proof (check_rate_limit_step r t key limit window z HW Hz) as Hstep.
    cbv zeta in Hstep. set (r' := <[key := _]> r) in Hstep.
    assert (Hgone : redis_lookup t' r' key = None).
    { subst r'. rewrite redis_lookup_insert_eq. unfold live; simpl.
      destruct (Z.leb_spec t' (t + window)); [lia|done]. }
    assert (Hview : zset_at t' r' key = Ok ∅) by (unfold zset_at; by rewrite Hgone).
    pose proof (check_rate_limit_step r' t' key limit window ∅ HW Hview) as Hstep'.
    cbv zeta in Hstep'. rewrite map_filter_empty, map_size_empty in Hstep'.
    eexists _, (Some r'), _, _. split; [exact Hstep|]. split; [exact Hstep'|].
    split; [|done].
    intros _. split; [by exists r'|]. split; [done|].
    intros Hlimit. unfold verdict, is_rate_limited, remaining. simpl.
    change (Z.of_nat 0) with 0.
    destruct (Z.leb_spec limit 0); [lia|]. split; [done|lia].
  - eexists _, _, _, _. split; [reflexivity|]. split; [reflexivity|]. split; [done|].
    intros _. done.
Qed.

(** An instance: the window of a publisher, looked at again after 61
    seconds. *)
Lemma check_rate_limit_after_silence_witness :
  ∃ res pool' res' pool'',
    _check_rate_limit (Some ∅) 100 "rate_limit:pub_a:/v1/tasks/next" 2 60
      = Ok (res, pool') ∧
    _check_rate_limit pool' 161 "rate_limit:pub_a:/v1/tasks/next" 2 60
      = Ok (res', pool'') ∧
    remaining res' = 1.
Proof.
  destruct (check_rate_limit_after_silence (Some ∅) 100
              "rate_limit:pub_a:/v1/tasks/next" 2 60 161)
    as (res & pool' & res' & pool'' & Hrun & Hrun' & Hsome & _).
  - lia.
  - intros r [= <-]. by exists ∅.
  - lia.
  - exists res, pool', res', pool''. split_and!; [exact Hrun | exact Hrun' |].
    destruct Hsome as (_ & _ & Hleft); [done|]. by destruct Hleft as [_ ->]; [lia|].
Defined.

(** ** The size of a window *)

Lemma canonical_within_size lo hi (z : gmap string Z) :
  canonical_within lo hi z → (size z ≤ Z.to_nat (hi - lo + 1))%nat.
Proof.
  intros Hz.
  set (I := (λ i : nat, lo + Z.of_nat i) <$> seq 0 (Z.to_nat (hi - lo + 1))).
  assert (Hnd : NoDup I).
  { apply NoDup_fmap_2; [|apply NoDup_seq]. intros a b ?. lia. }
  assert (Hsub : z ⊆ zset_of I).
  { apply map_subseteq_spec. intros m s Hm. destruct (Hz m s Hm) as [-> Hs].
    apply zset_of_lookup_in. subst I. apply list_elem_of_fmap.
    exists (Z.to_nat (s - lo)). split; [lia|]. apply elem_of_seq. lia. }
  apply map_subseteq_size in Hsub. rewrite zset_of_size in Hsub by done.
  subst I. by rewrite length_fmap, length_seq in Hsub.
Qed.

Lemma canonical_within_trim lo now window (z : gmap string Z) :
  0 ≤ lo →
  canonical_within lo now z →
  canonical_within (now - window + 1) now
    (filter (λ ms, ¬ score_in 0 (now - window) ms) z).
Proof.
  intros Hlo Hz m s [Hm Hkeep]%map_lookup_filter_Some.
  destruct (Hz m s Hm) as [-> Hs]. split; [done|].
  unfold score_in in Hkeep. simpl in Hkeep. lia.
Qed.

(** One check on a key whose members are canonical and not later than
    [tl]: it counts at most [window] requests and leaves the key canonical
    and not later than [now]. *)
Lemma check_rate_limit_canonical (r : redis) tl now key limit window :
  0 < window → tl ≤ now → 0 ≤ now →
  (∀ t, ∃ z, zset_at t r key = Ok z ∧ canonical_within 0 tl z) →
  ∃ (n : nat) (r' : redis),
    _check_rate_limit (Some r) now key limit window
    = Ok (verdict limit window now n, Some r') ∧
    (Z.of_nat n ≤ window) ∧
    (∀ t, ∃ z, zset_at t r' key = Ok z ∧ canonical_within (Z.max 0 (now - window + 1)) now z) ∧
    (∀ t, (size (members_at t (Some r') key) ≤ Z.to_nat window)%nat).
Proof.
  intros HW Hle Hnow Hinv. destruct (Hinv now) as (z & Hz & Hcanon).
  rewrite (check_rate_limit_step r now key limit window z HW Hz).
  set (z1 := filter (λ ms, ¬ score_in 0 (now - window) ms) z).
  assert (Hz1 : canonical_within (Z.max 0 (now - window + 1)) now z1).
  { intros m s Hm.
    assert (canonical_within 0 now z) as Hwide.
    { intros m' s' Hm'. destruct (Hcanon m' s' Hm') as [? ?]. split; [done|lia]. }
    destruct (canonical_within_trim 0 now window z (Z.le_refl 0) Hwide m s Hm) as [-> ?].
    subst z1. apply map_lookup_filter_Some in Hm as [Hm _].
    destruct (Hcanon _ _ Hm) as [_ ?]. split; [done|lia]. }
  assert (Hz2 : canonical_within (Z.max 0 (now - window + 1)) now
                  (<[str now := now]> z1)).
  { intros m s [[<- <-]|[_ Hm]]%lookup_insert_Some; [split; [done|lia]|].
    by apply Hz1. }
  assert (Hbound : ∀ z', canonical_within (Z.max 0 (now - window + 1)) now z' →
                         (size z' ≤ Z.to_nat window)%nat).
  { intros z' Hz'. apply canonical_within_size in Hz'. lia. }
  assert (Hview : ∀ t, ∃ z', zset_at t (<[key := {| e_val := RZSet (<[str now := now]> z1);
                                                    e_exp := Some (now + window) |}]> r) key
                             = Ok z' ∧
                            canonical_within (Z.max 0 (now - window + 1)) now z').
  { intros t. unfold zset_at. rewrite redis_lookup_insert_eq.
    destruct (live t _); simpl; eauto. exists ∅. split; [done|]. by intros m s. }
  eexists (size z1), _. split_and!; [reflexivity| |exact Hview|].
  - specialize (Hbound z1 Hz1). lia.
  - intros t. destruct (Hview t) as (z' & Hz' & Hc). unfold members_at. rewrite Hz'.
    by apply Hbound.
Qed.

(** X4: the window stays in shape.  If every member under the key is the
    text of its score and no score is later than the clock, then after a
    check every member is the text of a score in [(now - window, now]], the
    key holds at most [window] members, and the check has counted at most
    [window] earlier requests. *)
Theorem check_rate_limit_keeps_window (r : redis) now key limit window z :
  0 < window → 0 ≤ now →
  zset_at now r key = Ok z →
  canonical_within 0 now z →
  ∃ (n : nat) pool',
    _check_rate_limit (Some r) now key limit window
    = Ok (verdict limit window now n, pool') ∧
    Z.of_nat n ≤ window ∧
    canonical_within (now - window + 1) now (members_at now pool' key) ∧
    Z.of_nat (size (members_at now pool' key)) ≤ window.
Proof.
  intros HW Hnow Hz Hcanon.
  rewrite (check_rate_limit_step r now key limit window z HW Hz).
  set (z1 := filter (λ ms, ¬ score_in 0 (now - window) ms) z).
  pose proof (canonical_within_trim 0 now window z (Z.le_refl 0) Hcanon) as Hz1.
  fold z1 in Hz1.
  assert (Hz2 : canonical_within (now - window + 1) now (<[str now := now]> z1)).
  { intros m s [[<- <-]|[_ Hm]]%lookup_insert_Some; [split; [done|lia]|].
    by apply Hz1. }
  eexists (size z1), _. split; [reflexivity|].
  assert (members_at now (Some (<[key := {| e_val := RZSet (<[str now := now]> z1);
                                            e_exp := Some (now + window) |}]> r)) key
          = <[str now := now]> z1) as ->.
  { unfold members_at, zset_at. rewrite redis_lookup_insert_eq. unfold live; simpl.
    destruct (Z.leb_spec now (now + window)); [done|lia]. }
  pose proof (canonical_within_size _ _ _ Hz1) as Hs1.
  pose proof (canonical_within_size _ _ _ Hz2) as Hs2.
  split_and!; [lia|done|lia].
Qed.

(** An instance: the first check on a fresh key. *)
Lemma check_rate_limit_keeps_window_witness :
  ∃ (n : nat) pool',
    _check_rate_limit (Some ∅) 100 "rate_limit:pub_a:/v1/tasks/next" 2 60
    = Ok (verdict 2 60 100 n, pool') ∧
    Z.of_nat (size (members_at 100 pool' "rate_limit:pub_a:/v1/tasks/next")) ≤ 60.
Proof.
  destruct (check_rate_limit_keeps_window ∅ 100 "rate_limit:pub_a:/v1/tasks/next" 2 60 ∅)
    as (n & pool' & Hrun & _ & _ & Hsize).
  - lia.
  - lia.
  - reflexivity.
  - intros m s Hm. by rewrite lookup_empty in Hm.
  - exists n, pool'. split; [exact Hrun | exact Hsize].
Defined.

Lemma run_checks_cons pool key limit window x ts :
  run_checks pool key limit window (x :: ts) =
  match _check_rate_limit pool x key limit window with
  | Raised => Raised
  | Ok (res, pool') =>
      match run_checks pool' key limit window ts with
      | Raised => Raised
      | Ok (ress, pool'') => Ok (res :: ress, pool'')
      end
  end.
Proof. reflexivity. Qed.

Lemma run_checks_above_window (r : redis) tl key limit window ts :
  0 < window → window < limit → 0 ≤ tl →
  (∀ t, ∃ z, zset_at t r key = Ok z ∧ canonical_within 0 tl z) →
  Forall (λ t, tl ≤ t) ts →
  StronglySorted Z.le ts →
  ∃ res pool',
    run_checks (Some r) key limit window ts = Ok (res, pool') ∧
    length res = length ts ∧
    Forall (λ v, is_rate_limited v = false) res.
Proof.
  intros HW Hlimit. revert r tl.
  induction ts as [|x ts IH]; intros r tl Htl Hinv Hafter Hsorted.
  { exists [], (Some r). by split_and!. }
  apply Forall_cons in Hafter as [Hx Hafter].
  apply StronglySorted_cons in Hsorted as [Hrest Hsorted].
  destruct (check_rate_limit_canonical r tl x key limit window HW Hx ltac:(lia) Hinv)
    as (n & r' & Hstep & Hn & Hinv' & _).
  destruct (IH r' x ltac:(lia)) as (res & pool' & Hrun & Hlen & Hall); [|done|done|].
  { intros t. destruct (Hinv' t) as (z & Hz & Hc). exists z. split; [done|].
    intros m s Hm. destruct (Hc m s Hm). split; [done|lia]. }
  rewrite run_checks_cons, Hstep, Hrun. eexists _, _.
  split_and!; [done|simpl; by rewrite Hlen|].
  constructor; [|done].
  apply not_true_is_false. rewrite is_rate_limited_verdict. lia.
Qed.

(** X5: a limit above the window is never enforced.  The members are
    whole seconds, so a window of [window] seconds holds at most [window]
    of them however many requests arrive: on a fresh key, with
    [limit > window], no request of any sequence is rejected. *)
Theorem limit_above_window_never_rejects (r : redis) key limit window ts :
  0 < window → window < limit →
  r !! key = None →
  Forall (λ t, 0 ≤ t) ts →
  StronglySorted Z.le ts →
  ∃ res pool',
    run_checks (Some r) key limit window ts = Ok (res, pool') ∧
    length res = length ts ∧
    Forall (λ v, is_rate_limited v = false) res.
Proof.
  intros HW Hlimit Hfresh Hpos Hsorted.
  apply (run_checks_above_window r 0 key limit window ts); try done.
  intros t. exists ∅. split.
  - unfold zset_at, redis_lookup. by rewrite Hfresh.
  - by intros m s.
Qed.

(** An instance: 100 per minute, seven requests within three seconds. *)
Lemma limit_above_window_witness :
  ∃ res pool',
    run_checks (Some ∅) "rate_limit:pub_a:/v1/tasks/next" 100 60
      [10; 10; 10; 11; 11; 12; 12] = Ok (res, pool') ∧
    Forall (λ v, is_rate_limited v = false) res.
Proof.
  destruct (limit_above_window_never_rejects ∅ "rate_limit:pub_a:/v1/tasks/next" 100 60
              [10; 10; 10; 11; 11; 12; 12])
    as (res & pool' & Hrun & _ & Hall).
  - lia.
  - lia.
  - reflexivity.
  - repeat constructor; lia.
  - repeat constructor; lia.
  - exists res, pool'. split; [exact Hrun | exact Hall].
Defined.

(** ** Rate-limit strings and paths *)

Lemma split_on_nonnil sep s : split_on sep s ≠ [].
Proof.
  destruct s as [|c s]; simpl; [done|].
  destruct (Ascii.eqb c sep); [done|]. by destruct (split_on sep s).
Qed.

Lemma split_on_one sep (s a : string) :
  split_on sep s = [a] ↔ s = a ∧ lacks sep a.
Proof.
  revert a. induction s as [|c s IH]; intros a; simpl.
  - split; [by intros [= <-]|by intros [<- _]].
  - destruct (Ascii.eqb_spec c sep) as [->|Hc].
    + split.
      * intros [= _ Hs]. by apply split_on_nonnil in Hs.
      * intros [<- [? _]]. done.
    + destruct (split_on sep s) as [|p rest] eqn:Hs.
      { by apply split_on_nonnil in Hs. }
      split.
      * intros [= <- ->]. destruct (IH p) as [[-> Hl] _]; [done|]. done.
      * intros [<- [_ Hl]]. destruct (IH s) as [_ Hback].
        specialize (Hback (conj eq_refl Hl)). by injection Hback as -> ->.
Qed.

Lemma split_on_two sep (s a b : string) :
  split_on sep s = [a; b] ↔
  s = a +:+ String sep b ∧ lacks sep a ∧ lacks sep b.
Proof.
  revert a b. induction s as [|c s IH]; intros a b; simpl.
  - split; [done|]. intros [Heq _]. by destruct a.
  - destruct (Ascii.eqb_spec c sep) as [->|Hc].
    + split.
      * intros [= <- Hb]. apply split_on_one in Hb as [-> Hl]. done.
      * intros (Heq & Ha & Hb). destruct a as [|c' a']; simpl in *.
        -- injection Heq as ->. f_equal. by apply split_on_one.
        -- injection Heq as <- _. by destruct Ha.
    + destruct (split_on sep s) as [|p rest] eqn:Hs.
      { by apply split_on_nonnil in Hs. }
      split.
      * intros [= <- ->]. destruct (IH p b) as [(-> & Ha & Hb) _]; [done|]. done.
      * intros (Heq & Ha & Hb). destruct a as [|c' a']; simpl in *.
        -- by injection Heq as -> _.
        -- injection Heq as -> Heq. destruct Ha as [_ Ha].
           destruct (IH a' b) as [_ Hback].
           specialize (Hback (conj Heq (conj Ha Hb))). by injection Hback as -> ->.
Qed.

Lemma parse_rate_limit_window_pos (int : string → outcome Z) s l w :
  parse_rate_limit int s = Ok (l, w) → 0 < w.
Proof.
  unfold parse_rate_limit. intros H.
  repeat case_match; simplify_eq; lia.
Qed.

Lemma get_rate_limit_for_path_some (int : string → outcome Z) settings path :
  (∃ p, parse_rate_limit int (RATE_LIMIT_TASKS settings) = Ok p) →
  (∃ p, parse_rate_limit int (RATE_LIMIT_TASKS_BATCH settings) = Ok p) →
  (∃ p, parse_rate_limit int (RATE_LIMIT_USERS_SESSIONS settings) = Ok p) →
  (∃ p, parse_rate_limit int (RATE_LIMIT_DEFAULT settings) = Ok p) →
  ∃ limit window,
    _get_rate_limit_for_path int settings path = Ok (limit, window) ∧ 0 < window.
Proof.
  intros [[l1 w1] H1] [[l2 w2] H2] [[l3 w3] H3] [[l4 w4] H4].
  unfold _get_rate_limit_for_path.
  repeat case_match; eauto using parse_rate_limit_window_pos.
Qed.

(** X6: a rate-limit string parses exactly when it is [N/period] with a
    single slash and an [N] that [int] accepts; the window is 1, 60 or 3600
    seconds for [second], [minute] and [hour], and a full day for every
    other period text, so it is always positive. *)
Theorem parse_rate_limit_shape (int : string → outcome Z) rate_limit_str limit window :
  parse_rate_limit int rate_limit_str = Ok (limit, window) ↔
  ∃ n period,
    rate_limit_str = n +:+ "/" +:+ period ∧
    lacks "/" n ∧ lacks "/" period ∧
    int n = Ok limit ∧
    window = window_of_period period ∧
    (window = 1 ∨ window = 60 ∨ window = 3600 ∨ window = 86400) ∧
    (period ≠ "second" → period ≠ "minute" → period ≠ "hour" → window = 86400).
Proof.
  unfold parse_rate_limit. split.
  - destruct (split_on "/" rate_limit_str) as [|n [|period [|x rest]]] eqn:Hs; try done.
    apply split_on_two in Hs as (-> & Hn & Hp).
    destruct (int n) as [|l] eqn:Hint; [done|]. intros [= <- <-].
    exists n, period. split_and!; try done.
    + unfold window_of_period. repeat case_match; auto.
    + intros H1 H2 H3.
      destruct (String.eqb_spec period "second"); [done|].
      destruct (String.eqb_spec period "minute"); [done|].
      by destruct (String.eqb_spec period "hour").
  - intros (n & period & -> & Hn & Hp & Hint & -> & _).
    assert (split_on "/" (n +:+ "/" +:+ period) = [n; period]) as ->.
    { by apply split_on_two. }
    by rewrite Hint.
Qed.

(** X7: whatever the path, the limit that [_get_rate_limit_for_path]
    returns is the parse of one of the four configured strings; if these
    four parse, every path gets a limit, and its window is positive. *)
Theorem get_rate_limit_for_path_total (int : string → outcome Z) settings path :
  (∃ p, parse_rate_limit int (RATE_LIMIT_TASKS settings) = Ok p) →
  (∃ p, parse_rate_limit int (RATE_LIMIT_TASKS_BATCH settings) = Ok p) →
  (∃ p, parse_rate_limit int (RATE_LIMIT_USERS_SESSIONS settings) = Ok p) →
  (∃ p, parse_rate_limit int (RATE_LIMIT_DEFAULT settings) = Ok p) →
  ∃ limit window,
    _get_rate_limit_for_path int settings path = Ok (limit, window) ∧
    0 < window ∧
    (Ok (limit, window) = parse_rate_limit int (RATE_LIMIT_TASKS settings) ∨
     Ok (limit, window) = parse_rate_limit int (RATE_LIMIT_TASKS_BATCH settings) ∨
     Ok (limit, window) = parse_rate_limit int (RATE_LIMIT_USERS_SESSIONS settings) ∨
     Ok (limit, window) = parse_rate_limit int (RATE_LIMIT_DEFAULT settings)) ∧
    (String.prefix "/v1/tasks/next" path = true →
     Ok (limit, window) = parse_rate_limit int (RATE_LIMIT_TASKS settings)).
Proof.
  intros [[l1 w1] H1] [[l2 w2] H2] [[l3 w3] H3] [[l4 w4] H4].
  pose proof (parse_rate_limit_window_pos int) as Hpos.
  unfold _get_rate_limit_for_path.
  destruct (String.prefix "/v1/tasks/next" path).
  { exists l1, w1. rewrite H1. split_and!; eauto. }
  destruct (matches_task_submit path).
  { exists l1, w1. rewrite H1. split_and!; eauto; done. }
  destruct (String.prefix "/v1/tasks/batch" path).
  { exists l2, w2. rewrite H2. split_and!; eauto; done. }
  destruct (String.prefix "/v1/users/sessions" path).
  { exists l3, w3. rewrite H3. split_and!; eauto; done. }
  exists l4, w4. rewrite H4. split_and!; eauto 6; done.
Qed.

(** An instance: a submit path under the example settings. *)
Lemma get_rate_limit_for_path_total_witness :
  ∃ limit window,
    _get_rate_limit_for_path example_int example_settings "/v1/tasks/abc/submit"
      = Ok (limit, window) ∧ 0 < window.
Proof.
  destruct (get_rate_limit_for_path_total example_int example_settings
              "/v1/tasks/abc/submit")
    as (limit & window & Hrun & Hpos & _).
  - eexists. vm_compute. reflexivity.
  - eexists. vm_compute. reflexivity.
  - eexists. vm_compute. reflexivity.
  - eexists. vm_compute. reflexivity.
  - exists limit, window. split; [exact Hrun | exact Hpos].
Defined.

(** X8: with four settings that parse, a counter key that is free or holds
    a sorted set, and an application that answers, [dispatch] answers.
    Exempt paths get the application's response as it is.  Otherwise a 429
    is sent only on a backed limiter, carries the limit and window of the
    path and a reset between 1 and the window, and the application has not
    run; a response that passes carries the path's limit, the same kind of
    reset, and a remaining count that is at least 0 and below the limit on
    a backed limiter and the limit itself on a limiter without a pool. *)
Theorem dispatch_answers {R : Type} (int : string → outcome Z) settings pool current
    request (call_next : option redis → outcome (R * option redis)) :
  (∃ p, parse_rate_limit int (RATE_LIMIT_TASKS settings) = Ok p) →
  (∃ p, parse_rate_limit int (RATE_LIMIT_TASKS_BATCH settings) = Ok p) →
  (∃ p, parse_rate_limit int (RATE_LIMIT_USERS_SESSIONS settings) = Ok p) →
  (∃ p, parse_rate_limit int (RATE_LIMIT_DEFAULT settings) = Ok p) →
  (∀ r : redis, pool = Some r →
     ∃ z, zset_at current r
            (rate_limit_key (counted_publisher request) (url_path request)) = Ok z) →
  (∀ p, ∃ response p', call_next p = Ok (response, p')) →
  ∃ reply pool',
    dispatch int settings pool current request call_next = Ok (reply, pool') ∧
    match reply with
    | Untouched response =>
        exempt (url_path request) = true ∧ call_next pool = Ok (response, pool')
    | TooManyRequests limit window reset =>
        exempt (url_path request) = false ∧
        _get_rate_limit_for_path int settings (url_path request) = Ok (limit, window) ∧
        pool ≠ None ∧ 1 ≤ reset ≤ window ∧
        ∃ res,
          _check_rate_limit pool current
            (rate_limit_key (counted_publisher request) (url_path request))
            limit window = Ok (res, pool') ∧
          is_rate_limited res = true ∧ reset = reset_time res
    | WithRateLimitHeaders response limit rest reset =>
        exempt (url_path request) = false ∧
        (pool ≠ None → 0 ≤ rest < limit) ∧
        (pool = None → rest = limit) ∧
        ∃ window res pool1,
          _get_rate_limit_for_path int settings (url_path request) = Ok (limit, window) ∧
          1 ≤ reset ≤ window ∧
          _check_rate_limit pool current
            (rate_limit_key (counted_publisher request) (url_path request))
            limit window = Ok (res, pool1) ∧
          is_rate_limited res = false ∧ rest = remaining res ∧ reset = reset_time res ∧
          call_next pool1 = Ok (response, pool')
    end.
Proof.
  intros H1 H2 H3 H4 Hkey Hnext.
  unfold dispatch. fold (exempt (url_path request)). fold (counted_publisher request).
  destruct (exempt (url_path request)) eqn:Hex.
  { destruct (Hnext pool) as (response & p' & Hcall). rewrite Hcall.
    by exists (Untouched response), p'. }
  destruct (get_rate_limit_for_path_some int settings (url_path request) H1 H2 H3 H4)
    as (limit & window & -> & HW).
  set (key := rate_limit_key (counted_publisher request) (url_path request)) in *.
  assert (Hmod : 1 ≤ (if 60 <? window then window - current `mod` window else window)
                 ≤ window).
  { destruct (60 <? window); [|lia].
    pose proof (Z.mod_pos_bound current window HW). lia. }
  destruct pool as [r|].
  - destruct (Hkey r eq_refl) as [z Hz].
    pose proof (check_rate_limit_step r current key limit window z HW Hz) as Hstep.
    cbv zeta in Hstep. unfold verdict in Hstep. rewrite Hstep.
    set (pool1 := Some (<[_ := _]> _)) in *. set (n := Z.of_nat (size _)) in *.
    destruct (limit <=? n) eqn:Hlim.
    + eexists (TooManyRequests limit window _), pool1.
      split; [reflexivity|]. split_and!; try done; try apply Hmod.
      eexists (true, _, _). split_and!; [exact Hstep|done|done].
    + apply Z.leb_gt in Hlim.
      destruct (Hnext pool1) as (response & p' & Hcall). rewrite Hcall.
      eexists (WithRateLimitHeaders response limit _ _), p'.
      split; [reflexivity|]. split; [done|]. split; [intros _; lia|]. split; [done|].
      eexists window, (false, _, _), pool1.
      split_and!; [done|apply Hmod|apply Hmod|exact Hstep|done|done|done|done].
  - cbn. destruct (Hnext None) as (response & p' & Hcall). rewrite Hcall.
    eexists (WithRateLimitHeaders response limit limit window), p'.
    split; [reflexivity|]. split; [done|]. split; [done|]. split; [done|].
    eexists window, (false, limit, window), None. split_and!; try done; lia.
Qed.

(** An instance: an anonymous request for the next task on an empty store. *)
Lemma dispatch_answers_witness :
  ∃ reply pool',
    dispatch example_int example_settings (Some ∅) 100
      {| url_path := "/v1/tasks/next"; header_x_publisher_id := None |}
      example_app = Ok (reply, pool').
Proof.
  destruct (dispatch_answers example_int example_settings (Some ∅) 100
              {| url_path := "/v1/tasks/next"; header_x_publisher_id := None |}
              example_app)
    as (reply & pool' & Hrun & _).
  - eexists. vm_compute. reflexivity.
  - eexists. vm_compute. reflexivity.
  - eexists. vm_compute. reflexivity.
  - eexists. vm_compute. reflexivity.
  - intros r [= <-]. by exists ∅.
  - intros p. by exists "ok", p.
  - exists reply, pool'. exact Hrun.
Defined.

(** ** The validator's answers *)

Lemma score_label_cases validation_type task_data response time_spent_ms :
  score_label validation_type task_data response time_spent_ms ∈
    [ (1.0%float, [], "Correct response matches expected answer");
      (0.3%float, ["incorrect_golden_set_answer"],
       "Response does not match expected answer");
      ((0.8 * 0.5)%float, ["suspiciously_fast_response"],
       "Response time was suspiciously fast");
      ((0.8 * 0.9)%float, ["slow_response"],
       "Response time was slower than expected");
      (0.8%float, [], "") ].
Proof.
  unfold score_label. repeat case_match; rewrite !elem_of_cons; auto 10.
Qed.

(** X9: whenever the task key holds nothing or a JSON document,
    [validate_label_quality] answers, and its answer meets the field
    constraints of [ValidationResponse]: the score lies in [0, 1] and the
    confidence is [low], [medium] or [high].  The store changes in at most
    the validation record. *)
Theorem validate_label_quality_within_model now hex (r : redis) task_id session_id
    publisher_id response time_spent_ms task_type validation_type :
  (redis_get now r (task_key task_id) = Ok None ∨
   ∃ d, redis_get now r (task_key task_id) = Ok (Some (RJson d))) →
  ∃ v r',
    validate_label_quality now hex r task_id session_id publisher_id response
      time_spent_ms task_type validation_type = Ok (v, r') ∧
    validation_id v = make_validation_id hex ∧
    (0 <=? quality_score v)%float = true ∧
    (quality_score v <=? 1)%float = true ∧
    confidence v ∈ ["low"; "medium"; "high"] ∧
    ∀ key, key ≠ validation_key (make_validation_id hex) → r' !! key = r !! key.
Proof.
  intros [Hnone | [d Htask]].
  - unfold validate_label_quality. rewrite Hnone. simpl.
    eexists _, r. split; [reflexivity|]. simpl. split_and!; try done.
    rewrite !elem_of_cons. auto.
  - destruct (validate_with_task now hex r task_id session_id publisher_id response
                time_spent_ms task_type validation_type d Htask) as (r' & -> & ->).
    eexists _, _. split; [reflexivity|]. simpl.
    pose proof (score_label_cases validation_type d response time_spent_ms) as Hcases.
    destruct (score_label validation_type d response time_spent_ms) as [[q issues] fb].
    simpl. split_and!.
    + done.
    + repeat (apply elem_of_cons in Hcases as [[= -> _ _] | Hcases]; [reflexivity|]).
      by apply elem_of_nil in Hcases.
    + repeat (apply elem_of_cons in Hcases as [[= -> _ _] | Hcases]; [reflexivity|]).
      by apply elem_of_nil in Hcases.
    + rewrite !elem_of_cons. case_match; auto.
    + intros key Hkey. unfold redis_set. by rewrite lookup_insert_ne.
Qed.

(** An instance: no record under the task key. *)
Lemma validate_label_quality_within_model_witness :
  ∃ v r',
    validate_label_quality 100 "0123456789abcdef" ∅ "t1" "sess_a" "pub_1"
      (RespStr "Blue") 1200 "vqa" "consensus" = Ok (v, r') ∧
    (quality_score v <=? 1)%float = true.
Proof.
  destruct (validate_label_quality_within_model 100 "0123456789abcdef" ∅ "t1" "sess_a"
              "pub_1" (RespStr "Blue") 1200 "vqa" "consensus")
    as (v & r' & Hrun & _ & _ & Hle & _).
  - left. reflexivity.
  - exists v, r'. split; [exact Hrun | exact Hle].
Defined.

(** X10: outside the two checks the validator applies none.  With a method
    other than [consensus], and unless the method is [golden_set] on a
    golden-set assignment, every response in any time scores 0.8 with no
    issue; the method is echoed and recorded as given, and the confidence
    is [medium] unless the method is [golden_set]. *)
Theorem validation_without_check now hex (r : redis) task_id session_id publisher_id
    response time_spent_ms task_type validation_type task_data :
  redis_get now r (task_key task_id) = Ok (Some (RJson task_data)) →
  validation_type ≠ "consensus" →
  (validation_type = "golden_set" → get_golden_set task_data ≠ Some true) →
  ∃ v r',
    validate_label_quality now hex r task_id session_id publisher_id response
      time_spent_ms task_type validation_type = Ok (v, r') ∧
    quality_score v = 0.8%float ∧
    issues_detected v = [] ∧
    validation_method v = validation_type ∧
    confidence v = (if String.eqb validation_type "golden_set" then "high" else "medium") ∧
    redis_get now r' (validation_key (validation_id v)) =
      Ok (Some (RJson (DValidation (validation_id v) task_id session_id publisher_id
                         response time_spent_ms 0.8%float validation_type [] now))).
Proof.
  intros Htask Hcons Hgold.
  destruct (validate_with_task now hex r task_id session_id publisher_id response
              time_spent_ms task_type validation_type task_data Htask) as (r' & -> & ->).
  assert (score_label validation_type task_data response time_spent_ms
          = (0.8%float, [], "")) as ->.
  { unfold score_label.
    destruct (String.eqb_spec validation_type "golden_set") as [Hg|Hg]; simpl.
    - destruct (get_golden_set task_data) as [[|]|]; simpl;
        [by destruct (Hgold Hg)| |];
        by destruct (String.eqb_spec validation_type "consensus").
    - by destruct (String.eqb_spec validation_type "consensus"). }
  eexists _, _. split; [reflexivity|]. simpl. split_and!; try done.
  apply redis_get_set_json. lia.
Qed.

(** An instance: the method [golden_set] against an ordinary assignment. *)
Lemma validation_without_check_witness :
  ∃ v r',
    validate_label_quality 100 "0123456789abcdef"
      (redis_set 90 ∅ (task_key "t1")
         (RJson (DTask "t1" "vqa" false None "pub_1" "sess_a" 2 90)) 3600)
      "t1" "sess_b" "pub_1" (RespStr "Green") 10 "vqa" "golden_set" = Ok (v, r') ∧
    quality_score v = 0.8%float ∧ confidence v = "high".
Proof.
  destruct (validation_without_check 100 "0123456789abcdef"
              (redis_set 90 ∅ (task_key "t1")
                 (RJson (DTask "t1" "vqa" false None "pub_1" "sess_a" 2 90)) 3600)
              "t1" "sess_b" "pub_1" (RespStr "Green") 10 "vqa" "golden_set"
              (DTask "t1" "vqa" false None "pub_1" "sess_a" 2 90))
    as (v & r' & Hrun & Hq & _ & _ & Hc & _).
  - reflexivity.
  - done.
  - intros _. done.
  - exists v, r'. split_and!; [exact Hrun | exact Hq | exact Hc].
Defined.

(** ** What a submission reads and writes *)

Lemma redis_set_insert_commute now (r : redis) key e key' v ex :
  key ≠ key' →
  redis_set now (<[key := e]> r) key' v ex = <[key := e]> (redis_set now r key' v ex).
Proof. intros ?. unfold redis_set. by apply insert_insert_ne. Qed.

Lemma redis_incr_frame now (r : redis) key e key' :
  key ≠ key' →
  redis_incr now (<[key := e]> r) key' =
    match redis_incr now r key' with
    | Raised => Raised
    | Ok (n, r') => Ok (n, <[key := e]> r')
    end.
Proof.
  intros Hne. unfold redis_incr. rewrite redis_lookup_insert_ne by done.
  destruct (redis_lookup now r key') as [c|].
  - destruct (e_val c) as [s| |]; try done.
    destruct (string2ll s) as [n|]; [|done].
    destruct ((int64_min <=? n) && (n <? int64_max)); [|done].
    by rewrite insert_insert_ne.
  - by rewrite insert_insert_ne.
Qed.

Lemma validate_label_quality_frame now hex (r : redis) task_id session_id publisher_id
    response time_spent_ms task_type validation_type key e :
  key ≠ task_key task_id →
  key ≠ validation_key (make_validation_id hex) →
  validate_label_quality now hex (<[key := e]> r) task_id session_id publisher_id
    response time_spent_ms task_type validation_type =
  match validate_label_quality now hex r task_id session_id publisher_id
          response time_spent_ms task_type validation_type with
  | Raised => Raised
  | Ok (v, r') => Ok (v, <[key := e]> r')
  end.
Proof.
  intros Ht Hv. unfold validate_label_quality. rewrite redis_get_insert_ne by done.
  destruct (redis_get now r (task_key task_id)) as [|task_json]; [done|].
  destruct (falsy task_json); [done|].
  destruct (json_loads task_json) as [|task_data]; [done|].
  destruct (score_label validation_type task_data response time_spent_ms)
    as [[q issues] fb].
  by rewrite redis_set_insert_commute.
Qed.

Lemma assignment_key_ne_task t : assignment_key t ≠ task_key t.
Proof.
  unfold assignment_key, task_key. intros H.
  apply (f_equal String.length) in H. simpl in H. lia.
Qed.
Lemma assignment_key_ne_validation t v : assignment_key t ≠ validation_key v.
Proof. keys_differ. Qed.
Lemma assignment_key_ne_submission t t' : assignment_key t ≠ submission_key t'.
Proof. keys_differ. Qed.
Lemma task_key_ne_validation t v : task_key t ≠ validation_key v.
Proof. keys_differ. Qed.
Lemma task_key_ne_submission t t' : task_key t ≠ submission_key t'.
Proof. keys_differ. Qed.
Lemma validation_key_ne_submission v t : validation_key v ≠ submission_key t.
Proof. keys_differ. Qed.
Lemma batch_key_ne_task b t : batch_key b ≠ task_key t.
Proof. keys_differ. Qed.

(** X11: [submit_task_result] reads and writes four keys only: the task
    record, the validation record it creates, the submission record and
    the counter of the submitting session.  An entry under any other key --
    the assignment lease written by [get_next_task] among them -- changes
    neither the answer nor what is written, and is left as it is. *)
Theorem submit_task_result_footprint now hex (r : redis) task_id submission key e :
  key ≠ task_key task_id →
  key ≠ validation_key (make_validation_id hex) →
  key ≠ submission_key task_id →
  key ≠ tasks_completed_key (sub_session_id submission) →
  submit_task_result now hex (<[key := e]> r) task_id submission =
    match submit_task_result now hex r task_id submission with
    | Raised => Raised
    | Ok (result, r') => Ok (result, <[key := e]> r')
    end.
Proof.
  intros Ht Hv Hs Hc. unfold submit_task_result. rewrite redis_get_insert_ne by done.
  destruct (redis_get now r (task_key task_id)) as [|task_json]; [done|].
  destruct (falsy task_json); [done|].
  destruct (json_loads task_json) as [|task_data]; [done|].
  rewrite validate_label_quality_frame by done.
  destruct (validate_label_quality now hex r task_id _ _ _ _ _ _) as [|[v r1]]; [done|].
  rewrite redis_set_insert_commute by done.
  rewrite redis_incr_frame by done.
  by destruct (redis_incr now _ _) as [|[n r3]].
Qed.

(** An instance: the lease of the submitted task, made out to another
    session. *)
Lemma submit_task_result_footprint_witness :
  submit_task_result 100 "0123456789abcdef"
    (<[assignment_key "t1" := {| e_val := RStr "sess_other"; e_exp := Some 300 |}]> ∅)
    "t1" example_submission =
  match submit_task_result 100 "0123456789abcdef" ∅ "t1" example_submission with
  | Raised => Raised
  | Ok (result, r') =>
      Ok (result,
          <[assignment_key "t1" := {| e_val := RStr "sess_other"; e_exp := Some 300 |}]> r')
  end.
Proof.
  apply (submit_task_result_footprint 100 "0123456789abcdef" ∅ "t1" example_submission
           (assignment_key "t1") {| e_val := RStr "sess_other"; e_exp := Some 300 |}).
  - apply assignment_key_ne_task.
  - apply assignment_key_ne_validation.
  - apply assignment_key_ne_submission.
  - apply assignment_key_ne_counter.
Defined.

(** ** The counter: what INCR writes, INCR reads *)

Lemma digit_of_pretty_N_char (d : N) :
  (d < 10)%N → digit_of (pretty_N_char d) = Some (Z.of_N d).
Proof.
  intros Hd.
  assert (d = 0 ∨ d = 1 ∨ d = 2 ∨ d = 3 ∨ d = 4 ∨ d = 5 ∨ d = 6 ∨ d = 7 ∨ d = 8 ∨ d = 9)%N
    as Hcases by lia.
  repeat (destruct Hcases as [-> | Hcases]; [reflexivity|]). by subst.
Qed.

Lemma parse_digits_pretty_N_go (x : N) s :
  parse_digits 0 (pretty_N_go x s) = parse_digits (Z.of_N x) s.
Proof.
  revert s. induction (N.lt_wf_0 x) as [x _ IH]; intros s.
  assert (x = 0 ∨ 0 < x)%N as [->|Hx] by lia.
  { by rewrite pretty_N_go_0. }
  rewrite pretty_N_go_step by done.
  rewrite IH by (by apply N.div_lt). simpl.
  rewrite digit_of_pretty_N_char by (by apply N.mod_lt).
  f_equal. rewrite (N.div_mod x 10) at 3 by done. lia.
Qed.

Lemma pretty_N_go_nonempty (x : N) s : s ≠ "" → pretty_N_go x s ≠ "".
Proof.
  revert s. induction (N.lt_wf_0 x) as [x _ IH]; intros s Hs.
  assert (x = 0 ∨ 0 < x)%N as [->|Hx] by lia.
  { by rewrite pretty_N_go_0. }
  rewrite pretty_N_go_step by done. apply IH; [by apply N.div_lt | done].
Qed.

Lemma pretty_positive_shape (p : positive) :
  ∃ c rest, pretty_N_go (Npos p) "" = String c rest ∧ c ≠ "-"%char.
Proof.
  destruct (pretty_N_go (Npos p) "") as [|c rest] eqn:Hs.
  - rewrite pretty_N_go_step in Hs by lia.
    by apply pretty_N_go_nonempty in Hs.
  - exists c, rest. split; [done|]. intros ->.
    by apply (pretty_N_go_ne_dash (Npos p) "" rest) in Hs.
Qed.

Lemma string2ll_pretty (n : Z) : string2ll (pretty n) = Some n.
Proof.
  destruct n as [|p|p].
  - reflexivity.
  - pose proof (parse_digits_pretty_N_go (Npos p) "") as Hparse. simpl in Hparse.
    destruct (pretty_positive_shape p) as (c & rest & Hs & Hc).
    assert (Hp : pretty (Z.pos p) = String c rest) by exact Hs.
    rewrite Hs in Hparse. unfold string2ll. rewrite Hp.
    assert (match String c rest with
            | EmptyString => None
            | String "-"%char s' =>
                match s' with
                | EmptyString => None
                | _ => Z.opp <$> parse_digits 0 s'
                end
            | _ => parse_digits 0 (String c rest)
            end = parse_digits 0 (String c rest)) as ->.
    { destruct c as [[] [] [] [] [] [] [] []]; done. }
    rewrite Hparse, Hp. by rewrite String.eqb_refl.
  - pose proof (parse_digits_pretty_N_go (Npos p) "") as Hparse. simpl in Hparse.
    destruct (pretty_positive_shape p) as (c & rest & Hs & Hc).
    assert (Hp : pretty (Z.neg p) = String "-" (String c rest)).
    { change (pretty (Z.neg p)) with (String "-" (pretty_N_go (Npos p) "")).
      by rewrite Hs. }
    rewrite Hs in Hparse. unfold string2ll. rewrite Hp, Hparse. simpl fmap.
    change (- Z.pos p) with (Z.neg p). cbv beta iota.
    rewrite Hp. by rewrite String.eqb_refl.
Qed.

Lemma redis_incr_counter now (r : redis) key c n :
  r !! key = Some c →
  live now c = true →
  e_val c = RStr (pretty n) →
  int64_min ≤ n < int64_max →
  redis_incr now r key =
    Ok (n + 1, <[key := {| e_val := RStr (pretty (n + 1)); e_exp := e_exp c |}]> r).
Proof.
  intros Hk Hl Hv Hn. unfold redis_incr.
  assert (redis_lookup now r key = Some c) as -> by (by apply redis_lookup_Some).
  rewrite Hv, string2ll_pretty.
  destruct (Z.leb_spec int64_min n); [|lia].
  destruct (Z.ltb_spec n int64_max); [|lia]. done.
Qed.

(** ** Issued tasks and their submissions *)




(** X13: a task can be submitted again.  While the task record lives,
    a second submission of the same task by the same session succeeds like
    the first, is rewarded again, raises the session's counter a second
    time, and replaces the stored submission record. *)
Theorem resubmission_is_counted t2 hex2 t3 hex3 (r : redis) task_id task_data
    sub2 sub3 c n :
  redis_get t2 r (task_key task_id) = Ok (Some (RJson task_data)) →
  redis_get t3 r (task_key task_id) = Ok (Some (RJson task_data)) →
  sub_session_id sub3 = sub_session_id sub2 →
  r !! tasks_completed_key (sub_session_id sub2) = Some c →
  e_val c = RStr (pretty n) →
  live t2 c = true → live t3 c = true →
  int64_min ≤ n → n + 2 ≤ int64_max →
  ∃ res2 r2 res3 r3,
    submit_task_result t2 hex2 r task_id sub2 = Ok (res2, r2) ∧
    success res2 = true ∧
    submit_task_result t3 hex3 r2 task_id sub3 = Ok (res3, r3) ∧
    success res3 = true ∧
    rw_type (reward res3) = "content_access" ∧
    redis_get t3 r3 (tasks_completed_key (sub_session_id sub2))
      = Ok (Some (RStr (pretty (n + 2)))) ∧
    redis_get t3 r3 (submission_key task_id)
      = Ok (Some (RJson (DSubmission task_id (sub_session_id sub3)
                           (sub_publisher_id sub3) (sub_response sub3)
                           (sub_time_spent_ms sub3) (sbr_quality_score res3) t3))).
Proof.
  intros Htask2 Htask3 Hsame Hc Hv Hl2 Hl3 Hlo Hhi.
  pose proof (submit_task_result_with_task t2 hex2 r task_id sub2 task_data Htask2)
    as Hsub2.
  cbv zeta in Hsub2.
  set (r2' := redis_set t2 (redis_set t2 r _ _ _) _ _ _) in Hsub2.
  assert (Hc2 : r2' !! tasks_completed_key (sub_session_id sub2) = Some c).
  { subst r2'. unfold redis_set.
    rewrite !lookup_insert_ne by auto with keys. done. }
  rewrite (redis_incr_counter t2 r2' _ c n Hc2 Hl2 Hv) in Hsub2 by (unfold int64_max in *; lia).
  set (c' := {| e_val := RStr (pretty (n + 1)); e_exp := e_exp c |}) in Hsub2.
  set (r2 := <[_ := c']> r2') in Hsub2.
  assert (Htask3' : redis_get t3 r2 (task_key task_id) = Ok (Some (RJson task_data))).
  { subst r2 r2'.
    rewrite redis_get_insert_ne by (apply not_eq_sym; auto with keys).
    rewrite redis_get_set_ne by (apply not_eq_sym, task_key_ne_submission).
    rewrite redis_get_set_ne by (apply not_eq_sym, task_key_ne_validation). done. }
  pose proof (submit_task_result_with_task t3 hex3 r2 task_id sub3 task_data Htask3')
    as Hsub3.
  cbv zeta in Hsub3. rewrite Hsame in Hsub3 at 3.
  set (r3' := redis_set t3 (redis_set t3 r2 _ _ _) _ _ _) in Hsub3.
  assert (Hc3 : r3' !! tasks_completed_key (sub_session_id sub2) = Some c').
  { subst r3' r2. unfold redis_set.
    rewrite !lookup_insert_ne by auto with keys. by rewrite lookup_insert_eq. }
  rewrite (redis_incr_counter t3 r3' _ c' (n + 1) Hc3 Hl3 eq_refl) in Hsub3
    by (unfold int64_max in *; lia).
  eexists _, r2, _, _. split_and!; [exact Hsub2|done|exact Hsub3|done|done| |].
  - unfold redis_get. rewrite redis_lookup_insert_eq.
    replace (n + 1 + 1) with (n + 2) by lia.
    unfold live in *. simpl. by rewrite Hl3.
  - rewrite redis_get_insert_ne by (apply not_eq_sym; auto with keys).
    subst r3'. apply redis_get_set_json. lia.
Qed.

(** An instance: the same answer sent at 100 and again at 200. *)
Lemma resubmission_is_counted_witness :
  ∃ res2 r2 res3 r3,
    submit_task_result 100 "0123456789abcdef" example_task_store "t1" example_submission
      = Ok (res2, r2) ∧
    submit_task_result 200 "fedcba9876543210" r2 "t1" example_submission
      = Ok (res3, r3) ∧
    redis_get 200 r3 (tasks_completed_key "sess_b") = Ok (Some (RStr "2")).
Proof.
  destruct (resubmission_is_counted 100 "0123456789abcdef" 200 "fedcba9876543210"
              example_task_store "t1" (DTask "t1" "vqa" false None "pub_1" "sess_a" 2 90)
              example_submission example_submission
              {| e_val := RStr "0"; e_exp := Some (90 + 86400) |} 0)
    as (res2 & r2 & res3 & r3 & H2 & _ & H3 & _ & _ & Hc & _).
  - vm_compute. reflexivity.
  - vm_compute. reflexivity.
  - reflexivity.
  - vm_compute. reflexivity.
  - reflexivity.
  - reflexivity.
  - reflexivity.
  - vm_compute. discriminate.
  - vm_compute. discriminate.
  - exists res2, r2, res3, r3. split_and!; [exact H2 | exact H3 | exact Hc].
Defined.

(** ** Tasks drawn before the first submission *)

(** The profile and the counter of a fresh session, as stored. *)
Lemma draw_keeps_fresh_session now uuid (r : redis) session_id publisher_id
    language website_category previous_task_id p deadline :
  r !! user_profile_key publisher_id session_id
    = Some {| e_val := RJson (DProfile p None None); e_exp := Some deadline |} →
  r !! tasks_completed_key session_id
    = Some {| e_val := RStr "0"; e_exp := Some deadline |} →
  up_expertise_level p = "beginner" →
  now < deadline →
  ∃ task r',
    get_next_task now uuid r session_id publisher_id
      language website_category previous_task_id = Ok (Some task, r') ∧
    golden_set task = true ∧
    complexity_level task = Z.min (up_max_complexity p) 3 ∧
    r' !! user_profile_key publisher_id session_id
      = r !! user_profile_key publisher_id session_id ∧
    r' !! tasks_completed_key session_id = r !! tasks_completed_key session_id.
Proof.
  intros Hp Hc Hb Hnow.
  assert (Hlive : ∀ v, live now {| e_val := v; e_exp := Some deadline |} = true).
  { intros v. unfold live; simpl. apply Z.leb_le. lia. }
  assert (Hprofile : redis_get now r (user_profile_key publisher_id session_id)
                     = Ok (Some (RJson (DProfile p None None)))).
  { unfold redis_get, redis_lookup. by rewrite Hp, Hlive. }
  assert (Hcounter : redis_get now r (tasks_completed_key session_id)
                     = Ok (Some (RStr "0"))).
  { unfold redis_get, redis_lookup. by rewrite Hc, Hlive. }
  destruct (get_next_task_with_profile now uuid r session_id publisher_id language
              website_category previous_task_id p None None _ Hprofile Hcounter)
    as (task & Hrun & _ & Hcx & Hgolden).
  eexists task, _. split; [exact Hrun|]. split_and!.
  - by apply Hgolden.
  - done.
  - unfold redis_set. by rewrite !lookup_insert_ne by auto with keys.
  - unfold redis_set. by rewrite !lookup_insert_ne by auto with keys.
Qed.

(** X14: [get_next_task] never touches the profile or the counter, so a
    fresh session keeps drawing golden-set tasks: every task requested
    before the session's first submission, however many, is golden-set
    with complexity 2, and the counter still reads 0 afterwards. *)
Theorem golden_until_first_submission t0 hex0 (r : redis) session_request
    language website_category previous_task_id calls :
  Forall (λ c : Z * string, c.1 < t0 + 86400) calls →
  ∃ tasks r',
    draw_tasks (initialize_user_session t0 hex0 r session_request).2
      (sr_session_id (initialize_user_session t0 hex0 r session_request).1)
      (sir_publisher_id session_request)
      language website_category previous_task_id calls = Ok (tasks, r') ∧
    length tasks = length calls ∧
    Forall (λ t, ∃ task, t = Some task ∧ golden_set task = true ∧
                         complexity_level task = 2) tasks ∧
    ∀ t, t < t0 + 86400 →
      redis_get t r'
        (tasks_completed_key
           (sr_session_id (initialize_user_session t0 hex0 r session_request).1))
      = Ok (Some (RStr "0")).
Proof.
  intros Hcalls. unfold initialize_user_session. simpl.
  set (sid := "sess_" +:+ substring 0 12 hex0).
  set (pid := sir_publisher_id session_request).
  set (profile := Build_UserProfile _ _ _ _).
  set (r0 := redis_set t0 (redis_set t0 (redis_set t0 r _ _ _) _ _ _) _ _ _).
  assert (Hp : r0 !! user_profile_key pid sid
               = Some {| e_val := RJson (DProfile profile None None);
                         e_exp := Some (t0 + 86400) |}).
  { subst r0. unfold redis_set.
    rewrite lookup_insert_ne by (apply not_eq_sym; auto with keys).
    by rewrite lookup_insert_eq. }
  assert (Hc : r0 !! tasks_completed_key sid
               = Some {| e_val := RStr "0"; e_exp := Some (t0 + 86400) |}).
  { subst r0. unfold redis_set. by rewrite lookup_insert_eq. }
  clearbody r0. revert r0 Hp Hc.
  induction Hcalls as [|[now uuid] calls Hnow _ IH]; intros r0 Hp Hc.
  - exists [], r0. split_and!; [done|done|constructor|].
    intros t Ht. unfold redis_get, redis_lookup. rewrite Hc. unfold live; simpl.
    by destruct (Z.leb_spec t (t0 + 86400)); [|lia].
  - simpl in Hnow.
    destruct (draw_keeps_fresh_session now uuid r0 sid pid language website_category
                previous_task_id profile (t0 + 86400) Hp Hc eq_refl Hnow)
      as (task & r1 & Hrun & Hgolden & Hcx & Hp1 & Hc1).
    rewrite Hp in Hp1. rewrite Hc in Hc1.
    destruct (IH r1 Hp1 Hc1) as (tasks & r' & Hdraw & Hlen & Hall & Hcount).
    exists (Some task :: tasks), r'. simpl. rewrite Hrun, Hdraw.
    split_and!; [done|by rewrite Hlen| |done].
    constructor; [|done]. exists task. by split_and!.
Qed.

(** An instance: three tasks drawn in a row. *)
Lemma golden_until_first_submission_witness :
  ∃ tasks r',
    draw_tasks
      (initialize_user_session 1000 "0123456789abcdef0123456789abcdef" ∅
         example_session_request).2
      "sess_0123456789ab" "pub_1" None None None
      [(1010, "11111111-2222-4333-8444-555555555555");
       (1020, "21111111-2222-4333-8444-555555555555");
       (1030, "31111111-2222-4333-8444-555555555555")] = Ok (tasks, r') ∧
    length tasks = 3%nat.
Proof.
  destruct (golden_until_first_submission 1000 "0123456789abcdef0123456789abcdef" ∅
              example_session_request None None None
              [(1010, "11111111-2222-4333-8444-555555555555");
               (1020, "21111111-2222-4333-8444-555555555555");
               (1030, "31111111-2222-4333-8444-555555555555")])
    as (tasks & r' & Hrun & Hlen & _).
  - repeat constructor; simpl; lia.
  - exists tasks, r'. split; [exact Hrun | exact Hlen].
Defined.

(** ** Batches *)

(** X15: [get_task_batch] writes the batch record and nothing else: no
    task record is created for the tasks it hands out.  A submission under
    an identifier that had no task record before the batch was made -- the
    fresh identifiers of its tasks among them -- is answered as a failure,
    with the reward [none], and stores nothing. *)
Theorem batch_tasks_cannot_be_submitted now uuid4 (r : redis) publisher_id count
    language category complexity now' hex submission task_id :
  redis_get now' r (task_key task_id) = Ok None →
  (∀ key,
     key ≠ batch_key (tb_batch_id (get_task_batch now uuid4 r publisher_id count
                                     language category complexity).1) →
     (get_task_batch now uuid4 r publisher_id count language category complexity).2
       !! key = r !! key) ∧
  ∃ result,
    submit_task_result now' hex
      (get_task_batch now uuid4 r publisher_id count language category complexity).2
      task_id submission
    = Ok (result,
          (get_task_batch now uuid4 r publisher_id count language category complexity).2) ∧
    success result = false ∧
    rw_type (reward result) = "none" ∧
    rw_duration_seconds (reward result) = None.
Proof.
  intros Hfresh. unfold get_task_batch. simpl. split.
  - intros key Hkey. unfold redis_set. by rewrite lookup_insert_ne.
  - unfold submit_task_result.
    rewrite redis_get_set_ne by apply batch_key_ne_task. rewrite Hfresh. simpl.
    eexists. split; [reflexivity|]. done.
Qed.

(** An instance: the second task of a batch of three. *)
Lemma batch_tasks_cannot_be_submitted_witness :
  ∃ result,
    submit_task_result 150 "0123456789abcdef"
      (get_task_batch 100 (λ i, "task-" +:+ pretty i) ∅ "pub_1" 3 None None None).2
      "task-1" example_submission
    = Ok (result,
          (get_task_batch 100 (λ i, "task-" +:+ pretty i) ∅ "pub_1" 3 None None None).2) ∧
    success result = false.
Proof.
  destruct (batch_tasks_cannot_be_submitted 100 (λ i, "task-" +:+ pretty i) ∅ "pub_1" 3
              None None None 150 "0123456789abcdef" example_submission "task-1")
    as (_ & result & Hrun & Hfail & _).
  - reflexivity.
  - exists result. split; [exact Hrun | exact Hfail].
Defined.

(** X16: the batch identifier is the clock reading in whole seconds.  Two
    batches get the same identifier exactly when they are requested within
    the same second, whoever requests them; the record of the later one
    then replaces the record of the earlier one, and the store is as if
    the earlier request had never been made. *)
Theorem batch_ids_collide_within_a_second now1 uuid1 (r : redis) publisher1 count1
    language1 category1 complexity1 now2 uuid2 publisher2 count2
    language2 category2 complexity2 :
  let first := get_task_batch now1 uuid1 r publisher1 count1
                 language1 category1 complexity1 in
  let second := get_task_batch now2 uuid2 first.2 publisher2 count2
                  language2 category2 complexity2 in
  (tb_batch_id second.1 = tb_batch_id first.1 ↔ now2 = now1) ∧
  (now2 = now1 →
   second.2 = (get_task_batch now2 uuid2 r publisher2 count2
                 language2 category2 complexity2).2 ∧
   ∀ t, t < now2 + 3600 →
     redis_get t second.2 (batch_key (tb_batch_id first.1))
     = Ok (Some (RJson (DBatch (tb_batch_id second.1) publisher2
                          (tb_tasks second.1) now2)))).
Proof.
  intros first second. subst first second. unfold get_task_batch. simpl. split.
  - split.
    + intros H. simplify_eq. done.
    + by intros ->.
  - intros ->. split.
    + unfold redis_set. by rewrite insert_insert_eq.
    + intros t Ht. by apply redis_get_set_json.
Qed.

(** An instance: two publishers asking within the same second. *)
Lemma batch_ids_collide_witness :
  tb_batch_id (get_task_batch 100 (λ i, "b-" +:+ pretty i)
                 (get_task_batch 100 (λ i, "a-" +:+ pretty i) ∅ "pub_1" 2
                    None None None).2 "pub_2" 3 None None None).1
  = tb_batch_id (get_task_batch 100 (λ i, "a-" +:+ pretty i) ∅ "pub_1" 2
                   None None None).1.
Proof.
  apply (proj1 (batch_ids_collide_within_a_second 100 (λ i, "a-" +:+ pretty i) ∅ "pub_1" 2
                  None None None 100 (λ i, "b-" +:+ pretty i) "pub_2" 3 None None None)).
  reflexivity.
Defined.

(** ** Profile updates *)

Lemma insert_desc_perm {A} (key : A → Z) x l : insert_desc key x l ≡ₚ x :: l.
Proof.
  induction l as [|y l IH]; simpl; [done|].
  destruct (key x <? key y); [|done]. rewrite IH. apply Permutation_swap.
Qed.

Lemma sorted_desc_perm {A} (key : A → Z) l : sorted_desc key l ≡ₚ l.
Proof.
  induction l as [|x l IH]; simpl; [done|]. by rewrite insert_desc_perm, IH.
Qed.

Lemma insert_desc_sorted {A} (key : A → Z) x l :
  StronglySorted (λ a b, key b ≤ key a) l →
  StronglySorted (λ a b, key b ≤ key a) (insert_desc key x l).
Proof.
  induction 1 as [|y l Hl IH Hy]; simpl.
  - repeat constructor.
  - destruct (Z.ltb_spec (key x) (key y)).
    + constructor; [done|]. rewrite insert_desc_perm. constructor; [lia|done].
    + constructor; [by constructor|]. constructor; [done|].
      eapply Forall_impl; [exact Hy|]. simpl. intros z Hz. lia.
Qed.

Lemma sorted_desc_sorted {A} (key : A → Z) l :
  StronglySorted (λ a b, key b ≤ key a) (sorted_desc key l).
Proof.
  induction l as [|x l IH]; simpl; [constructor|]. by apply insert_desc_sorted.
Qed.

Lemma insert_desc_filter {A} (key : A → Z) x l k :
  filter (λ a, key a = k) (insert_desc key x l) = filter (λ a, key a = k) (x :: l).
Proof.
  induction l as [|y l IH]; simpl; [done|].
  destruct (Z.ltb_spec (key x) (key y)); [|done].
  rewrite (filter_cons _ y), IH, !(filter_cons _ x), (filter_cons _ y).
  destruct (decide (key y = k)); [|done].
  destruct (decide (key x = k)); [lia|done].
Qed.

Lemma sorted_desc_filter {A} (key : A → Z) l k :
  filter (λ a, key a = k) (sorted_desc key l) = filter (λ a, key a = k) l.
Proof.
  induction l as [|x l IH]; simpl; [done|].
  by rewrite insert_desc_filter, !(filter_cons _ x), IH.
Qed.

(** The answer and the stored document of an update. *)
Lemma update_user_profile_with_profile now (r : redis) session_id profile_update
    p areas langs :
  redis_get now r (user_profile_key (pur_publisher_id profile_update) session_id)
    = Ok (Some (RJson (DProfile p areas langs))) →
  let level := next_expertise_level (up_expertise_level p)
                 (pur_performance_metrics profile_update) in
  let expertise_areas :=
    match pur_expertise_areas profile_update with
    | Some (a :: l) => a :: l
    | _ => default [] areas
    end in
  let preferred_languages :=
    match pur_language_proficiency profile_update with
    | Some lp => sorted_desc (language_rank lp) (lp.*1)
    | None => [up_language p]
    end in
  update_user_profile now r session_id profile_update =
    Ok (Some {| pu_success := true;
                pu_updated_profile := {|
                  upd_expertise_level := level;
                  upd_preferred_languages := preferred_languages;
                  upd_expertise_areas := expertise_areas;
                  upd_max_complexity := max_complexity_of level |} |},
        redis_set now r (user_profile_key (pur_publisher_id profile_update) session_id)
          (RJson (DProfile {| up_language := up_language p;
                              up_expertise_level := level;
                              up_task_preferences := up_task_preferences p;
                              up_max_complexity := max_complexity_of level |}
                    (Some expertise_areas) (Some preferred_languages))) 86400).
Proof. intros Hp. unfold update_user_profile. rewrite Hp. reflexivity. Qed.

Lemma max_complexity_of_cases level : max_complexity_of level ∈ [2; 3; 5].
Proof.
  unfold max_complexity_of. rewrite !elem_of_cons. repeat case_match; auto.
Qed.

(** X17: an update stores what it answers.  With a profile in the store,
    [update_user_profile] succeeds; the maximum complexity it reports is
    2, 3 or 5; the stored profile carries the reported level, maximum
    complexity, areas and languages, keeps the language and the task
    preferences it had, and lives for another day; no other key changes.
    Without a profile the answer is [None] and the store is untouched. *)
Theorem update_user_profile_stores_its_answer now (r : redis) session_id profile_update :
  (redis_get now r (user_profile_key (pur_publisher_id profile_update) session_id)
     = Ok None →
   update_user_profile now r session_id profile_update = Ok (None, r)) ∧
  (∀ p areas langs,
     redis_get now r (user_profile_key (pur_publisher_id profile_update) session_id)
       = Ok (Some (RJson (DProfile p areas langs))) →
     ∃ answer r',
       update_user_profile now r session_id profile_update = Ok (Some answer, r') ∧
       pu_success answer = true ∧
       upd_max_complexity (pu_updated_profile answer) ∈ [2; 3; 5] ∧
       (∀ t, t < now + 86400 →
          redis_get t r' (user_profile_key (pur_publisher_id profile_update) session_id)
          = Ok (Some (RJson (DProfile
                  {| up_language := up_language p;
                     up_expertise_level := upd_expertise_level (pu_updated_profile answer);
                     up_task_preferences := up_task_preferences p;
                     up_max_complexity := upd_max_complexity (pu_updated_profile answer) |}
                  (Some (upd_expertise_areas (pu_updated_profile answer)))
                  (Some (upd_preferred_languages (pu_updated_profile answer))))))) ∧
       (∀ key,
          key ≠ user_profile_key (pur_publisher_id profile_update) session_id →
          r' !! key = r !! key)).
Proof.
  split.
  - intros Hnone. unfold update_user_profile. by rewrite Hnone.
  - intros p areas langs Hp.
    rewrite (update_user_profile_with_profile now r session_id profile_update
               p areas langs Hp).
    eexists _, _. split; [reflexivity|]. simpl. split_and!.
    + done.
    + apply max_complexity_of_cases.
    + intros t Ht. by apply redis_get_set_json.
    + intros key Hkey. unfold redis_set. by rewrite lookup_insert_ne.
Qed.

(** An instance: an update against the example profile. *)
Lemma update_user_profile_stores_its_answer_witness :
  ∃ answer r',
    update_user_profile 2000 example_profile_store "sess_a" example_profile_update
      = Ok (Some answer, r') ∧
    pu_success answer = true.
Proof.
  destruct (proj2 (update_user_profile_stores_its_answer 2000 example_profile_store
                     "sess_a" example_profile_update)
              example_profile None None)
    as (answer & r' & Hrun & Hok & _).
  - vm_compute. reflexivity.
  - exists answer, r'. split; [exact Hrun | exact Hok].
Defined.

(** X18: the upgrade rule also lowers.  For a profile at level [expert],
    metrics with at least 10 completions and an accuracy of at least 0.85
    that miss the [expert] bar (accuracy below 0.9, or fewer than 50
    completions) set the level to [intermediate] and the maximum
    complexity from 5 to 3. *)
Theorem update_user_profile_can_demote now (r : redis) session_id profile_update
    p areas langs m :
  redis_get now r (user_profile_key (pur_publisher_id profile_update) session_id)
    = Ok (Some (RJson (DProfile p areas langs))) →
  up_expertise_level p = "expert" →
  pur_performance_metrics profile_update = Some m →
  (0.85 <=? pm_accuracy m)%float = true →
  10 ≤ pm_task_completions m →
  (0.9 <=? pm_accuracy m)%float = false ∨ pm_task_completions m < 50 →
  ∃ answer r',
    update_user_profile now r session_id profile_update = Ok (Some answer, r') ∧
    upd_expertise_level (pu_updated_profile answer) = "intermediate" ∧
    upd_max_complexity (pu_updated_profile answer) = 3 ∧
    max_complexity_of (up_expertise_level p) = 5.
Proof.
  intros Hp Hexpert Hm Hacc Hdone Hmiss.
  rewrite (update_user_profile_with_profile now r session_id profile_update
             p areas langs Hp).
  eexists _, _. split; [reflexivity|]. simpl.
  assert (next_expertise_level (up_expertise_level p)
            (pur_performance_metrics profile_update) = "intermediate") as ->.
  { rewrite Hm. unfold next_expertise_level. rewrite Hacc.
    destruct (Z.leb_spec 10 (pm_task_completions m)); [|lia]. simpl.
    destruct Hmiss as [-> | Hfew]; [done|].
    destruct (Z.leb_spec 50 (pm_task_completions m)); [lia|].
    by rewrite andb_false_r. }
  rewrite Hexpert. done.
Qed.

(** An instance: an accuracy of 0.86 over 12 tasks. *)
Lemma update_user_profile_can_demote_witness :
  ∃ answer r',
    update_user_profile 2000 example_profile_store "sess_a" example_profile_update
      = Ok (Some answer, r') ∧
    upd_expertise_level (pu_updated_profile answer) = "intermediate".
Proof.
  destruct (update_user_profile_can_demote 2000 example_profile_store "sess_a"
              example_profile_update example_profile None None
              {| pm_accuracy := 0.86; pm_average_time_ms := 3000;
                 pm_task_completions := 12 |})
    as (answer & r' & Hrun & Hlevel & _).
  - vm_compute. reflexivity.
  - reflexivity.
  - reflexivity.
  - vm_compute. reflexivity.
  - simpl. lia.
  - left. vm_compute. reflexivity.
  - exists answer, r'. split; [exact Hrun | exact Hlevel].
Defined.

(** X19: the preferred languages of an update with a proficiency table
    are the table's languages, each once, ordered by proficiency from
    [native] down to [beginner] with unknown proficiency texts last;
    languages of equal proficiency keep the order of the table. *)
Theorem preferred_languages_order now (r : redis) session_id profile_update
    p areas langs lp :
  redis_get now r (user_profile_key (pur_publisher_id profile_update) session_id)
    = Ok (Some (RJson (DProfile p areas langs))) →
  pur_language_proficiency profile_update = Some lp →
  ∃ answer r',
    update_user_profile now r session_id profile_update = Ok (Some answer, r') ∧
    upd_preferred_languages (pu_updated_profile answer) ≡ₚ lp.*1 ∧
    StronglySorted (λ a b, language_rank lp b ≤ language_rank lp a)
      (upd_preferred_languages (pu_updated_profile answer)) ∧
    (∀ k, filter (λ lang, language_rank lp lang = k)
            (upd_preferred_languages (pu_updated_profile answer))
          = filter (λ lang, language_rank lp lang = k) (lp.*1)) ∧
    (∀ lang level, (lang, level) ∈ lp → NoDup (lp.*1) →
       language_rank lp lang =
         (if String.eqb level "native" then 3
          else if String.eqb level "fluent" then 2
          else if String.eqb level "intermediate" then 1
          else if String.eqb level "beginner" then 0
          else -1)).
Proof.
  intros Hp Hlp.
  rewrite (update_user_profile_with_profile now r session_id profile_update
             p areas langs Hp).
  eexists _, _. split; [reflexivity|]. simpl. rewrite Hlp. split_and!.
  - apply sorted_desc_perm.
  - apply sorted_desc_sorted.
  - intros k. apply sorted_desc_filter.
  - intros lang level Hin Hnodup. unfold language_rank.
    assert (dict_get lp lang = Some level) as ->; [|done].
    clear Hlp. induction lp as [|[k v] lp IH]; [by apply elem_of_nil in Hin|].
    simpl in *. apply NoDup_cons in Hnodup as [Hk Hnodup].
    apply elem_of_cons in Hin as [[= <- <-] | Hin].
    + by rewrite String.eqb_refl.
    + destruct (String.eqb_spec k lang) as [->|Hne]; [|by apply IH].
      destruct Hk. apply list_elem_of_fmap. by exists (lang, level).
Qed.

(** An instance: four languages, one of them with an unknown proficiency. *)
Lemma preferred_languages_order_witness :
  ∃ answer r',
    update_user_profile 2000 example_profile_store "sess_a" example_profile_update
      = Ok (Some answer, r') ∧
    upd_preferred_languages (pu_updated_profile answer) ≡ₚ ["en"; "fr"; "de"; "xx"].
Proof.
  destruct (preferred_languages_order 2000 example_profile_store "sess_a"
              example_profile_update example_profile None None
              [("en", "fluent"); ("fr", "native"); ("de", "fluent"); ("xx", "some")])
    as (answer & r' & Hrun & Hperm & _).
  - vm_compute. reflexivity.
  - reflexivity.
  - exists answer, r'. split; [exact Hrun | exact Hperm].
Defined.

(** X20: the next task after an update follows the updated profile, and
    its complexity is capped at 3.  For a day after the update the task
    selected for the session has complexity 2 or 3 (3 for an [expert],
    whose maximum complexity of 5 is never reached), and it is golden-set
    exactly when the updated level is [beginner] and the counter reads 0. *)
Theorem next_task_after_update now (r : redis) session_id profile_update p areas langs
    t uuid language website_category previous_task_id counter :
  redis_get now r (user_profile_key (pur_publisher_id profile_update) session_id)
    = Ok (Some (RJson (DProfile p areas langs))) →
  redis_get t r (tasks_completed_key session_id) = Ok counter →
  now ≤ t < now + 86400 →
  ∃ answer r1 task r2,
    update_user_profile now r session_id profile_update = Ok (Some answer, r1) ∧
    get_next_task t uuid r1 session_id (pur_publisher_id profile_update)
      language website_category previous_task_id = Ok (Some task, r2) ∧
    complexity_level task = Z.min (upd_max_complexity (pu_updated_profile answer)) 3 ∧
    2 ≤ complexity_level task ≤ 3 ∧
    (upd_expertise_level (pu_updated_profile answer) = "expert" →
     upd_max_complexity (pu_updated_profile answer) = 5 ∧ complexity_level task = 3) ∧
    (golden_set task = true ↔
     upd_expertise_level (pu_updated_profile answer) = "beginner" ∧
     counter = Some (RStr "0")).
Proof.
  intros Hp Hcounter Ht.
  rewrite (update_user_profile_with_profile now r session_id profile_update
             p areas langs Hp).
  cbv zeta.
  set (level := next_expertise_level _ _).
  set (p1 := Build_UserProfile _ _ _ _).
  set (r1 := redis_set now r _ _ _).
  assert (Hp1 : redis_get t r1 (user_profile_key (pur_publisher_id profile_update)
                                  session_id)
                = Ok (Some (RJson (DProfile p1 (Some
                        match pur_expertise_areas profile_update with
                        | Some (a :: l) => a :: l
                        | _ => default [] areas
                        end) (Some
                        match pur_language_proficiency profile_update with
                        | Some lp => sorted_desc (language_rank lp) (lp.*1)
                        | None => [up_language p]
                        end))))).
  { subst r1. apply redis_get_set_json. lia. }
  assert (Hc1 : redis_get t r1 (tasks_completed_key session_id) = Ok counter).
  { subst r1. by rewrite redis_get_set_ne by auto with keys. }
  destruct (get_next_task_with_profile t uuid r1 session_id
              (pur_publisher_id profile_update) language website_category
              previous_task_id p1 _ _ counter Hp1 Hc1)
    as (task & Hrun & _ & Hcx & Hgolden).
  eexists _, r1, task, _. split; [reflexivity|]. split; [exact Hrun|].
  simpl in *. pose proof (max_complexity_of_cases level) as Hcases.
  rewrite !elem_of_cons in Hcases. split_and!.
  - done.
  - rewrite Hcx. destruct Hcases as [-> | [-> | [-> | []%elem_of_nil]]]; lia.
  - rewrite Hcx. destruct Hcases as [-> | [-> | [-> | []%elem_of_nil]]]; lia.
  - intros Hexpert. rewrite Hcx, Hexpert. done.
  - done.
Qed.

(** An instance: the example update, then a task 100 seconds later. *)
Lemma next_task_after_update_witness :
  ∃ answer r1 task r2,
    update_user_profile 2000 example_profile_store "sess_a" example_profile_update
      = Ok (Some answer, r1) ∧
    get_next_task 2100 "11111111-2222-4333-8444-555555555555" r1 "sess_a" "pub_1"
      None None None = Ok (Some task, r2) ∧
    2 ≤ complexity_level task ≤ 3.
Proof.
  destruct (next_task_after_update 2000 example_profile_store "sess_a"
              example_profile_update example_profile None None
              2100 "11111111-2222-4333-8444-555555555555" None None None None)
    as (answer & r1 & task & r2 & Hupd & Hnext & _ & Hcx & _).
  - vm_compute. reflexivity.
  - vm_compute. reflexivity.
  - lia.
  - exists answer, r1, task, r2. split_and!; [exact Hupd | exact Hnext | apply Hcx..].
Defined.

(** ** SDK authentication and the handlers behind it *)

Lemma session_key_ne_assignment p s t : session_key p s ≠ assignment_key t.
Proof. keys_differ. Qed.
Lemma session_key_ne_task p s t : session_key p s ≠ task_key t.
Proof. keys_differ. Qed.

Lemma prefix_pub_nonempty publisher_id :
  String.prefix "pub_" publisher_id = true → String.eqb publisher_id "" = false.
Proof. by destruct publisher_id. Qed.

(** Authentication against a live session record. *)
Lemma get_sdk_auth_live now (r : redis) publisher_id session_token e d :
  r !! session_key publisher_id session_token = Some e →
  e_val e = RJson d →
  live now e = true →
  String.prefix "pub_" publisher_id = true →
  String.eqb session_token "" = false →
  get_sdk_auth now r (Some publisher_id) (Some session_token) =
    Ok (Reply {| auth_publisher_id := publisher_id; auth_session_id := session_token |}).
Proof.
  intros Hk Hv Hl Hpub Htok. unfold get_sdk_auth. simpl.
  rewrite (prefix_pub_nonempty _ Hpub), Htok. simpl.
  unfold redis_get. rewrite (proj2 (redis_lookup_Some now r _ e) (conj Hk Hl)), Hv.
  simpl. unfold get_publisher_by_id. by rewrite Hpub.
Qed.

(** X21: who can use a session.  The identifier returned by
    [initialize_user_session], sent with the publisher's identifier,
    passes [get_sdk_auth] exactly when the publisher's identifier starts
    with [pub_] and the clock has not passed the session's deadline, 86400
    seconds after its creation: the record is still served in the second
    of the deadline.  Every other request with these headers is answered
    401.  A session created for a publisher whose identifier lacks the
    prefix can never be used. *)
Theorem session_authenticates t0 hex0 (r : redis) session_request t :
  get_sdk_auth t (initialize_user_session t0 hex0 r session_request).2
    (Some (sir_publisher_id session_request))
    (Some (sr_session_id (initialize_user_session t0 hex0 r session_request).1)) =
  Ok (if String.prefix "pub_" (sir_publisher_id session_request) && (t <=? t0 + 86400)
      then Reply {| auth_publisher_id := sir_publisher_id session_request;
                    auth_session_id :=
                      sr_session_id (initialize_user_session t0 hex0 r session_request).1 |}
      else HttpError 401 "authentication_failed").
Proof.
  unfold initialize_user_session. simpl.
  set (sid := "sess_" +:+ substring 0 12 hex0).
  set (pid := sir_publisher_id session_request).
  unfold get_sdk_auth. simpl header_missing.
  destruct (String.eqb_spec pid "") as [Hempty|Hpid].
  { rewrite Hempty. done. }
  change (String.eqb sid "") with false. simpl orb. cbv iota. simpl default.
  rewrite !redis_get_set_ne by auto with keys.
  unfold redis_get, redis_set. rewrite redis_lookup_insert_eq. unfold live. simpl.
  destruct (t <=? t0 + 86400); simpl.
  - unfold get_publisher_by_id. by destruct (String.prefix "pub_" pid).
  - by rewrite andb_false_r.
Qed.

(** X22: the SDK's round through the handlers.  For a publisher whose
    identifier starts with [pub_], the headers of a fresh session pass
    [get_sdk_auth]; the handler for the next task answers with a
    golden-set task; the handler for its submission, within the hour and
    the session's day, answers with success, the score 1.0 and two hours
    of access when the response is [Blue], and the score 0.3 and thirty
    minutes otherwise. *)
Theorem sdk_round t0 hex0 (r : redis) session_request
    t1 uuid1 language website_category previous_task_id
    t2 hex2 response time_spent_ms session_info :
  String.prefix "pub_" (sir_publisher_id session_request) = true →
  t1 < t0 + 86400 → t2 < t0 + 86400 → t2 < t1 + 3600 →
  ∃ auth task r1 result r2,
    get_sdk_auth t1 (initialize_user_session t0 hex0 r session_request).2
      (Some (sir_publisher_id session_request))
      (Some (sr_session_id (initialize_user_session t0 hex0 r session_request).1))
      = Ok (Reply auth) ∧
    get_next_task_for_user t1 uuid1
      (initialize_user_session t0 hex0 r session_request).2 auth
      (auth_session_id auth) (auth_publisher_id auth)
      language website_category previous_task_id = Ok (Reply task, r1) ∧
    golden_set task = true ∧
    get_sdk_auth t2 r1 (Some (auth_publisher_id auth)) (Some (auth_session_id auth))
      = Ok (Reply auth) ∧
    submit_task_result_for_user t2 hex2 r1 auth (task_id task)
      {| sub_session_id := auth_session_id auth;
         sub_publisher_id := auth_publisher_id auth;
         sub_response := response; sub_time_spent_ms := time_spent_ms;
         sub_session_info := session_info |} = Ok (Reply result, r2) ∧
    success result = true ∧
    sbr_quality_score result
      = (if response_eqb response "Blue" then 1.0 else 0.3)%float ∧
    rw_duration_seconds (reward result)
      = Some (if response_eqb response "Blue" then 7200 else 1800).
Proof.
  intros Hpub Ht1 Ht2 Ht2'. unfold initialize_user_session. simpl.
  set (sid := "sess_" +:+ substring 0 12 hex0).
  set (pid := sir_publisher_id session_request) in *.
  set (profile := Build_UserProfile _ _ _ _).
  set (r0 := redis_set t0 (redis_set t0 (redis_set t0 r _ _ _) _ _ _) _ _ _).
  pose (session :=
          {| e_val := RJson (DSession sid pid t0 (t0 + 86400)
                               (sir_client_info session_request)
                               (sir_consent session_request));
             e_exp := Some (t0 + 86400) |}).
  assert (Hs0 : r0 !! session_key pid sid = Some session).
  { subst r0. unfold redis_set.
    rewrite !lookup_insert_ne by (apply not_eq_sym; auto with keys).
    by rewrite lookup_insert_eq. }
  assert (Hlive : ∀ t, t < t0 + 86400 → live t session = true).
  { intros t Ht. unfold live; simpl. apply Z.leb_le. lia. }
  exists {| auth_publisher_id := pid; auth_session_id := sid |}. simpl.
  (* the first selection *)
  assert (Hprofile1 : redis_get t1 r0 (user_profile_key pid sid)
                      = Ok (Some (RJson (DProfile profile None None)))).
  { subst r0. rewrite redis_get_set_ne by (apply not_eq_sym; auto with keys).
    by rewrite redis_get_set_json. }
  assert (Hcounter1 : redis_get t1 r0 (tasks_completed_key sid) = Ok (Some (RStr "0"))).
  { subst r0. by rewrite redis_get_set_str. }
  destruct (get_next_task_with_profile t1 uuid1 r0 sid pid language website_category
              previous_task_id profile None None _ Hprofile1 Hcounter1)
    as (task1 & Hrun1 & Hid1 & _ & Hgolden1).
  assert (golden_set task1 = true) as Hg1 by (by apply Hgolden1).
  rewrite Hg1 in Hrun1.
  set (doc := DTask _ _ _ _ _ _ _ _) in Hrun1.
  set (r1 := redis_set t1 (redis_set t1 r0 _ _ _) _ _ _) in Hrun1.
  assert (Hs1 : r1 !! session_key pid sid = Some session).
  { subst r1. unfold redis_set.
    rewrite lookup_insert_ne by (apply not_eq_sym, session_key_ne_task).
    by rewrite lookup_insert_ne by (apply not_eq_sym, session_key_ne_assignment). }
  (* the submission *)
  assert (Htask2 : redis_get t2 r1 (task_key uuid1) = Ok (Some (RJson doc))).
  { subst r1. by rewrite redis_get_set_json. }
  pose proof (submit_task_result_with_task t2 hex2 r1 uuid1
                {| sub_session_id := sid; sub_publisher_id := pid;
                   sub_response := response; sub_time_spent_ms := time_spent_ms;
                   sub_session_info := session_info |}
                doc Htask2) as Hsubmit.
  cbv zeta in Hsubmit. simpl sub_session_id in Hsubmit.
  set (r2' := redis_set t2 (redis_set t2 r1 _ _ _) _ _ _) in Hsubmit.
  assert (Hcounter2 : redis_lookup t2 r2' (tasks_completed_key sid)
                      = Some {| e_val := RStr "0"; e_exp := Some (t0 + 86400) |}).
  { subst r2' r1 r0. rewrite !redis_lookup_set_ne by auto with keys.
    by rewrite redis_lookup_set_eq. }
  rewrite (redis_incr_zero _ _ _ _ Hcounter2) in Hsubmit.
  eexists task1, r1, _, _. rewrite Hid1.
  unfold get_next_task_for_user, submit_task_result_for_user. simpl.
  rewrite !String.eqb_refl. simpl. rewrite Hrun1, Hsubmit.
  split_and!; try done.
  - apply (get_sdk_auth_live t1 r0 pid sid session _ Hs0 eq_refl (Hlive t1 Ht1) Hpub).
    done.
  - apply (get_sdk_auth_live t2 r1 pid sid session _ Hs1 eq_refl (Hlive t2 Ht2) Hpub).
    done.
  - simpl. subst doc. unfold score_label. simpl.
    by destruct (response_eqb response "Blue").
  - simpl. subst doc. unfold score_label. simpl.
    by destruct (response_eqb response "Blue").
Qed.

(** An instance: the example session, a task at 1010, the answer at 1020. *)
Lemma sdk_round_witness :
  ∃ auth task r1 result r2,
    get_sdk_auth 1010
      (initialize_user_session 1000 "0123456789abcdef0123456789abcdef" ∅
         example_session_request).2
      (Some "pub_1") (Some "sess_0123456789ab") = Ok (Reply auth) ∧
    get_next_task_for_user 1010 "11111111-2222-4333-8444-555555555555"
      (initialize_user_session 1000 "0123456789abcdef0123456789abcdef" ∅
         example_session_request).2 auth
      (auth_session_id auth) (auth_publisher_id auth) None None None
      = Ok (Reply task, r1) ∧
    submit_task_result_for_user 1020 "fedcba9876543210" r1 auth (task_id task)
      {| sub_session_id := auth_session_id auth;
         sub_publisher_id := auth_publisher_id auth;
         sub_response := RespStr "Blue"; sub_time_spent_ms := 1200;
         sub_session_info := example_session_info |} = Ok (Reply result, r2) ∧
    success result = true.
Proof.
  destruct (sdk_round 1000 "0123456789abcdef0123456789abcdef" ∅ example_session_request
              1010 "11111111-2222-4333-8444-555555555555" None None None
              1020 "fedcba9876543210" (RespStr "Blue") 1200 example_session_info)
    as (auth & task & r1 & result & r2 & Hauth & Hnext & _ & _ & Hsubmit & Hok & _).
  - reflexivity.
  - lia.
  - lia.
  - lia.
  - exists auth, task, r1, result, r2.
    split_and!; [exact Hauth | exact Hnext | exact Hsubmit | exact Hok].
Defined.

(** X23: a session acts for itself only.  Whatever headers pass
    [get_sdk_auth], the three handlers behind it answer 400
    [invalid_parameter] and leave the store untouched as soon as the
    publisher or session named in the query, the path or the body differs
    from the headers. *)
Theorem handlers_reject_foreign_ids now (r : redis) x_publisher_id x_session_token auth
    publisher_id session_id :
  get_sdk_auth now r x_publisher_id x_session_token = Ok (Reply auth) →
  x_publisher_id ≠ Some publisher_id ∨ x_session_token ≠ Some session_id →
  (∀ uuid language website_category previous_task_id,
     get_next_task_for_user now uuid r auth session_id publisher_id
       language website_category previous_task_id
     = Ok (HttpError 400 "invalid_parameter", r)) ∧
  (∀ hex task_id response time_spent_ms session_info,
     submit_task_result_for_user now hex r auth task_id
       {| sub_session_id := session_id; sub_publisher_id := publisher_id;
          sub_response := response; sub_time_spent_ms := time_spent_ms;
          sub_session_info := session_info |}
     = Ok (HttpError 400 "invalid_parameter", r)) ∧
  (∀ areas preferences proficiency metrics,
     update_profile now r auth session_id
       {| pur_publisher_id := publisher_id; pur_expertise_areas := areas;
          pur_task_preferences := preferences;
          pur_language_proficiency := proficiency;
          pur_performance_metrics := metrics |}
     = Ok (HttpError 400 "invalid_parameter", r)).
Proof.
  intros Hauth Hforeign.
  assert (Hids : x_publisher_id = Some (auth_publisher_id auth) ∧
                 x_session_token = Some (auth_session_id auth)).
  { unfold get_sdk_auth in Hauth.
    destruct x_publisher_id as [xp|]; [|done].
    destruct x_session_token as [xt|]; [|by rewrite orb_true_r in Hauth].
    simpl in Hauth.
    destruct (String.eqb xp "" || String.eqb xt ""); [done|].
    destruct (redis_get now r (session_key xp xt)) as [|data]; [done|].
    destruct (falsy data); [done|].
    destruct (get_publisher_by_id now xp); [|done].
    by injection Hauth as <-. }
  destruct Hids as [-> ->].
  assert (String.eqb publisher_id (auth_publisher_id auth) = false ∨
          String.eqb session_id (auth_session_id auth) = false) as Hne.
  { destruct Hforeign as [H|H]; [left|right]; apply String.eqb_neq; congruence. }
  unfold get_next_task_for_user, submit_task_result_for_user, update_profile. simpl.
  destruct Hne as [-> | Hs]; simpl; [done|].
  rewrite Hs. by destruct (String.eqb publisher_id (auth_publisher_id auth)).
Qed.

(** An instance: the headers of the example session, asking for another
    session's task. *)
Lemma handlers_reject_foreign_ids_witness :
  get_next_task_for_user 1010 "11111111-2222-4333-8444-555555555555"
    (initialize_user_session 1000 "0123456789abcdef0123456789abcdef" ∅
       example_session_request).2
    {| auth_publisher_id := "pub_1"; auth_session_id := "sess_0123456789ab" |}
    "sess_other" "pub_1" None None None
  = Ok (HttpError 400 "invalid_parameter",
        (initialize_user_session 1000 "0123456789abcdef0123456789abcdef" ∅
           example_session_request).2).
Proof.
  destruct (handlers_reject_foreign_ids 1010
              (initialize_user_session 1000 "0123456789abcdef0123456789abcdef" ∅
                 example_session_request).2
              (Some "pub_1") (Some "sess_0123456789ab")
              {| auth_publisher_id := "pub_1"; auth_session_id := "sess_0123456789ab" |}
              "pub_1" "sess_other") as [Hnext _].
  - vm_compute. reflexivity.
  - right. discriminate.
  - apply Hnext.
Defined.

(** ** Which paths are submissions *)

Lemma prefix_iff lit s : String.prefix lit s = true ↔ ∃ b, s = lit +:+ b.
Proof.
  revert lit. induction s as [|c s IH]; intros [|a lit]; simpl.
  - split; [by exists "" | done].
  - split; [done | by intros [b [=]]].
  - split; [by exists (String c s) | done].
  - destruct (ascii_dec a c) as [->|Hne].
    + rewrite IH. split; intros [b Hb]; exists b; [by rewrite Hb | by injection Hb].
    + split; [done|]. intros [b [= -> _]]. done.
Qed.

Lemma strip_prefix_iff p s rest : strip_prefix p s = Some rest ↔ s = p +:+ rest.
Proof.
  revert s. induction p as [|a p IH]; intros s; simpl.
  - split; [by intros [= ->] | by intros ->].
  - destruct s as [|c s]; [done|].
    destruct (Ascii.eqb_spec a c) as [->|Hne].
    + rewrite IH. split; [by intros -> | by intros [= ->]].
    + split; [done|]. intros [= -> _]. done.
Qed.

Lemma dot_plus_then_iff lit seen s :
  dot_plus_then lit seen s = true ↔
  ∃ a b, s = a +:+ lit +:+ b ∧ lacks (Ascii.ascii_of_nat 10) a ∧
         (seen = true ∨ a ≠ "").
Proof.
  revert seen. induction s as [|c s IH]; intros seen.
  - change (dot_plus_then lit seen "") with ((seen && String.prefix lit "") || false).
    rewrite orb_false_r, andb_true_iff, prefix_iff. split.
    + intros [-> [b Hb]]. exists "", b. simpl. auto.
    + intros (a & b & Hs & _ & Hseen). destruct a as [|? ?]; [|done].
      simpl in Hs. split; [by destruct Hseen | by exists b].
  - change (dot_plus_then lit seen (String c s)) with
      ((seen && String.prefix lit (String c s)) ||
       (if Ascii.eqb c (Ascii.ascii_of_nat 10) then false else dot_plus_then lit true s)).
    rewrite orb_true_iff, andb_true_iff, prefix_iff. split.
    + intros [[-> [b Hb]] | Hrest].
      * exists "", b. simpl. auto.
      * destruct (Ascii.eqb_spec c (Ascii.ascii_of_nat 10)) as [|Hc]; [done|].
        apply IH in Hrest as (a & b & -> & Ha & _).
        exists (String c a), b. simpl. split_and!; auto.
    + intros (a & b & Hs & Ha & Hseen). destruct a as [|c' a].
      * left. simpl in Hs. split; [by destruct Hseen | by exists b].
      * right. simpl in Hs, Ha. injection Hs as <- ->. destruct Ha as [Hc Ha].
        destruct (Ascii.eqb_spec c (Ascii.ascii_of_nat 10)) as [|_]; [done|].
        apply IH. exists a, b. auto.
Qed.

(** X24: the paths that [_get_rate_limit_for_path] takes for task
    submissions are those of the form [/v1/tasks/<id>/submit...] with an
    [<id>] of at least one character and no line break in it; each of
    them gets the limit configured for tasks, also when [<id>] is
    [batch]. *)
Theorem submit_paths (int : string → outcome Z) settings path :
  (matches_task_submit path = true ↔
   ∃ id rest,
     path = "/v1/tasks/" +:+ id +:+ "/submit" +:+ rest ∧
     id ≠ "" ∧ lacks (Ascii.ascii_of_nat 10) id) ∧
  (matches_task_submit path = true →
   _get_rate_limit_for_path int settings path
   = parse_rate_limit int (RATE_LIMIT_TASKS settings)).
Proof.
  split.
  - unfold matches_task_submit. split.
    + destruct (strip_prefix "/v1/tasks/" path) as [rest|] eqn:Hstrip; [|done].
      apply strip_prefix_iff in Hstrip as ->.
      intros (id & b & -> & Hid & [[=] | Hne])%dot_plus_then_iff.
      by exists id, b.
    + intros (id & rest & -> & Hne & Hid).
      assert (strip_prefix "/v1/tasks/" ("/v1/tasks/" +:+ id +:+ "/submit" +:+ rest)
              = Some (id +:+ "/submit" +:+ rest)) as -> by (by apply strip_prefix_iff).
      apply dot_plus_then_iff. exists id, rest. auto.
  - intros Hsubmit. unfold _get_rate_limit_for_path. rewrite Hsubmit.
    by destruct (String.prefix "/v1/tasks/next" path).
Qed.

(** An instance: the submission path of the task [batch]. *)
Lemma submit_paths_witness :
  _get_rate_limit_for_path example_int example_settings "/v1/tasks/batch/submit"
  = parse_rate_limit example_int (RATE_LIMIT_TASKS example_settings).
Proof.
  apply (proj2 (submit_paths example_int example_settings "/v1/tasks/batch/submit")).
  reflexivity.
Defined.
